(** * Custom-domain lifecycle of simplhost-dashboard

    A shallow embedding of the mutating route handlers of the domains API
    (POST / PATCH / DELETE on /domains) together with the helpers they
    use: [getTokenFromRequest], [normalizeHostname], [ensureUser],
    [createCustomHostname] and [fetchCustomHostnameStatus].

    Strings are sequences of code units below 256 (the Latin-1 range of a
    JavaScript string); the string primitives of the language are defined
    on that range.  The record store, the authentication service and the
    edge provider are collaborators: their answers are inputs of a request
    (an [oracle]), the rows they hold and the calls they receive are kept
    in an explicit [world]. *)

From Stdlib Require Import Bool Arith List Ascii String Lia.
Import ListNotations.

Local Open Scope string_scope.
Local Open Scope list_scope.
Local Open Scope nat_scope.

(* ================================================================= *)
(** ** String primitives of the language *)

Module Js.

(** [String.prototype.toLowerCase] on one code unit below 256: the
    letters A-Z and the Latin-1 capitals U+00C0..U+00DE (U+00D7, the
    multiplication sign, excepted) move up by 32. *)
Definition lower_char (c : ascii) : ascii :=
  let n := nat_of_ascii c in
  if ((65 <=? n) && (n <=? 90))
     || ((192 <=? n) && (n <=? 222) && negb (n =? 215))
  then ascii_of_nat (n + 32)
  else c.

Fixpoint toLowerCase (s : string) : string :=
  match s with
  | EmptyString => EmptyString
  | String c r => String (lower_char c) (toLowerCase r)
  end.

(** [strip_prefix p s] is [Some r] when [s] is [p] followed by [r]. *)
Fixpoint strip_prefix (p s : string) : option string :=
  match p, s with
  | EmptyString, _ => Some s
  | String a p', String b s' =>
      if Ascii.eqb a b then strip_prefix p' s' else None
  | String _ _, EmptyString => None
  end.

(** [s.replace(/^https?:\/\//, "")]: the pattern is anchored at the start
    and not global, so one scheme is removed at most. *)
Definition replace_scheme (s : string) : string :=
  match strip_prefix "https://" s with
  | Some r => r
  | None =>
      match strip_prefix "http://" s with
      | Some r => r
      | None => s
      end
  end.

Definition is_slash (c : ascii) : bool := Ascii.eqb c "/".

(** [s.replace(/\/+$/, "")]: the leftmost match is the whole final run of
    slashes. *)
Fixpoint replace_trailing_slashes (s : string) : string :=
  match s with
  | EmptyString => EmptyString
  | String c r =>
      match replace_trailing_slashes r with
      | EmptyString => if is_slash c then EmptyString else String c EmptyString
      | r' => String c r'
      end
  end.

(** White space of [String.prototype.trim] below 256: TAB, LF, VT, FF, CR,
    SPACE and NO-BREAK SPACE. *)
Definition is_space (c : ascii) : bool :=
  let n := nat_of_ascii c in
  ((9 <=? n) && (n <=? 13)) || (n =? 32) || (n =? 160).

Fixpoint trimStart (s : string) : string :=
  match s with
  | EmptyString => EmptyString
  | String c r => if is_space c then trimStart r else s
  end.

Fixpoint trimEnd (s : string) : string :=
  match s with
  | EmptyString => EmptyString
  | String c r =>
      match trimEnd r with
      | EmptyString => if is_space c then EmptyString else String c EmptyString
      | r' => String c r'
      end
  end.

Definition trim (s : string) : string := trimEnd (trimStart s).

(** [s.split(" ")]: always at least one component; two adjacent spaces
    give an empty component. *)
Fixpoint split_space (s : string) : list string :=
  match s with
  | EmptyString => [EmptyString]
  | String c r =>
      if Ascii.eqb c " " then EmptyString :: split_space r
      else
        match split_space r with
        | h :: t => String c h :: t
        | [] => [String c EmptyString]
        end
  end.

(** Truthiness of a value that is a string, [null] or [undefined]. *)
Definition truthy (v : option string) : bool :=
  match v with
  | Some s => negb (String.eqb s "")
  | None => false
  end.

(** [a || b] *)
Definition or_else (a b : option string) : option string :=
  if truthy a then a else b.

(** [a || d] where [d] is a string literal: the result is a string. *)
Definition str_or (a : option string) (d : string) : string :=
  match or_else a (Some d) with
  | Some s => s
  | None => d
  end.

(** [a ?? b] *)
Definition nullish (a b : option string) : option string :=
  match a with
  | Some _ => a
  | None => b
  end.

End Js.

(* ================================================================= *)
(** ** Helpers of the route module *)

(** [normalizeHostname] *)
Definition normalizeHostname (hostname : string) : string :=
  Js.replace_trailing_slashes (Js.replace_scheme (Js.toLowerCase hostname)).

(** [getTokenFromRequest], on the value of the authorization header
    ([None] when the request carries none). *)
Definition getTokenFromRequest (authorization : option string) : option string :=
  let header := Js.str_or authorization "" in
  let token := nth_error (Js.split_space header) 1 in
  Js.or_else token None.

(* ================================================================= *)
(** ** Data model *)

(** A row of the [sites] table, with the columns the module selects. *)
Record site_row := mkSite {
  site_id : string;
  site_domain : string;
  site_user_id : string
}.

(** A row of the [domains] table.  The nullable columns are options. *)
Record domain_row := mkDomain {
  dom_id : string;
  dom_site_id : string;
  dom_user_id : string;
  dom_hostname : string;
  dom_cf_custom_hostname_id : option string;
  dom_status : option string;
  dom_verification_method : option string;
  dom_verification_value : option string;
  dom_created_at : string;
  dom_updated_at : option string
}.

(** One entry of [ssl.validation_records], with the fields the module
    reads.  The empty object is [empty_record]. *)
Record validation_record := mkValidation {
  cname_target : option string;
  txt_value : option string;
  http_url : option string
}.

Definition empty_record : validation_record := mkValidation None None None.

(** The provider's JSON answer.  [ssl_validation_records] is [None] when the
    member is absent or is not an array; [json_errors] lists the [message]
    member of each reported error. *)
Record cf_ssl := mkSsl {
  ssl_status : option string;
  ssl_validation_records : option (list validation_record)
}.

Record cf_result := mkResult {
  result_id : option string;
  result_ssl : option cf_ssl
}.

Record cf_json := mkJson {
  json_errors : list (option string);
  json_result : option cf_result
}.

Definition empty_ssl : cf_ssl := mkSsl None None.
Definition empty_result : cf_result := mkResult None None.

(** What [createCustomHostname] and [fetchCustomHostnameStatus] return; the
    latter has no [id] member. *)
Record cf_hostname := mkCf {
  cf_id : option string;
  cf_status : option string;
  cf_verification_method : option string;
  cf_verification_value : option string;
  cf_validation_records : list validation_record
}.

(** Process configuration, read once from the environment. *)
Record process_env := mkEnv {
  env_CLOUDFLARE_API_TOKEN : option string;
  env_CLOUDFLARE_ZONE_ID : option string;
  env_CLOUDFLARE_CNAME_TARGET : option string
}.

Definition CLOUDFLARE_API_TOKEN (e : process_env) := env_CLOUDFLARE_API_TOKEN e.
Definition CLOUDFLARE_ZONE_ID (e : process_env) := env_CLOUDFLARE_ZONE_ID e.
Definition CLOUDFLARE_CNAME_TARGET (e : process_env) : option string :=
  Js.or_else (env_CLOUDFLARE_CNAME_TARGET e) (Some "edge.simplhost.com").

(** [DomainPayload] *)
Record DomainPayload := mkPayload {
  siteId : option string;
  hostname : option string;
  id : option string
}.

(** A request: the authorization header and the parsed JSON body ([None]
    when the body is not JSON, as [req.json().catch(() => null)] gives). *)
Record request := mkRequest {
  authorization : option string;
  payload : option DomainPayload
}.

Inductive response_body :=
| ErrorJson (error : string)
| DomainJson (domain : domain_row) (dnsRecords : list validation_record)
             (cnameTarget : option string)
| SuccessJson.

Record http_response := mkResponse {
  status_code : nat;
  body : response_body
}.

(** [NextResponse.json(b)] and [NextResponse.json(b, { status })] *)
Definition json_ok (b : response_body) : http_response := mkResponse 200 b.
Definition json_error (msg : string) (status : nat) : http_response :=
  mkResponse status (ErrorJson msg).

(* ================================================================= *)
(** ** The collaborators *)

(** Calls received by the edge provider, newest first. *)
Inductive cf_call :=
| CfCreate (hostname : string)
| CfStatus (customHostnameId : string)
| CfDelete (customHostnameId : string).

(** The state outside the process: both tables, the provider calls made and
    the tokens presented to the authentication service. *)
Record world := mkWorld {
  sites : list site_row;
  domains : list domain_row;
  cf_calls : list cf_call;
  auth_calls : list string
}.

Inductive outcome (A : Type) :=
| Value (a : A)
| Throw (message : string).
Arguments Value {A} a.
Arguments Throw {A} message.

(** The answer of one [fetch]: the promise rejects, or a response arrives
    whose [ok] flag is given and whose body parses ([res.json()]) or not. *)
Inductive fetch_outcome :=
| Rejects (message : string)
| Responds (ok : bool) (json : outcome cf_json).

(** What the collaborators answer during one request.  A handler makes at
    most one provider call and at most one query of each kind, so one
    answer of each kind is enough.  A store error is [Some message]; the
    store fills [id], [created_at] and [updated_at] of an inserted row. *)
Record oracle := mkOracle {
  auth_getUser : string -> option string;
  cf_fetch : fetch_outcome;
  sites_select_error : option string;
  domains_select_error : option string;
  domains_insert_error : option string;
  domains_update_error : option string;
  domains_delete_error : option string;
  db_new_id : string;
  db_now : string;
  db_default_updated_at : option string;
  clock_now : string
}.

(** Computations that read and write the world and may throw. *)
Definition io (A : Type) : Type := world -> outcome A * world.

Definition ret {A} (a : A) : io A := fun w => (Value a, w).
Definition throw {A} (message : string) : io A := fun w => (Throw message, w).
Definition bind {A B} (m : io A) (k : A -> io B) : io B :=
  fun w =>
    match m w with
    | (Value a, w') => k a w'
    | (Throw e, w') => (Throw e, w')
    end.

Declare Scope io_scope.
Delimit Scope io_scope with io.
Notation "'await' x <- m ;; k" := (bind m (fun x => k))
  (at level 10, x name, m at level 99, k at level 200) : io_scope.
Local Open Scope io_scope.

(** The [{ data, error }] pair of a store query. *)
Record query_result (A : Type) := mkQuery {
  data : option A;
  query_error : option string
}.
Arguments mkQuery {A} data query_error.
Arguments data {A} q.
Arguments query_error {A} q.

(** [.maybeSingle()]: no row is [data: null] without error, one row is that
    row, several rows are an error. *)
Definition maybeSingle {A} (err : option string) (rows : list A) : query_result A :=
  match err with
  | Some e => mkQuery None (Some e)
  | None =>
      match rows with
      | [] => mkQuery None None
      | [r] => mkQuery (Some r) None
      | _ :: _ :: _ => mkQuery None (Some "JSON object requested, multiple (or no) rows returned")
      end
  end.

Definition site_matches (sid uid : string) (s : site_row) : bool :=
  String.eqb (site_id s) sid && String.eqb (site_user_id s) uid.

Definition domain_matches (did uid : string) (d : domain_row) : bool :=
  String.eqb (dom_id d) did && String.eqb (dom_user_id d) uid.

Definition hostname_matches (h : string) (d : domain_row) : bool :=
  String.eqb (dom_hostname d) h.

(** *** Record store *)

(** [from("sites").select(..).eq("id", ..).eq("user_id", ..).maybeSingle()] *)
Definition select_site (o : oracle) (sid uid : string) : io (query_result site_row) :=
  fun w => (Value (maybeSingle (sites_select_error o)
                     (filter (site_matches sid uid) (sites w))), w).

(** [from("domains").select("id").eq("hostname", ..).maybeSingle()] *)
Definition select_domain_by_hostname (o : oracle) (h : string)
  : io (query_result domain_row) :=
  fun w => (Value (maybeSingle (domains_select_error o)
                     (filter (hostname_matches h) (domains w))), w).

(** [from("domains").select("*").eq("id", ..).eq("user_id", ..).maybeSingle()] *)
Definition select_domain (o : oracle) (did uid : string)
  : io (query_result domain_row) :=
  fun w => (Value (maybeSingle (domains_select_error o)
                     (filter (domain_matches did uid) (domains w))), w).

(** The members of the object given to [.insert(..)]. *)
Record domain_insert := mkInsert {
  ins_site_id : string;
  ins_user_id : string;
  ins_hostname : string;
  ins_cf_custom_hostname_id : option string;
  ins_status : option string;
  ins_verification_method : option string;
  ins_verification_value : option string
}.

Definition inserted_row (o : oracle) (v : domain_insert) : domain_row :=
  mkDomain (db_new_id o) (ins_site_id v) (ins_user_id v) (ins_hostname v)
           (ins_cf_custom_hostname_id v) (ins_status v)
           (ins_verification_method v) (ins_verification_value v)
           (db_now o) (db_default_updated_at o).

Definition set_domains (w : world) (ds : list domain_row) : world :=
  mkWorld (sites w) ds (cf_calls w) (auth_calls w).

(** [from("domains").insert(..).select("*").maybeSingle()]: a refused insert
    leaves the table as it was. *)
Definition insert_domain (o : oracle) (v : domain_insert)
  : io (query_result domain_row) :=
  fun w =>
    match domains_insert_error o with
    | Some e => (Value (mkQuery None (Some e)), w)
    | None =>
        let row := inserted_row o v in
        (Value (mkQuery (Some row) None), set_domains w (domains w ++ [row]))
    end.

(** The members of the object given to [.update(..)]. *)
Record domain_update := mkUpdate {
  upd_status : option string;
  upd_verification_method : option string;
  upd_verification_value : option string;
  upd_updated_at : string
}.

Definition apply_update (u : domain_update) (d : domain_row) : domain_row :=
  mkDomain (dom_id d) (dom_site_id d) (dom_user_id d) (dom_hostname d)
           (dom_cf_custom_hostname_id d) (upd_status u)
           (upd_verification_method u) (upd_verification_value u)
           (dom_created_at d) (Some (upd_updated_at u)).

(** [from("domains").update(..).eq("id", ..).eq("user_id", ..).select("*")
    .maybeSingle()]: the statement is refused as a whole when the store
    reports an error or when more than one row would come back. *)
Definition update_domain (o : oracle) (u : domain_update) (did uid : string)
  : io (query_result domain_row) :=
  fun w =>
    let hit := filter (domain_matches did uid) (domains w) in
    let q := maybeSingle (domains_update_error o) (map (apply_update u) hit) in
    match query_error q with
    | Some _ => (Value q, w)
    | None =>
        (Value q,
         set_domains w
           (map (fun d => if domain_matches did uid d then apply_update u d else d)
                (domains w)))
    end.

(** [from("domains").delete().eq("id", ..).eq("user_id", ..)] *)
Definition delete_domain (o : oracle) (did uid : string) : io (option string) :=
  fun w =>
    match domains_delete_error o with
    | Some e => (Value (Some e), w)
    | None =>
        (Value None,
         set_domains w
           (filter (fun d => negb (domain_matches did uid d)) (domains w)))
    end.

(** *** Authentication service *)

(** [supabase.auth.getUser()] with the client built for [token]: the id of
    the user, or [None] for an error or a missing user. *)
Definition auth_lookup (o : oracle) (token : string) : io (option string) :=
  fun w =>
    (Value (auth_getUser o token),
     mkWorld (sites w) (domains w) (cf_calls w) (token :: auth_calls w)).

(** *** Edge provider *)

(** One [fetch] to the custom-hostname API followed by [res.json()]. *)
Definition fetch_json (o : oracle) (call : cf_call) : io (bool * cf_json) :=
  fun w =>
    let w' := mkWorld (sites w) (domains w) (call :: cf_calls w) (auth_calls w) in
    match cf_fetch o with
    | Rejects e => (Throw e, w')
    | Responds ok (Throw e) => (Throw e, w')
    | Responds ok (Value j) => (Value (ok, j), w')
    end.

(** One [fetch] whose response is not read. *)
Definition fetch_only (o : oracle) (call : cf_call) : io unit :=
  fun w =>
    let w' := mkWorld (sites w) (domains w) (call :: cf_calls w) (auth_calls w) in
    match cf_fetch o with
    | Rejects e => (Throw e, w')
    | Responds _ _ => (Value tt, w')
    end.

(* ================================================================= *)
(** ** The route module *)

Inductive auth_result :=
| AuthError
| AuthUser (user : string).

(** [ensureUser] *)
Definition ensureUser (o : oracle) (req : request) : io auth_result :=
  match getTokenFromRequest (authorization req) with
  | None => ret AuthError
  | Some token =>
      await user <- auth_lookup o token ;;
      match user with
      | None => ret AuthError
      | Some u => ret (AuthUser u)
      end
  end.

(** [json?.errors?.[0]?.message] *)
Definition first_error_message (j : cf_json) : option string :=
  match json_errors j with
  | m :: _ => m
  | [] => None
  end.

Definition not_configured (e : process_env) : bool :=
  negb (Js.truthy (CLOUDFLARE_API_TOKEN e)) || negb (Js.truthy (CLOUDFLARE_ZONE_ID e)).

(** [createCustomHostname] *)
Definition createCustomHostname (e : process_env) (o : oracle) (hostname : string)
  : io cf_hostname :=
  if not_configured e then
    throw "Cloudflare environment variables are not configured"
  else
    await res <- fetch_json o (CfCreate hostname) ;;
    let json := snd res in
    if negb (fst res) then
      throw (Js.str_or (first_error_message json) "Cloudflare create failed")
    else
      let result := match json_result json with Some r => r | None => empty_result end in
      let ssl := match result_ssl result with Some s => s | None => empty_ssl end in
      let validationRecords :=
        match ssl_validation_records ssl with Some l => l | None => [] end in
      let record :=
        match validationRecords with r :: _ => r | [] => empty_record end in
      let verification :=
        Js.or_else
          (Js.or_else (Js.or_else (cname_target record) (txt_value record))
                      (http_url record))
          None in
      ret (mkCf (result_id result)
                (Js.or_else (ssl_status ssl) (Some "pending"))
                (if Js.truthy (cname_target record) then Some "cname"
                 else if Js.truthy (txt_value record) then Some "txt"
                 else if Js.truthy (http_url record) then Some "http"
                 else None)
                verification
                validationRecords).

(** [fetchCustomHostnameStatus] *)
Definition fetchCustomHostnameStatus (e : process_env) (o : oracle)
  (customHostnameId : string) : io cf_hostname :=
  if not_configured e then
    throw "Cloudflare environment variables are not configured"
  else
    await res <- fetch_json o (CfStatus customHostnameId) ;;
    let json := snd res in
    if negb (fst res) then
      throw (Js.str_or (first_error_message json) "Cloudflare fetch failed")
    else
      let result := match json_result json with Some r => r | None => empty_result end in
      let ssl := match result_ssl result with Some s => s | None => empty_ssl end in
      let validationRecords :=
        match ssl_validation_records ssl with Some l => l | None => [] end in
      let record :=
        match validationRecords with r :: _ => r | [] => empty_record end in
      let verification :=
        Js.or_else
          (Js.or_else (Js.or_else (cname_target record) (txt_value record))
                      (http_url record))
          None in
      ret (mkCf None
                (Js.or_else (ssl_status ssl) (Some "pending"))
                (if Js.truthy (cname_target record) then Some "cname"
                 else if Js.truthy (txt_value record) then Some "txt"
                 else if Js.truthy (http_url record) then Some "http"
                 else None)
                verification
                validationRecords).

(** The [try { .. } catch (err) { .. 500 }] around each handler. *)
Definition catch_500 (m : io http_response) (fallback : string)
  : world -> http_response * world :=
  fun w =>
    match m w with
    | (Value r, w') => (r, w')
    | (Throw e, w') => (json_error (Js.str_or (Some e) fallback) 500, w')
    end.

(** An inner [try { await .. } catch { console.error(..) }]. *)
Definition swallow (m : io unit) : io unit :=
  fun w => (Value tt, snd (m w)).

(** [body?.field?.trim()] *)
Definition trimmed (req : request) (field : DomainPayload -> option string)
  : option string :=
  match payload req with
  | Some b => option_map Js.trim (field b)
  | None => None
  end.

(** [POST] *)
Definition POST (e : process_env) (o : oracle) (req : request)
  : world -> http_response * world :=
  catch_500
    (await auth <- ensureUser o req ;;
     match auth with
     | AuthError => ret (json_error "Unauthorized" 401)
     | AuthUser user =>
         let siteId := trimmed req siteId in
         let rawHostname := trimmed req hostname in
         if negb (Js.truthy siteId) || negb (Js.truthy rawHostname) then
           ret (json_error "Missing siteId or hostname" 400)
         else
           let hostname := normalizeHostname (Js.str_or rawHostname "") in
           await s <- select_site o (Js.str_or siteId "") user ;;
           match query_error s, data s with
           | None, Some site =>
               await existing <- select_domain_by_hostname o hostname ;;
               match query_error existing with
               | Some _ => ret (json_error "Failed to validate domain" 500)
               | None =>
                   match data existing with
                   | Some _ => ret (json_error "Hostname already in use" 409)
                   | None =>
                       await cf <- createCustomHostname e o hostname ;;
                       await ins <- insert_domain o
                         (mkInsert (site_id site) user hostname (cf_id cf)
                                   (Js.or_else (cf_status cf) (Some "pending"))
                                   (cf_verification_method cf)
                                   (cf_verification_value cf)) ;;
                       match query_error ins, data ins with
                       | None, Some inserted =>
                           ret (json_ok (DomainJson inserted
                                           (cf_validation_records cf)
                                           (CLOUDFLARE_CNAME_TARGET e)))
                       | _, _ =>
                           ret (json_error
                                  "Created in Cloudflare but failed to save to database"
                                  500)
                       end
                   end
               end
           | _, _ => ret (json_error "Site not found" 404)
           end
     end)
    "Failed to create domain".

(** [PATCH] *)
Definition PATCH (e : process_env) (o : oracle) (req : request)
  : world -> http_response * world :=
  catch_500
    (await auth <- ensureUser o req ;;
     match auth with
     | AuthError => ret (json_error "Unauthorized" 401)
     | AuthUser user =>
         let id := trimmed req id in
         if negb (Js.truthy id) then
           ret (json_error "Missing domain id" 400)
         else
           let id := Js.str_or id "" in
           await q <- select_domain o id user ;;
           match query_error q, data q with
           | None, Some domain =>
               if negb (Js.truthy (dom_cf_custom_hostname_id domain)) then
                 ret (json_error "Missing Cloudflare mapping for this domain" 400)
               else
                 await cf <- fetchCustomHostnameStatus e o
                               (Js.str_or (dom_cf_custom_hostname_id domain) "") ;;
                 await upd <- update_domain o
                   (mkUpdate
                      (Js.or_else (cf_status cf) (dom_status domain))
                      (Js.nullish (cf_verification_method cf)
                                  (dom_verification_method domain))
                      (Js.nullish (cf_verification_value cf)
                                  (dom_verification_value domain))
                      (clock_now o))
                   id user ;;
                 match query_error upd, data upd with
                 | None, Some updated =>
                     ret (json_ok (DomainJson updated
                                     (cf_validation_records cf)
                                     (CLOUDFLARE_CNAME_TARGET e)))
                 | _, _ => ret (json_error "Failed to update domain status" 500)
                 end
           | _, _ => ret (json_error "Domain not found" 404)
           end
     end)
    "Failed to refresh domain".

(** [DELETE] *)
Definition DELETE (e : process_env) (o : oracle) (req : request)
  : world -> http_response * world :=
  catch_500
    (await auth <- ensureUser o req ;;
     match auth with
     | AuthError => ret (json_error "Unauthorized" 401)
     | AuthUser user =>
         let id := trimmed req id in
         if negb (Js.truthy id) then
           ret (json_error "Missing domain id" 400)
         else
           let id := Js.str_or id "" in
           await q <- select_domain o id user ;;
           match query_error q, data q with
           | None, Some domain =>
               await _u <-
                 (if Js.truthy (dom_cf_custom_hostname_id domain)
                     && Js.truthy (CLOUDFLARE_API_TOKEN e)
                     && Js.truthy (CLOUDFLARE_ZONE_ID e)
                  then swallow (fetch_only o
                         (CfDelete (Js.str_or (dom_cf_custom_hostname_id domain) "")))
                  else ret tt) ;;
               await deleteError <- delete_domain o id user ;;
               match deleteError with
               | Some _ => ret (json_error "Failed to delete domain" 500)
               | None => ret (json_ok SuccessJson)
               end
           | _, _ => ret (json_error "Domain not found" 404)
           end
     end)
    "Failed to delete domain".

(* ================================================================= *)
(** ** Vocabulary of the statements *)

(** A string is in lower case when lower-casing leaves it alone. *)
Definition lowered (s : string) : Prop := Js.toLowerCase s = s.

(** The string starts with one of the two schemes the pattern accepts. *)
Definition starts_with_scheme (s : string) : bool :=
  String.prefix "http://" s || String.prefix "https://" s.

Fixpoint has_space (s : string) : bool :=
  match s with
  | EmptyString => false
  | String c r => Ascii.eqb c " " || has_space r
  end.

(** Headers that carry no usable second component. *)
Inductive no_token : option string -> Prop :=
| no_header : no_token None
| no_space_in_header h : has_space h = false -> no_token (Some h)
| nothing_after_space scheme :
    has_space scheme = false -> no_token (Some (scheme ++ " ")%string)
| space_after_space scheme rest :
    has_space scheme = false -> no_token (Some (scheme ++ "  " ++ rest)%string).

(** The validation records of an answer, as both provider functions read
    them. *)
Definition validation_records_of (j : cf_json) : list validation_record :=
  match json_result j with
  | Some r =>
      match result_ssl r with
      | Some s =>
          match ssl_validation_records s with
          | Some l => l
          | None => []
          end
      | None => []
      end
  | None => []
  end.

(** Method and value by the priority cname, txt, http, none within one
    validation record. *)
Definition descriptor_of (r : validation_record) : option string * option string :=
  if Js.truthy (cname_target r) then (Some "cname", cname_target r)
  else if Js.truthy (txt_value r) then (Some "txt", txt_value r)
  else if Js.truthy (http_url r) then (Some "http", http_url r)
  else (None, None).

Definition descriptor (c : cf_hostname) : option string * option string :=
  (cf_verification_method c, cf_verification_value c).

Definition log_cf (call : cf_call) (w : world) : world :=
  mkWorld (sites w) (domains w) (call :: cf_calls w) (auth_calls w).

Definition log_auth (token : string) (w : world) : world :=
  mkWorld (sites w) (domains w) (cf_calls w) (token :: auth_calls w).

(** The status both provider functions report. *)
Definition status_of (j : cf_json) : option string :=
  match json_result j with
  | Some r =>
      match result_ssl r with
      | Some s => Js.or_else (ssl_status s) (Some "pending")
      | None => Some "pending"
      end
  | None => Some "pending"
  end.

(** Sample inputs. *)
Definition configured_env : process_env :=
  mkEnv (Some "cf-token") (Some "zone-1") None.

Definition answer (records : list validation_record) : cf_json :=
  mkJson [] (Some (mkResult (Some "cf1")
                            (Some (mkSsl (Some "pending") (Some records))))).

Definition oracle_with (f : fetch_outcome) : oracle :=
  mkOracle (fun t => if String.eqb t "tok-alice" then Some "alice" else None)
           f None None None None None
           "d-new" "2024-01-01T00:00:00Z" None "2024-02-02T00:00:00Z".

Definition empty_world : world := mkWorld [] [] [] [].

Definition txt_then_cname : list validation_record :=
  [ mkValidation None (Some "txt-token") None;
    mkValidation (Some "dv.provider.net") None None ].

(** The ways a provider function throws: configuration is missing, the
    request is rejected, the body cannot be read, or the response is not
    flagged [ok] (a provider error, or an identifier the provider does not
    know). *)
Inductive provider_fails (e : process_env) (o : oracle) : Prop :=
| missing_configuration : not_configured e = true -> provider_fails e o
| request_rejected m : cf_fetch o = Rejects m -> provider_fails e o
| body_unreadable ok m : cf_fetch o = Responds ok (Throw m) -> provider_fails e o
| provider_refuses j : cf_fetch o = Responds false (Value j) -> provider_fails e o.

(** The provider is configured and answers [j] with the [ok] flag. *)
Definition provider_answers (e : process_env) (o : oracle) (j : cf_json) : Prop :=
  not_configured e = false /\ cf_fetch o = Responds true (Value j).

(** The part of [PATCH] that runs once the record is loaded. *)
Definition refresh_loaded (e : process_env) (o : oracle) (id user : string)
  (domain : domain_row) : io http_response :=
  if negb (Js.truthy (dom_cf_custom_hostname_id domain)) then
    ret (json_error "Missing Cloudflare mapping for this domain" 400)
  else
    await cf <- fetchCustomHostnameStatus e o
                  (Js.str_or (dom_cf_custom_hostname_id domain) "") ;;
    await upd <- update_domain o
      (mkUpdate
         (Js.or_else (cf_status cf) (dom_status domain))
         (Js.nullish (cf_verification_method cf) (dom_verification_method domain))
         (Js.nullish (cf_verification_value cf) (dom_verification_value domain))
         (clock_now o))
      id user ;;
    match query_error upd, data upd with
    | None, Some updated =>
        ret (json_ok (DomainJson updated (cf_validation_records cf)
                        (CLOUDFLARE_CNAME_TARGET e)))
    | _, _ => ret (json_error "Failed to update domain status" 500)
    end.

(** The record as [PATCH] leaves it after the provider answered [j]: the
    status is the provider's, method and value are the provider's when it
    derives any and the stored ones otherwise. *)
Definition refreshed (now : string) (j : cf_json) (d : domain_row) : domain_row :=
  let desc := descriptor_of (hd empty_record (validation_records_of j)) in
  mkDomain (dom_id d) (dom_site_id d) (dom_user_id d) (dom_hostname d)
           (dom_cf_custom_hostname_id d)
           (status_of j)
           (match fst desc with Some m => Some m | None => dom_verification_method d end)
           (match snd desc with Some v => Some v | None => dom_verification_value d end)
           (dom_created_at d) (Some now).

(** A stored record that already shows a CNAME challenge. *)
Definition stored_cname : domain_row :=
  mkDomain "d1" "s1" "alice" "example.com" (Some "cf1") (Some "pending")
           (Some "cname") (Some "dv.provider.net")
           "2024-01-01T00:00:00Z" None.

Definition refresh_request : request :=
  mkRequest (Some "Bearer tok-alice") (Some (mkPayload None None (Some "d1"))).

(** The provider now reports the hostname active, with no validation
    record left. *)
Definition active_answer : cf_json :=
  mkJson [] (Some (mkResult (Some "cf1") (Some (mkSsl (Some "active") (Some []))))).

(** A record that was stored without provider identifier. *)
Definition stored_unmapped : domain_row :=
  mkDomain "d1" "s1" "alice" "example.com" None (Some "pending")
           None None "2024-01-01T00:00:00Z" None.

(** The provider no longer knows the identifier. *)
Definition unknown_identifier : fetch_outcome :=
  Responds false (Value (mkJson [Some "The custom hostname was not found."] None)).

(** The part of [DELETE] that runs once the record is loaded. *)
Definition remove_loaded (e : process_env) (o : oracle) (id user : string)
  (domain : domain_row) : io http_response :=
  await _u <-
    (if Js.truthy (dom_cf_custom_hostname_id domain)
        && Js.truthy (CLOUDFLARE_API_TOKEN e)
        && Js.truthy (CLOUDFLARE_ZONE_ID e)
     then swallow (fetch_only o
            (CfDelete (Js.str_or (dom_cf_custom_hostname_id domain) "")))
     else ret tt) ;;
  await deleteError <- delete_domain o id user ;;
  match deleteError with
  | Some _ => ret (json_error "Failed to delete domain" 500)
  | None => ret (json_ok SuccessJson)
  end.

(** Whether [DELETE] contacts the provider for this record. *)
Definition deregisters (e : process_env) (d : domain_row) : bool :=
  Js.truthy (dom_cf_custom_hostname_id d)
  && Js.truthy (CLOUDFLARE_API_TOKEN e)
  && Js.truthy (CLOUDFLARE_ZONE_ID e).

(** The same answers with another provider outcome. *)
Definition with_fetch (o : oracle) (f : fetch_outcome) : oracle :=
  mkOracle (auth_getUser o) f (sites_select_error o) (domains_select_error o)
           (domains_insert_error o) (domains_update_error o)
           (domains_delete_error o) (db_new_id o) (db_now o)
           (db_default_updated_at o) (clock_now o).

Definition delete_request : request :=
  mkRequest (Some "Bearer tok-alice") (Some (mkPayload None None (Some "d1"))).

Definition unconfigured_env : process_env := mkEnv None None None.

(** The part of [POST] that runs once the site is resolved. *)
Definition create_on_site (e : process_env) (o : oracle) (user : string)
  (site : site_row) (hostname : string) : io http_response :=
  await existing <- select_domain_by_hostname o hostname ;;
  match query_error existing with
  | Some _ => ret (json_error "Failed to validate domain" 500)
  | None =>
      match data existing with
      | Some _ => ret (json_error "Hostname already in use" 409)
      | None =>
          await cf <- createCustomHostname e o hostname ;;
          await ins <- insert_domain o
            (mkInsert (site_id site) user hostname (cf_id cf)
                      (Js.or_else (cf_status cf) (Some "pending"))
                      (cf_verification_method cf)
                      (cf_verification_value cf)) ;;
          match query_error ins, data ins with
          | None, Some inserted =>
              ret (json_ok (DomainJson inserted (cf_validation_records cf)
                              (CLOUDFLARE_CNAME_TARGET e)))
          | _, _ =>
              ret (json_error
                     "Created in Cloudflare but failed to save to database" 500)
          end
      end
  end.

(** The identifier in a provider answer, if it carries one. *)
Definition provider_id (j : cf_json) : option string :=
  match json_result j with
  | Some r => result_id r
  | None => None
  end.

(** The row [POST] stores after the provider answered [j]. *)
Definition created_row (o : oracle) (user : string) (site : site_row)
  (h : string) (j : cf_json) : domain_row :=
  let desc := descriptor_of (hd empty_record (validation_records_of j)) in
  mkDomain (db_new_id o) (site_id site) user h (provider_id j) (status_of j)
           (fst desc) (snd desc) (db_now o) (db_default_updated_at o).

Definition alice_site : site_row := mkSite "s1" "alice-site" "alice".

Definition create_request : request :=
  mkRequest (Some "Bearer tok-alice")
            (Some (mkPayload (Some "s1") (Some "Example.com") None)).

From Stdlib Require Import Permutation Sorted.

(* ================================================================= *)
(** ** Listing: GET *)

(** The answer of [GET]: an error, or the array of rows. *)
Inductive list_body :=
| ListError (error : string)
| ListRows (rows : list domain_row).

Record list_response := mkListResponse {
  list_status : nat;
  list_payload : list_body
}.

(** [.order("created_at", { ascending: false })]: rows with a later
    creation time come first.  Creation times compare as the text the store
    prints for them; rows with equal times keep the order of the table. *)
Fixpoint insert_desc (d : domain_row) (l : list domain_row) : list domain_row :=
  match l with
  | [] => [d]
  | x :: r =>
      if String.leb (dom_created_at x) (dom_created_at d)
      then d :: x :: r
      else x :: insert_desc d r
  end.

Definition order_desc (l : list domain_row) : list domain_row :=
  fold_right insert_desc [] l.

Definition owned_by (uid : string) (d : domain_row) : bool :=
  String.eqb (dom_user_id d) uid.

(** [from("domains").select("*").eq("user_id", ..).order("created_at", ..)] *)
Definition select_domains_of_user (o : oracle) (uid : string)
  : io (query_result (list domain_row)) :=
  fun w =>
    match domains_select_error o with
    | Some e => (Value (mkQuery None (Some e)), w)
    | None =>
        (Value (mkQuery (Some (order_desc (filter (owned_by uid) (domains w)))) None),
         w)
    end.

(** The [try { .. } catch (err) { .. 500 }] around [GET]. *)
Definition catch_list_500 (m : io list_response) (fallback : string)
  : world -> list_response * world :=
  fun w =>
    match m w with
    | (Value r, w') => (r, w')
    | (Throw e, w') => (mkListResponse 500 (ListError (Js.str_or (Some e) fallback)), w')
    end.

(** [GET] *)
Definition GET (o : oracle) (req : request) : world -> list_response * world :=
  catch_list_500
    (await auth <- ensureUser o req ;;
     match auth with
     | AuthError => ret (mkListResponse 401 (ListError "Unauthorized"))
     | AuthUser user =>
         await q <- select_domains_of_user o user ;;
         match query_error q with
         | Some message => ret (mkListResponse 500 (ListError message))
         | None =>
             ret (mkListResponse 200
                    (ListRows (match data q with Some rows => rows | None => [] end)))
         end
     end)
    "Failed to fetch domains".

(* ================================================================= *)
(** ** Vocabulary of the further statements *)

Fixpoint all_space (s : string) : bool :=
  match s with
  | EmptyString => true
  | String c r => Js.is_space c && all_space r
  end.



(** The columns [PATCH] never writes. *)
Definition identity_columns (d : domain_row)
  : string * string * string * string * option string * string :=
  (dom_id d, dom_site_id d, dom_user_id d, dom_hostname d,
   dom_cf_custom_hostname_id d, dom_created_at d).

(** The shape the handlers keep for the cached provider state of a row: a
    status that is not empty, a method among cname, txt and http or none,
    and a value exactly when there is a method. *)
Definition cache_well_formed (d : domain_row) : Prop :=
  Js.truthy (dom_status d) = true
  /\ (dom_verification_method d = None <-> dom_verification_value d = None)
  /\ (dom_verification_method d = None
      \/ dom_verification_method d = Some "cname"
      \/ dom_verification_method d = Some "txt"
      \/ dom_verification_method d = Some "http").

(** Later creation times first. *)
Definition created_not_before (a b : domain_row) : Prop :=
  String.leb (dom_created_at b) (dom_created_at a) = true.

Fixpoint all_slashes (s : string) : bool :=
  match s with
  | EmptyString => true
  | String c r => Js.is_slash c && all_slashes r
  end.

(* ================================================================= *)
(** ** The manage page (client) *)

Module Page.

(** [Site], as the page keeps it. *)
Record Site := mkSite {
  id : string;
  domain : string;
  link : string;
  created_at : string
}.

(** One entry of [dnsRecords] in an answer of the domains API, with the
    members the page reads. *)
Record dns_record := mkDns {
  cname_name : option string;
  cname_target : option string;
  txt_name : option string;
  txt_value : option string
}.

(** The JSON body of an answer of the domains API, as the page reads it;
    [Domain] entries are the rows the API sends. *)
Record api_body := mkBody {
  error : option string;
  body_domain : option domain_row;
  dnsRecords : option (list dns_record);
  cnameTarget : option string
}.

(** What a [fetch] of the page gives: the promise rejects, or a response
    with its [ok] flag and its body ([None] when [res.json()] fails and
    [.catch(() => null)] applies, or when the body is not of the expected
    shape). *)
Inductive reply (B : Type) :=
| Rejected
| Response (ok : bool) (body : option B).
Arguments Rejected {B}.
Arguments Response {B} ok body.

(** Requests the page sends to the API. *)
Inductive call :=
| ListDomains (authorization : string)
| DeleteSite (subdomain id authorization : string)
| PostDomain (authorization siteId hostname : string)
| PatchDomain (authorization id : string)
| DeleteDomain (authorization id : string).

(** The state variables the handlers below read or write, followed by what
    the page did: alerts shown, the route pushed and the requests sent
    (newest first). *)
Record state := mkState {
  sites : list Site;
  domains : list domain_row;
  domainsLoading : bool;
  accessToken : option string;
  domainModalSite : option Site;
  newDomain : string;
  addingDomain : bool;
  dnsTip : option string;
  alerts : list string;
  pushed : option string;
  calls : list call
}.

Definition setSites (f : list Site -> list Site) (s : state) : state :=
  mkState (f (sites s)) (domains s) (domainsLoading s) (accessToken s)
          (domainModalSite s) (newDomain s) (addingDomain s) (dnsTip s)
          (alerts s) (pushed s) (calls s).

Definition setDomains (f : list domain_row -> list domain_row) (s : state) : state :=
  mkState (sites s) (f (domains s)) (domainsLoading s) (accessToken s)
          (domainModalSite s) (newDomain s) (addingDomain s) (dnsTip s)
          (alerts s) (pushed s) (calls s).

Definition setDomainsLoading (b : bool) (s : state) : state :=
  mkState (sites s) (domains s) b (accessToken s)
          (domainModalSite s) (newDomain s) (addingDomain s) (dnsTip s)
          (alerts s) (pushed s) (calls s).

Definition setNewDomain (v : string) (s : state) : state :=
  mkState (sites s) (domains s) (domainsLoading s) (accessToken s)
          (domainModalSite s) v (addingDomain s) (dnsTip s)
          (alerts s) (pushed s) (calls s).

Definition setAddingDomain (b : bool) (s : state) : state :=
  mkState (sites s) (domains s) (domainsLoading s) (accessToken s)
          (domainModalSite s) (newDomain s) b (dnsTip s)
          (alerts s) (pushed s) (calls s).

Definition setDnsTip (v : option string) (s : state) : state :=
  mkState (sites s) (domains s) (domainsLoading s) (accessToken s)
          (domainModalSite s) (newDomain s) (addingDomain s) v
          (alerts s) (pushed s) (calls s).

Definition alert (message : string) (s : state) : state :=
  mkState (sites s) (domains s) (domainsLoading s) (accessToken s)
          (domainModalSite s) (newDomain s) (addingDomain s) (dnsTip s)
          (message :: alerts s) (pushed s) (calls s).

Definition push (route : string) (s : state) : state :=
  mkState (sites s) (domains s) (domainsLoading s) (accessToken s)
          (domainModalSite s) (newDomain s) (addingDomain s) (dnsTip s)
          (alerts s) (Some route) (calls s).

Definition send (c : call) (s : state) : state :=
  mkState (sites s) (domains s) (domainsLoading s) (accessToken s)
          (domainModalSite s) (newDomain s) (addingDomain s) (dnsTip s)
          (alerts s) (pushed s) (c :: calls s).

(** [`Bearer ${token}`] *)
Definition bearer (token : string) : string := ("Bearer " ++ token)%string.

(** [body?.error || fallback] *)
Definition error_or (body : option api_body) (fallback : string) : string :=
  Js.str_or (match body with Some b => error b | None => None end) fallback.

(** [formatDnsTip] *)
Definition formatDnsTip (body : option api_body) : option string :=
  let record :=
    match body with
    | Some b => match dnsRecords b with Some (r :: _) => Some r | _ => None end
    | None => None
    end in
  let of_record (f : dns_record -> option string) :=
    match record with Some r => f r | None => None end in
  let target := match body with Some b => cnameTarget b | None => None end in
  let host :=
    match body with
    | Some b => option_map dom_hostname (body_domain b)
    | None => None
    end in
  if Js.truthy (of_record cname_name) && Js.truthy (of_record cname_target) then
    Some ("Create CNAME " ++ Js.str_or (of_record cname_name) ""
            ++ " -> " ++ Js.str_or (of_record cname_target) "")%string
  else if Js.truthy target && Js.truthy host then
    Some ("Point " ++ Js.str_or host "" ++ " to " ++ Js.str_or target "")%string
  else if Js.truthy (of_record txt_name) && Js.truthy (of_record txt_value) then
    Some ("Add TXT " ++ Js.str_or (of_record txt_name) ""
            ++ " with value " ++ Js.str_or (of_record txt_value) "")%string
  else None.

(** [loadDomains]; the body of the answer is the array of rows, or [None]
    when it is not an array. *)
Definition loadDomains (token : option string) (r : reply (list domain_row))
  (s : state) : state :=
  let s1 := setDomainsLoading true s in
  let authToken := Js.or_else token (accessToken s) in
  let s2 :=
    if negb (Js.truthy authToken) then setDomains (fun _ => []) s1
    else
      let s' := send (ListDomains (bearer (Js.str_or authToken ""))) s1 in
      match r with
      | Rejected => setDomains (fun _ => []) s'
      | Response ok body =>
          if negb ok then setDomains (fun _ => []) s'
          else setDomains (fun _ => match body with Some rows => rows | None => [] end) s'
      end in
  setDomainsLoading false s2.

Definition session_missing (s : state) : state :=
  push "/login" (alert "Session missing. Please log in again." s).

(** [deleteSite]; the answer of the API is not read. *)
Definition deleteSite (confirmed : bool) (r : reply unit)
  (domain id : string) (s : state) : state :=
  if negb confirmed then s
  else if negb (Js.truthy (accessToken s)) then session_missing s
  else
    let s' := send (DeleteSite domain id (bearer (Js.str_or (accessToken s) ""))) s in
    match r with
    | Rejected => s'
    | Response _ _ =>
        setSites (filter (fun x => negb (String.eqb (Page.id x) id))) s'
    end.

(** [addCustomDomain] *)
Definition addCustomDomain (r : reply api_body) (s : state) : state :=
  match domainModalSite s with
  | None => s
  | Some site =>
      if negb (Js.truthy (Some (Js.trim (newDomain s)))) then
        alert "Enter a hostname (e.g. example.com)" s
      else if negb (Js.truthy (accessToken s)) then session_missing s
      else
        let s1 := setDnsTip None (setAddingDomain true s) in
        let s2 := send (PostDomain (bearer (Js.str_or (accessToken s) ""))
                          (Page.id site) (Js.trim (newDomain s))) s1 in
        match r with
        | Rejected => s2
        | Response ok body =>
            let s3 := setAddingDomain false s2 in
            if negb ok then alert (error_or body "Failed to add domain") s3
            else
              let s4 :=
                match body with
                | Some b =>
                    match body_domain b with
                    | Some d => setDomains (fun prev => d :: prev) s3
                    | None => s3
                    end
                | None => s3
                end in
              setNewDomain "" (setDnsTip (formatDnsTip body) s4)
        end
  end.

(** [refreshDomain] *)
Definition refreshDomain (r : reply api_body) (id : string) (s : state) : state :=
  if negb (Js.truthy (accessToken s)) then session_missing s
  else
    let s1 := send (PatchDomain (bearer (Js.str_or (accessToken s) "")) id) s in
    match r with
    | Rejected => s1
    | Response ok body =>
        if negb ok then alert (error_or body "Failed to refresh") s1
        else
          match body with
          | Some b =>
              match body_domain b with
              | Some d' =>
                  setDnsTip (formatDnsTip body)
                    (setDomains
                       (map (fun d => if String.eqb (dom_id d) id then d' else d))
                       s1)
              | None => s1
              end
          | None => s1
          end
    end.

(** [deleteDomain] *)
Definition deleteDomain (confirmed : bool) (r : reply api_body)
  (id : string) (s : state) : state :=
  if negb confirmed then s
  else if negb (Js.truthy (accessToken s)) then session_missing s
  else
    let s1 := send (DeleteDomain (bearer (Js.str_or (accessToken s) "")) id) s in
    match r with
    | Rejected => s1
    | Response ok body =>
        if negb ok then alert (error_or body "Failed to delete domain") s1
        else setDomains (filter (fun d => negb (String.eqb (dom_id d) id))) s1
    end.

(** [siteDomains] *)
Definition siteDomains (s : state) (siteId : string) : list domain_row :=
  filter (fun d => String.eqb (dom_site_id d) siteId) (domains s).

End Page.

(** The answer of [GET] as the page receives it: [res.ok] holds for a
    status from 200 to 299, and the body is an array only for a list of
    rows. *)
Definition reply_of_list (r : list_response) : Page.reply (list domain_row) :=
  Page.Response ((200 <=? list_status r) && (list_status r <=? 299))
    (match list_payload r with
     | ListRows rows => Some rows
     | ListError _ => None
     end).

(** The request of [loadDomains] as the API receives it. *)
Definition list_request (authorization : string) : request :=
  mkRequest (Some authorization) None.

(* ================================================================= *)
(** ** The deploy page (client) *)

Module Dashboard.

(** A [File]: name, media type and content. *)
Record file := mkFile {
  name : string;
  type : string;
  content : string
}.

Inductive source := FromFile | FromHtml | FromText.

(** The body of the answer of the sites API, as [deploySite] reads it. *)
Record deploy_body := mkDeployBody {
  success : bool;
  url : string
}.

(** The state variables [deploySite] reads or writes, followed by what the
    page did: alerts shown, the location assigned and the uploads sent
    (newest first, as authorization, subdomain and file). *)
Record state := mkState {
  subdomain : string;
  chosen : option file;
  sourceType : source;
  htmlContent : string;
  textContent : string;
  loading : bool;
  liveURL : string;
  accessToken : option string;
  alerts : list string;
  location : option string;
  uploads : list (string * string * file)
}.

(** [buildUploadFile] *)
Definition buildUploadFile (s : state) : option file :=
  match sourceType s with
  | FromFile => chosen s
  | FromHtml =>
      if negb (Js.truthy (Some (Js.trim (htmlContent s)))) then None
      else Some (mkFile "index.html" "text/html" (htmlContent s))
  | FromText =>
      if negb (Js.truthy (Some (Js.trim (textContent s)))) then None
      else Some (mkFile "content.txt" "text/plain" (textContent s))
  end.

(** [deploySite]; [None] as body stands for a body that is not JSON, on
    which [res.json()] throws like a rejected request does. *)
Definition deploySite (r : Page.reply deploy_body) (s : state) : state :=
  match buildUploadFile s with
  | Some uploadFile =>
      if negb (Js.truthy (Some (subdomain s))) then
        mkState (subdomain s) (chosen s) (sourceType s) (htmlContent s)
                (textContent s) (loading s) (liveURL s) (accessToken s)
                ("Enter subdomain and add content (file, HTML, or text)" :: alerts s)
                (location s) (uploads s)
      else if negb (Js.truthy (accessToken s)) then
        mkState (subdomain s) (chosen s) (sourceType s) (htmlContent s)
                (textContent s) (loading s) (liveURL s) (accessToken s)
                ("Session missing. Please log in again." :: alerts s)
                (Some "/login") (uploads s)
      else
        let sent :=
          (Page.bearer (Js.str_or (accessToken s) ""), subdomain s, uploadFile)
          :: uploads s in
        match r with
        | Page.Response _ (Some data) =>
            if success data then
              mkState "" None FromFile "" "" false (url data) (accessToken s)
                      (alerts s) (location s) sent
            else
              mkState (subdomain s) (chosen s) (sourceType s) (htmlContent s)
                      (textContent s) false "" (accessToken s)
                      ("Upload failed" :: alerts s) (location s) sent
        | _ =>
            mkState (subdomain s) (chosen s) (sourceType s) (htmlContent s)
                    (textContent s) true "" (accessToken s)
                    (alerts s) (location s) sent
        end
  | None =>
      mkState (subdomain s) (chosen s) (sourceType s) (htmlContent s)
              (textContent s) (loading s) (liveURL s) (accessToken s)
              ("Enter subdomain and add content (file, HTML, or text)" :: alerts s)
              (location s) (uploads s)
  end.

End Dashboard.

(* ================================================================= *)
(** ** Sample inputs of the further statements *)

Definition stored_bob : domain_row :=
  mkDomain "d2" "s9" "bob" "bob.example" (Some "cf2") (Some "active")
           None None "2024-03-01T00:00:00Z" None.

Definition stored_later : domain_row :=
  mkDomain "d3" "s1" "alice" "later.example" (Some "cf3") (Some "pending")
           None None "2024-05-01T00:00:00Z" None.

Definition delete_new_request : request :=
  mkRequest (Some "Bearer tok-alice") (Some (mkPayload None None (Some "d-new"))).

Definition oracle_delete_refused : oracle :=
  mkOracle (fun t => if String.eqb t "tok-alice" then Some "alice" else None)
           (Responds true (Value active_answer)) None None None None
           (Some "permission denied")
           "d-new" "2024-01-01T00:00:00Z" None "2024-02-02T00:00:00Z".

Definition oracle_update_refused : oracle :=
  mkOracle (fun t => if String.eqb t "tok-alice" then Some "alice" else None)
           (Responds true (Value active_answer)) None None None
           (Some "permission denied") None
           "d-new" "2024-01-01T00:00:00Z" None "2024-02-02T00:00:00Z".

Definition bob_site : site_row := mkSite "s1" "bob-site" "bob".

(** Whether the first DNS record of a body carries a CNAME name and
    target. *)
Definition names_cname (records : option (list Page.dns_record)) : bool :=
  match records with
  | Some (r :: _) => Js.truthy (Page.cname_name r) && Js.truthy (Page.cname_target r)
  | _ => false
  end.

Definition page_state : Page.state :=
  Page.mkState [Page.mkSite "s1" "alice-site" "https://alice-site.simplhost.com" "2024"]
               [stored_cname; stored_later] false (Some "tok-alice")
               None "" false None [] None [].

Definition add_state : Page.state :=
  Page.mkState [Page.mkSite "s1" "alice-site" "https://alice-site.simplhost.com" "2024"]
               [] false (Some "tok-alice")
               (Some (Page.mkSite "s1" "alice-site" "https://alice-site.simplhost.com" "2024"))
               "  Example.com " false None [] None [].

Definition html_state : Dashboard.state :=
  Dashboard.mkState "blog" None Dashboard.FromHtml "  " "" false ""
                    (Some "tok-alice") [] None [].

(* ================================================================= *)
(** ** Page and API together *)

(** An answer of POST, PATCH or DELETE as the page receives it: [res.ok]
    holds for a status from 200 to 299.  [records] is the page's reading of
    the [dnsRecords] array of the answer (the record names it looks at are
    not among the members the API itself reads). *)
Definition reply_of_response (records : option (list Page.dns_record))
  (r : http_response) : Page.reply Page.api_body :=
  Page.Response ((200 <=? status_code r) && (status_code r <=? 299))
    (Some match body r with
          | ErrorJson m => Page.mkBody (Some m) None None None
          | DomainJson d _ target => Page.mkBody None (Some d) records target
          | SuccessJson => Page.mkBody None None None None
          end).

(** A request of the page as the API receives it: the authorization header
    and [JSON.stringify] of the payload. *)
Definition page_request (authorization : string) (p : DomainPayload) : request :=
  mkRequest (Some authorization) (Some p).

(** An error answer: one of the given statuses, with a message that is not
    empty. *)
Definition error_answer (statuses : list nat) (r : http_response) : Prop :=
  In (status_code r) statuses
  /\ exists m, body r = ErrorJson m /\ m <> "".

(* ================================================================= *)
(** ** Properties of the string primitives *)

Section StringFacts.

Ltac all_chars c :=
  destruct c as [[] [] [] [] [] [] [] []]; vm_compute; try reflexivity; try discriminate.

Lemma lower_char_idem (c : ascii) :
  Js.lower_char (Js.lower_char c) = Js.lower_char c.
Proof. all_chars c. Qed.

Lemma lower_char_slash (c : ascii) :
  Js.is_slash (Js.lower_char c) = Js.is_slash c.
Proof. all_chars c. Qed.

Lemma toLowerCase_idem (s : string) :
  Js.toLowerCase (Js.toLowerCase s) = Js.toLowerCase s.
Proof.
  induction s as [|c r IH]; simpl; [reflexivity|].
  now rewrite lower_char_idem, IH.
Qed.

Lemma lowered_tail c r : lowered (String c r) -> lowered r.
Proof. unfold lowered; simpl; intros H; now injection H. Qed.

Lemma lowered_strip_prefix p : forall s r,
  lowered s -> Js.strip_prefix p s = Some r -> lowered r.
Proof.
  induction p as [|a p IH]; intros s r Hs H.
  - simpl in H. destruct s; injection H as <-; exact Hs.
  - destruct s as [|b s]; simpl in H; [discriminate|].
    destruct (Ascii.eqb a b); [|discriminate].
    apply (IH s r); [eapply lowered_tail; eassumption | exact H].
Qed.

Lemma lowered_replace_scheme s : lowered s -> lowered (Js.replace_scheme s).
Proof.
  intros Hs. unfold Js.replace_scheme.
  destruct (Js.strip_prefix "https://" s) as [r|] eqn:E1.
  - eapply lowered_strip_prefix; eassumption.
  - destruct (Js.strip_prefix "http://" s) as [r|] eqn:E2; [|exact Hs].
    eapply lowered_strip_prefix; eassumption.
Qed.

Lemma lowered_replace_trailing_slashes s :
  lowered s -> lowered (Js.replace_trailing_slashes s).
Proof.
  unfold lowered. induction s as [|c r IH]; simpl; intros H; [reflexivity|].
  injection H as Hc Hr. specialize (IH Hr).
  destruct (Js.replace_trailing_slashes r) as [|a b].
  - destruct (Js.is_slash c); simpl; [reflexivity | now rewrite Hc].
  - change (Js.toLowerCase (String c (String a b)))
      with (String (Js.lower_char c) (Js.toLowerCase (String a b))).
    now rewrite Hc, IH.
Qed.

Lemma replace_trailing_slashes_idem s :
  Js.replace_trailing_slashes (Js.replace_trailing_slashes s)
  = Js.replace_trailing_slashes s.
Proof.
  induction s as [|c r IH]; simpl; [reflexivity|].
  destruct (Js.replace_trailing_slashes r) as [|a b] eqn:E.
  - destruct (Js.is_slash c) eqn:Ec; simpl; [reflexivity | now rewrite Ec].
  - change (Js.replace_trailing_slashes (String c (String a b)))
      with (match Js.replace_trailing_slashes (String a b) with
            | EmptyString =>
                if Js.is_slash c then EmptyString else String c EmptyString
            | r' => String c r'
            end).
    now rewrite IH.
Qed.

Lemma strip_prefix_none p : forall s,
  String.prefix p s = false -> Js.strip_prefix p s = None.
Proof.
  induction p as [|a p IH]; intros s H.
  - destruct s; discriminate.
  - destruct s as [|b s]; simpl in *; [reflexivity|].
    destruct (ascii_dec a b) as [->|Hab].
    + rewrite Ascii.eqb_refl. now apply IH.
    + apply Ascii.eqb_neq in Hab. now rewrite Hab.
Qed.

Lemma strip_prefix_prefix p : forall s,
  String.prefix p s = true -> exists r, Js.strip_prefix p s = Some r.
Proof.
  induction p as [|a p IH]; intros s H.
  - exists s. now destruct s.
  - destruct s as [|b s]; simpl in *; [discriminate|].
    destruct (ascii_dec a b) as [->|Hab]; [|discriminate].
    rewrite Ascii.eqb_refl. now apply IH.
Qed.

Lemma strip_prefix_some p : forall s r,
  Js.strip_prefix p s = Some r -> s = (p ++ r)%string.
Proof.
  induction p as [|a p IH]; intros s r H.
  - simpl in H. destruct s; now injection H as <-.
  - destruct s as [|b s]; simpl in H; [discriminate|].
    destruct (Ascii.eqb_spec a b) as [->|]; [|discriminate].
    simpl. f_equal. now apply IH.
Qed.

Lemma replace_scheme_without_scheme s :
  starts_with_scheme s = false -> Js.replace_scheme s = s.
Proof.
  unfold starts_with_scheme, Js.replace_scheme. intros H.
  apply orb_false_iff in H as [H1 H2].
  now rewrite (strip_prefix_none _ _ H2), (strip_prefix_none _ _ H1).
Qed.

Lemma replace_scheme_with_scheme s :
  starts_with_scheme s = true ->
  String.length (Js.replace_scheme s) < String.length s.
Proof.
  unfold starts_with_scheme, Js.replace_scheme. intros H.
  destruct (Js.strip_prefix "https://" s) as [r|] eqn:E1.
  - apply strip_prefix_some in E1. subst s. simpl. lia.
  - destruct (Js.strip_prefix "http://" s) as [r|] eqn:E2.
    + apply strip_prefix_some in E2. subst s. simpl. lia.
    + exfalso. apply orb_true_iff in H as [H|H];
        apply strip_prefix_prefix in H as [r H]; congruence.
Qed.

Lemma replace_trailing_slashes_length s :
  String.length (Js.replace_trailing_slashes s) <= String.length s.
Proof.
  induction s as [|c r IH]; simpl; [lia|].
  destruct (Js.replace_trailing_slashes r); [destruct (Js.is_slash c)|]; simpl in *; lia.
Qed.

Lemma normalizeHostname_lowered x : lowered (normalizeHostname x).
Proof.
  unfold normalizeHostname.
  apply lowered_replace_trailing_slashes, lowered_replace_scheme.
  apply toLowerCase_idem.
Qed.

End StringFacts.

(* ================================================================= *)
(** ** Hostname normalization *)

Lemma normalizeHostname_fixed_without_scheme (h : string) :
  lowered h ->
  starts_with_scheme h = false ->
  Js.replace_trailing_slashes h = h ->
  normalizeHostname h = h.
Proof.
  intros Hl Hs Ht. unfold normalizeHostname.
  rewrite Hl, (replace_scheme_without_scheme _ Hs). exact Ht.
Qed.

(** When a scheme is still in front after one pass, a second pass removes
    it, so the two results differ. *)
Lemma normalizeHostname_scheme_remains (x : string) :
  starts_with_scheme (normalizeHostname x) = true ->
  normalizeHostname (normalizeHostname x) <> normalizeHostname x.
Proof.
  intros Hs Heq.
  pose proof (replace_scheme_with_scheme _ Hs) as Hlen.
  pose proof (replace_trailing_slashes_length
                (Js.replace_scheme (normalizeHostname x))) as Hle.
  assert (Hn : normalizeHostname (normalizeHostname x)
               = Js.replace_trailing_slashes (Js.replace_scheme (normalizeHostname x))).
  { unfold normalizeHostname at 1. now rewrite (normalizeHostname_lowered x). }
  rewrite Hn in Heq. rewrite Heq in Hle. lia.
Qed.

(** C4, as stated, fails: a hostname written with the scheme twice loses one
    scheme per pass, so the second pass still changes the result. *)
Lemma normalizeHostname_not_idempotent :
  normalizeHostname "https://https://example.com" = "https://example.com"
  /\ normalizeHostname (normalizeHostname "https://https://example.com")
     = "example.com"
  /\ normalizeHostname (normalizeHostname "https://https://example.com")
     <> normalizeHostname "https://https://example.com".
Proof. repeat split; vm_compute; congruence. Qed.

(** C4, amended: for every input whose normalized form does not itself start
    with [http://] or [https://], normalizing a second time changes nothing;
    and ["HTTPS://Example.com/"] normalizes to ["example.com"]. *)
Theorem normalizeHostname_idempotent_without_scheme (x : string) :
  starts_with_scheme (normalizeHostname x) = false ->
  normalizeHostname (normalizeHostname x) = normalizeHostname x
  /\ normalizeHostname "HTTPS://Example.com/" = "example.com".
Proof.
  intros Hs. split; [|reflexivity].
  apply normalizeHostname_fixed_without_scheme.
  - apply normalizeHostname_lowered.
  - exact Hs.
  - unfold normalizeHostname. apply replace_trailing_slashes_idem.
Qed.

Lemma normalizeHostname_idempotent_without_scheme_witness :
  starts_with_scheme (normalizeHostname "HTTPS://Example.com/") = false
  /\ normalizeHostname (normalizeHostname "HTTPS://Example.com/")
     = normalizeHostname "HTTPS://Example.com/"
  /\ normalizeHostname "HTTPS://Example.com/" = "example.com".
Proof.
  split; [reflexivity|].
  apply (normalizeHostname_idempotent_without_scheme "HTTPS://Example.com/").
  reflexivity.
Defined.

(* ================================================================= *)
(** ** Credential guard *)

Lemma split_space_whole (a : string) :
  has_space a = false -> Js.split_space a = [a].
Proof.
  induction a as [|c a IH]; simpl; intros H; [reflexivity|].
  apply orb_false_iff in H as [Hc Ha]. now rewrite Hc, (IH Ha).
Qed.

Lemma split_space_first (a r : string) :
  has_space a = false ->
  Js.split_space (a ++ String " " r)%string = a :: Js.split_space r.
Proof.
  induction a as [|c a IH]; simpl; intros H; [reflexivity|].
  apply orb_false_iff in H as [Hc Ha]. now rewrite Hc, (IH Ha).
Qed.

Lemma str_or_empty (h : string) : Js.str_or (Some h) "" = h.
Proof.
  unfold Js.str_or, Js.or_else, Js.truthy.
  destruct (String.eqb_spec h ""); subst; reflexivity.
Qed.

Lemma str_or_truthy (v : option string) (d : string) :
  Js.truthy v = true -> v = Some (Js.str_or v d).
Proof.
  unfold Js.str_or, Js.or_else. intros H. rewrite H.
  destruct v; [reflexivity | discriminate].
Qed.

Lemma token_second_component (scheme tok : string) :
  has_space scheme = false -> has_space tok = false -> tok <> "" ->
  getTokenFromRequest (Some (scheme ++ " " ++ tok)%string) = Some tok.
Proof.
  intros Hs Ht Hne. unfold getTokenFromRequest.
  rewrite str_or_empty.
  change (scheme ++ " " ++ tok)%string with (scheme ++ String " " tok)%string.
  rewrite (split_space_first _ _ Hs), (split_space_whole _ Ht). simpl.
  unfold Js.or_else, Js.truthy.
  apply String.eqb_neq in Hne. now rewrite Hne.
Qed.

Lemma no_token_none (a : option string) :
  no_token a -> getTokenFromRequest a = None.
Proof.
  intros H. unfold getTokenFromRequest. destruct H as [|h Hh|s Hs|s r Hs].
  - reflexivity.
  - rewrite str_or_empty, (split_space_whole _ Hh). reflexivity.
  - rewrite str_or_empty.
    change (s ++ " ")%string with (s ++ String " " "")%string.
    rewrite (split_space_first _ _ Hs). reflexivity.
  - rewrite str_or_empty.
    change (s ++ "  " ++ r)%string with (s ++ String " " (String " " r))%string.
    rewrite (split_space_first _ _ Hs). reflexivity.
Qed.

Lemma ensureUser_without_token o req w :
  getTokenFromRequest (authorization req) = None ->
  ensureUser o req w = (Value AuthError, w).
Proof. intros H. unfold ensureUser. now rewrite H. Qed.

Lemma ensureUser_with_token o req w tok :
  getTokenFromRequest (authorization req) = Some tok ->
  ensureUser o req w
  = (Value (match auth_getUser o tok with
            | Some u => AuthUser u
            | None => AuthError
            end),
     mkWorld (sites w) (domains w) (cf_calls w) (tok :: auth_calls w)).
Proof.
  intros H. unfold ensureUser. rewrite H.
  unfold bind, auth_lookup. now destruct (auth_getUser o tok).
Qed.

Lemma append_empty (s : string) : (s ++ "")%string = s.
Proof. induction s as [|c s IH]; simpl; [reflexivity | now rewrite IH]. Qed.

Lemma first_component (s : string) :
  exists a rest,
    s = (a ++ rest)%string
    /\ has_space a = false
    /\ (rest = "" \/ exists r, rest = String " " r).
Proof.
  induction s as [|c s IH].
  - exists "", "". auto.
  - destruct (Ascii.eqb c " ") eqn:Hc.
    + apply Ascii.eqb_eq in Hc. subst c.
      exists "", (String " " s). repeat split; eauto.
    + destruct IH as [a [rest [-> [Ha Hr]]]].
      exists (String c a), rest. simpl. rewrite Hc, Ha. auto.
Qed.

(** Every header either has no space, or is a first component, a space, a
    second component, and then nothing or a space and more. *)
Lemma header_components (h : string) :
  has_space h = false
  \/ exists scheme tok rest,
       h = (scheme ++ " " ++ tok ++ rest)%string
       /\ has_space scheme = false
       /\ has_space tok = false
       /\ (rest = "" \/ exists r, rest = String " " r).
Proof.
  destruct (first_component h) as [scheme [tail [-> [Hs [->|[r ->]]]]]].
  - left. now rewrite append_empty.
  - right. destruct (first_component r) as [tok [rest [-> [Ht Hr]]]].
    exists scheme, tok, rest. auto.
Qed.

Lemma token_of_components (scheme tok rest : string) :
  has_space scheme = false -> has_space tok = false ->
  rest = "" \/ (exists r, rest = String " " r) ->
  getTokenFromRequest (Some (scheme ++ " " ++ tok ++ rest)%string)
  = if String.eqb tok "" then None else Some tok.
Proof.
  intros Hs Ht Hr. unfold getTokenFromRequest. rewrite str_or_empty.
  change (scheme ++ " " ++ tok ++ rest)%string
    with (scheme ++ String " " (tok ++ rest))%string.
  rewrite (split_space_first _ _ Hs).
  assert (Hsecond : nth_error (scheme :: Js.split_space (tok ++ rest)) 1 = Some tok).
  { destruct Hr as [->|[r ->]].
    - now rewrite append_empty, (split_space_whole _ Ht).
    - now rewrite (split_space_first _ _ Ht). }
  rewrite Hsecond. unfold Js.or_else, Js.truthy.
  now destruct (String.eqb tok "").
Qed.

Lemma none_no_token (a : option string) :
  getTokenFromRequest a = None -> no_token a.
Proof.
  destruct a as [h|]; [|intros _; apply no_header].
  destruct (header_components h) as [Hn|[scheme [tok [rest [-> [Hs [Ht Hr]]]]]]].
  - intros _. now apply no_space_in_header.
  - rewrite (token_of_components scheme tok rest Hs Ht Hr).
    destruct (String.eqb_spec tok ""); [|discriminate]. subst tok. intros _.
    destruct Hr as [->|[r ->]].
    + now apply nothing_after_space.
    + now apply (space_after_space scheme r).
Qed.

(** C9: the token is the second space-separated component of the header
    whatever the scheme word is and whatever follows it: for every header
    made of a first component, a space, a second component and then nothing
    or a space and more, the token is that second component when it is not
    empty (["Basic xyz"] gives ["xyz"], ["Bearer a b"] gives ["a"]), and
    there is no token when it is empty, when the header has no space and
    when there is no header; every header is of one of these forms.  A
    token is presented to the authentication service as it is; without a
    token all four handlers answer Unauthorized (401) and the
    authentication service is not consulted (the world is unchanged). *)
Theorem token_extraction_ignores_scheme
  (e : process_env) (o : oracle) (req : request) (w : world) :
  getTokenFromRequest (Some "Basic xyz") = Some "xyz"
  /\ (forall scheme tok rest,
        has_space scheme = false -> has_space tok = false ->
        rest = "" \/ (exists r, rest = String " " r) ->
        getTokenFromRequest (Some (scheme ++ " " ++ tok ++ rest)%string)
        = if String.eqb tok "" then None else Some tok)
  /\ (forall h, has_space h = false -> getTokenFromRequest (Some h) = None)
  /\ getTokenFromRequest None = None
  /\ (forall h,
        has_space h = false
        \/ exists scheme tok rest,
             h = (scheme ++ " " ++ tok ++ rest)%string
             /\ has_space scheme = false
             /\ has_space tok = false
             /\ (rest = "" \/ exists r, rest = String " " r))
  /\ (getTokenFromRequest (authorization req) = None <-> no_token (authorization req))
  /\ (forall tok,
        getTokenFromRequest (authorization req) = Some tok ->
        auth_calls (snd (ensureUser o req w)) = tok :: auth_calls w
        /\ fst (ensureUser o req w)
           = Value (match auth_getUser o tok with
                    | Some u => AuthUser u
                    | None => AuthError
                    end))
  /\ (no_token (authorization req) ->
        ensureUser o req w = (Value AuthError, w)
        /\ GET o req w = (mkListResponse 401 (ListError "Unauthorized"), w)
        /\ POST e o req w = (json_error "Unauthorized" 401, w)
        /\ PATCH e o req w = (json_error "Unauthorized" 401, w)
        /\ DELETE e o req w = (json_error "Unauthorized" 401, w)).
Proof.
  split; [reflexivity|].
  split; [exact token_of_components|].
  split.
  { intros h Hh. apply no_token_none. now apply no_space_in_header. }
  split; [reflexivity|].
  split; [exact header_components|].
  split; [split; [apply none_no_token | apply no_token_none]|].
  split.
  - intros tok Htok. rewrite (ensureUser_with_token _ _ _ _ Htok). auto.
  - intros Hno. apply no_token_none in Hno.
    pose proof (ensureUser_without_token o req w Hno) as Hu.
    split; [exact Hu|].
    unfold GET, POST, PATCH, DELETE, catch_list_500, catch_500, bind.
    now rewrite Hu.
Qed.

(* ================================================================= *)
(** ** Verification descriptor *)

Lemma descriptor_of_chain (r : validation_record) :
  ((if Js.truthy (cname_target r) then Some "cname"
    else if Js.truthy (txt_value r) then Some "txt"
    else if Js.truthy (http_url r) then Some "http"
    else None),
   Js.or_else
     (Js.or_else (Js.or_else (cname_target r) (txt_value r)) (http_url r))
     None)
  = descriptor_of r.
Proof.
  unfold descriptor_of, Js.or_else.
  destruct (Js.truthy (cname_target r)) eqn:Ec;
    [|destruct (Js.truthy (txt_value r)) eqn:Et;
      [|destruct (Js.truthy (http_url r)) eqn:Eh]];
    repeat (first [rewrite Ec | rewrite Et | rewrite Eh]; cbn iota);
    reflexivity.
Qed.

(** What [createCustomHostname] returns for a response flagged [ok]. *)
Lemma createCustomHostname_ok e o h w j :
  not_configured e = false ->
  cf_fetch o = Responds true (Value j) ->
  createCustomHostname e o h w
  = (Value (mkCf (match json_result j with Some r => result_id r | None => None end)
                 (status_of j)
                 (fst (descriptor_of (hd empty_record (validation_records_of j))))
                 (snd (descriptor_of (hd empty_record (validation_records_of j))))
                 (validation_records_of j)),
     log_cf (CfCreate h) w).
Proof.
  intros Hc Hf. unfold createCustomHostname, bind, fetch_json.
  rewrite Hc, Hf. cbn [fst snd negb].
  unfold ret, log_cf, validation_records_of, status_of.
  rewrite <- descriptor_of_chain.
  destruct (json_result j) as [r|]; [|reflexivity].
  destruct (result_ssl r) as [s|]; [|reflexivity].
  destruct (ssl_validation_records s) as [[|x l]|]; reflexivity.
Qed.

(** What [fetchCustomHostnameStatus] returns for a response flagged [ok]. *)
Lemma fetchCustomHostnameStatus_ok e o i w j :
  not_configured e = false ->
  cf_fetch o = Responds true (Value j) ->
  fetchCustomHostnameStatus e o i w
  = (Value (mkCf None
                 (status_of j)
                 (fst (descriptor_of (hd empty_record (validation_records_of j))))
                 (snd (descriptor_of (hd empty_record (validation_records_of j))))
                 (validation_records_of j)),
     log_cf (CfStatus i) w).
Proof.
  intros Hc Hf. unfold fetchCustomHostnameStatus, bind, fetch_json.
  rewrite Hc, Hf. cbn [fst snd negb].
  unfold ret, log_cf, validation_records_of, status_of.
  rewrite <- descriptor_of_chain.
  destruct (json_result j) as [r|]; [|reflexivity].
  destruct (result_ssl r) as [s|]; [|reflexivity].
  destruct (ssl_validation_records s) as [[|x l]|]; reflexivity.
Qed.

(** C2, as stated, fails: the answer holds a TXT record and a CNAME record,
    the TXT record first, and both paths derive method [txt]. *)
Lemma descriptor_ignores_later_cname :
  let o := oracle_with (Responds true (Value (answer txt_then_cname))) in
  existsb (fun r => Js.truthy (cname_target r)) txt_then_cname = true
  /\ existsb (fun r => Js.truthy (txt_value r)) txt_then_cname = true
  /\ (exists c, fst (createCustomHostname configured_env o "example.com" empty_world)
                = Value c
                /\ descriptor c = (Some "txt", Some "txt-token")
                /\ cf_verification_method c <> Some "cname")
  /\ (exists c, fst (fetchCustomHostnameStatus configured_env o "cf1" empty_world)
                = Value c
                /\ descriptor c = (Some "txt", Some "txt-token")
                /\ cf_verification_method c <> Some "cname").
Proof.
  cbv zeta. split; [reflexivity|]. split; [reflexivity|].
  split; eexists; (split; [reflexivity|]); (split; [reflexivity | discriminate]).
Qed.

(** C2, amended: on every successful provider answer the create path and the
    status path derive the same descriptor, and it is read from the first
    entry of [validation_records] alone (the empty entry when there is
    none): method and value follow the priority cname, txt, http, none
    among the fields of that entry.  So when the first entry carries a
    CNAME target the method is [cname] and the value is that target,
    whatever the other entries hold. *)
Theorem descriptor_from_first_record e o h i w j :
  not_configured e = false ->
  cf_fetch o = Responds true (Value j) ->
  exists c s,
    fst (createCustomHostname e o h w) = Value c
    /\ fst (fetchCustomHostnameStatus e o i w) = Value s
    /\ descriptor c = descriptor_of (hd empty_record (validation_records_of j))
    /\ descriptor s = descriptor c
    /\ (forall r rest, validation_records_of j = r :: rest ->
        Js.truthy (cname_target r) = true ->
        descriptor c = (Some "cname", cname_target r)).
Proof.
  intros Hc Hf.
  rewrite (createCustomHostname_ok e o h w j Hc Hf).
  rewrite (fetchCustomHostnameStatus_ok e o i w j Hc Hf).
  do 2 eexists. split; [reflexivity|]. split; [reflexivity|].
  unfold descriptor; cbn [cf_verification_method cf_verification_value].
  split; [symmetry; apply surjective_pairing|]. split; [reflexivity|].
  intros r rest Hr Ht. rewrite Hr. cbn [hd]. unfold descriptor_of. now rewrite Ht.
Qed.

Lemma descriptor_from_first_record_witness :
  let rs := [ mkValidation (Some "dv.provider.net") (Some "txt-token") None ] in
  let o := oracle_with (Responds true (Value (answer rs))) in
  exists c s,
    fst (createCustomHostname configured_env o "example.com" empty_world) = Value c
    /\ fst (fetchCustomHostnameStatus configured_env o "cf1" empty_world) = Value s
    /\ descriptor c = descriptor_of (hd empty_record (validation_records_of (answer rs)))
    /\ descriptor s = descriptor c
    /\ (forall r rest, validation_records_of (answer rs) = r :: rest ->
        Js.truthy (cname_target r) = true ->
        descriptor c = (Some "cname", cname_target r)).
Proof.
  cbv zeta.
  apply (descriptor_from_first_record configured_env _ "example.com" "cf1"
           empty_world (answer [ mkValidation (Some "dv.provider.net")
                                              (Some "txt-token") None ]));
    reflexivity.
Defined.

(* ================================================================= *)
(** ** Provider outcomes *)

Lemma provider_fails_or_answers e o :
  provider_fails e o \/ exists j, provider_answers e o j.
Proof.
  destruct (not_configured e) eqn:Hc; [left; now apply missing_configuration|].
  destruct (cf_fetch o) as [m|[|] [j|m]] eqn:Hf.
  - left; eapply request_rejected; eassumption.
  - right; exists j; now split.
  - left; eapply body_unreadable; eassumption.
  - left; eapply provider_refuses; eassumption.
  - left; eapply body_unreadable; eassumption.
Qed.

Lemma provider_fails_not_answers e o j :
  provider_fails e o -> provider_answers e o j -> False.
Proof. intros [H|m H|ok m H|j' H] [Hc Hf]; congruence. Qed.

Lemma createCustomHostname_fails e o h w :
  provider_fails e o ->
  exists m, fst (createCustomHostname e o h w) = Throw m
            /\ domains (snd (createCustomHostname e o h w)) = domains w.
Proof.
  intros Hp. unfold createCustomHostname, bind, fetch_json, throw.
  destruct (not_configured e) eqn:Hc; [eexists; split; reflexivity|].
  destruct Hp as [H|m H|ok m H|j H]; [congruence| | |]; rewrite H;
    eexists; split; reflexivity.
Qed.

Lemma fetchCustomHostnameStatus_fails e o i w :
  provider_fails e o ->
  exists m, fst (fetchCustomHostnameStatus e o i w) = Throw m
            /\ domains (snd (fetchCustomHostnameStatus e o i w)) = domains w.
Proof.
  intros Hp. unfold fetchCustomHostnameStatus, bind, fetch_json, throw.
  destruct (not_configured e) eqn:Hc; [eexists; split; reflexivity|].
  destruct Hp as [H|m H|ok m H|j H]; [congruence| | |]; rewrite H;
    eexists; split; reflexivity.
Qed.

Lemma truthy_some (s : string) : s <> "" -> Js.truthy (Some s) = true.
Proof. intros H. unfold Js.truthy. apply String.eqb_neq in H. now rewrite H. Qed.

Lemma catch_500_status (m : io http_response) fallback w msg :
  fst (m w) = Throw msg ->
  fst (catch_500 m fallback w) = json_error (Js.str_or (Some msg) fallback) 500
  /\ snd (catch_500 m fallback w) = snd (m w).
Proof.
  unfold catch_500. destruct (m w) as [[r|x] w']; simpl; intros H;
    [discriminate|]. injection H as ->. split; reflexivity.
Qed.

(* ================================================================= *)
(** ** Refresh: PATCH on a stored record *)

Lemma status_of_truthy j : Js.truthy (status_of j) = true.
Proof.
  unfold status_of.
  destruct (json_result j) as [r|]; [|reflexivity].
  destruct (result_ssl r) as [s|]; [|reflexivity].
  unfold Js.or_else. destruct (Js.truthy (ssl_status s)) eqn:E; [exact E | reflexivity].
Qed.

Lemma filter_single_eq {A} (f : A -> bool) (l : list A) (d x : A) :
  filter f l = [d] -> In x l -> f x = true -> x = d.
Proof.
  intros Hf Hin Hx.
  assert (H : In x (filter f l)) by (apply filter_In; now split).
  rewrite Hf in H. destruct H as [H|[]]. now symmetry.
Qed.

Section StoredRecord.

Variables (e : process_env) (o : oracle) (req : request) (w : world).
Variables (tok user did : string) (d : domain_row).

Hypothesis Htoken : getTokenFromRequest (authorization req) = Some tok.
Hypothesis Huser : auth_getUser o tok = Some user.
Hypothesis Hid : trimmed req id = Some did.
Hypothesis Hdid : did <> "".
Hypothesis Hselect : domains_select_error o = None.
Hypothesis Hrow : filter (domain_matches did user) (domains w) = [d].

Lemma PATCH_loaded :
  PATCH e o req w
  = catch_500 (refresh_loaded e o did user d) "Failed to refresh domain"
              (log_auth tok w).
Proof.
  unfold PATCH, catch_500, bind.
  rewrite (ensureUser_with_token o req w tok Htoken), Huser.
  rewrite Hid, (truthy_some _ Hdid), str_or_empty. cbn [negb].
  unfold select_domain. cbn [domains]. rewrite Hselect, Hrow.
  cbn [maybeSingle query_error data]. reflexivity.
Qed.

(** C7: a stored record without provider identifier (null, or the empty
    string) is refused by Refresh with status 400; the provider receives
    no call and the table is left as it was. *)
Theorem PATCH_without_provider_id :
  Js.truthy (dom_cf_custom_hostname_id d) = false ->
  fst (PATCH e o req w)
  = json_error "Missing Cloudflare mapping for this domain" 400
  /\ cf_calls (snd (PATCH e o req w)) = cf_calls w
  /\ domains (snd (PATCH e o req w)) = domains w.
Proof.
  intros Hcf. rewrite PATCH_loaded.
  unfold catch_500, refresh_loaded. rewrite Hcf. cbn. auto.
Qed.

(** C5: when the provider status fetch fails (configuration missing,
    request rejected, unreadable body, or a response that is not [ok],
    which covers a provider error and an unknown identifier), Refresh answers
    with an error of status 500 and the table of domains is exactly as it
    was: no column of the record, the updated-timestamp included, is
    written. *)
Theorem PATCH_provider_failure_keeps_record :
  Js.truthy (dom_cf_custom_hostname_id d) = true ->
  provider_fails e o ->
  (exists msg, fst (PATCH e o req w) = json_error msg 500)
  /\ domains (snd (PATCH e o req w)) = domains w
  /\ In d (domains (snd (PATCH e o req w))).
Proof.
  intros Hcf Hp. rewrite PATCH_loaded.
  destruct (fetchCustomHostnameStatus_fails e o
              (Js.str_or (dom_cf_custom_hostname_id d) "") (log_auth tok w) Hp)
    as [m [Hm Hd]].
  assert (Ht : fst (refresh_loaded e o did user d (log_auth tok w)) = Throw m
               /\ snd (refresh_loaded e o did user d (log_auth tok w))
                  = snd (fetchCustomHostnameStatus e o
                           (Js.str_or (dom_cf_custom_hostname_id d) "")
                           (log_auth tok w))).
  { unfold refresh_loaded. rewrite Hcf. cbn [negb]. unfold bind.
    destruct (fetchCustomHostnameStatus e o _ (log_auth tok w)) as [[c|x] w'];
      simpl in Hm; [discriminate|]. injection Hm as ->. split; reflexivity. }
  destruct Ht as [Ht1 Ht2].
  destruct (catch_500_status _ "Failed to refresh domain" _ _ Ht1) as [Hr Hw].
  rewrite Hr, Hw, Ht2, Hd. cbn [domains log_auth].
  split; [eexists; reflexivity|]. split; [reflexivity|].
  assert (Hin : In d (filter (domain_matches did user) (domains w)))
    by (rewrite Hrow; now left).
  now apply filter_In in Hin.
Qed.

Lemma PATCH_provider_answer j :
  Js.truthy (dom_cf_custom_hostname_id d) = true ->
  provider_answers e o j ->
  domains_update_error o = None ->
  PATCH e o req w
  = (json_ok (DomainJson (refreshed (clock_now o) j d)
                         (validation_records_of j) (CLOUDFLARE_CNAME_TARGET e)),
     mkWorld (sites w)
             (map (fun r => if domain_matches did user r
                            then refreshed (clock_now o) j d else r)
                  (domains w))
             (CfStatus (Js.str_or (dom_cf_custom_hostname_id d) "") :: cf_calls w)
             (tok :: auth_calls w)).
Proof.
  intros Hcf [Hc Hf] Hu. rewrite PATCH_loaded.
  unfold catch_500, refresh_loaded. rewrite Hcf. cbn [negb]. unfold bind.
  rewrite (fetchCustomHostnameStatus_ok e o _ _ j Hc Hf).
  cbn [cf_status cf_verification_method cf_verification_value cf_validation_records].
  unfold update_domain. cbn [domains log_cf log_auth]. rewrite Hu, Hrow.
  cbn [map maybeSingle query_error data ret json_ok].
  assert (Hst : Js.or_else (status_of j) (dom_status d) = status_of j).
  { unfold Js.or_else. now rewrite status_of_truthy. }
  rewrite Hst.
  assert (Happ : apply_update
            (mkUpdate (status_of j)
               (Js.nullish
                  (fst (descriptor_of (hd empty_record (validation_records_of j))))
                  (dom_verification_method d))
               (Js.nullish
                  (snd (descriptor_of (hd empty_record (validation_records_of j))))
                  (dom_verification_value d))
               (clock_now o)) d
          = refreshed (clock_now o) j d).
  { unfold apply_update, refreshed, Js.nullish. cbn.
    destruct (descriptor_of _) as [[m|] [v|]]; reflexivity. }
  rewrite Happ. unfold set_domains. cbn [sites cf_calls auth_calls domains].
  f_equal. f_equal. apply map_ext_in. intros r Hin.
  destruct (domain_matches did user r) eqn:Hm; [|reflexivity].
  rewrite (filter_single_eq _ _ _ _ Hrow Hin Hm). exact Happ.
Qed.

End StoredRecord.

Lemma descriptor_of_none (r : validation_record) :
  fst (descriptor_of r) = None -> snd (descriptor_of r) = None.
Proof.
  unfold descriptor_of.
  destruct (Js.truthy (cname_target r)); [discriminate|].
  destruct (Js.truthy (txt_value r)); [discriminate|].
  destruct (Js.truthy (http_url r)); [discriminate | reflexivity].
Qed.

Lemma descriptor_of_some (r : validation_record) (m : string) :
  fst (descriptor_of r) = Some m ->
  Js.truthy (snd (descriptor_of r)) = true.
Proof.
  unfold descriptor_of.
  destruct (Js.truthy (cname_target r)) eqn:Ec; [intros _; exact Ec|].
  destruct (Js.truthy (txt_value r)) eqn:Et; [intros _; exact Et|].
  destruct (Js.truthy (http_url r)) eqn:Eh; [intros _; exact Eh | discriminate].
Qed.

(** C3, as stated, fails: the provider reports no verification record, yet
    Refresh keeps the stored method and value instead of writing null. *)
Lemma PATCH_keeps_stored_verification :
  let o := oracle_with (Responds true (Value active_answer)) in
  let w := mkWorld [] [stored_cname] [] [] in
  descriptor_of (hd empty_record (validation_records_of active_answer)) = (None, None)
  /\ exists d',
       domains (snd (PATCH configured_env o refresh_request w)) = [d']
       /\ status_code (fst (PATCH configured_env o refresh_request w)) = 200
       /\ dom_status d' = Some "active"
       /\ dom_verification_method d' = Some "cname"
       /\ dom_verification_value d' = Some "dv.provider.net"
       /\ dom_verification_method d' <> None.
Proof.
  cbv zeta. split; [reflexivity|]. eexists.
  split; [vm_compute; reflexivity|].
  repeat split; try reflexivity. discriminate.
Qed.

(** C3, amended: for a stored record with a provider identifier and a
    successful provider answer (the store accepting the update), Refresh
    always overwrites the status with the provider's (pending when the
    provider names none) and sets the updated-timestamp to the current
    time; verification method and value are overwritten with the
    provider's whenever the answer yields a verification record, and are
    kept as stored when it yields none. *)
Theorem PATCH_overwrites_from_provider
  (e : process_env) (o : oracle) (req : request) (w : world)
  (tok user did : string) (d : domain_row) (j : cf_json) :
  getTokenFromRequest (authorization req) = Some tok ->
  auth_getUser o tok = Some user ->
  trimmed req id = Some did ->
  did <> "" ->
  domains_select_error o = None ->
  filter (domain_matches did user) (domains w) = [d] ->
  Js.truthy (dom_cf_custom_hostname_id d) = true ->
  provider_answers e o j ->
  domains_update_error o = None ->
  let first := hd empty_record (validation_records_of j) in
  exists d',
    fst (PATCH e o req w)
    = json_ok (DomainJson d' (validation_records_of j) (CLOUDFLARE_CNAME_TARGET e))
    /\ domains (snd (PATCH e o req w))
       = map (fun r => if domain_matches did user r then d' else r) (domains w)
    /\ In d' (domains (snd (PATCH e o req w)))
    /\ dom_status d' = status_of j
    /\ Js.truthy (dom_status d') = true
    /\ dom_updated_at d' = Some (clock_now o)
    /\ (forall m, fst (descriptor_of first) = Some m ->
          dom_verification_method d' = Some m
          /\ dom_verification_value d' = snd (descriptor_of first))
    /\ (fst (descriptor_of first) = None ->
          dom_verification_method d' = dom_verification_method d
          /\ dom_verification_value d' = dom_verification_value d).
Proof.
  intros Htok Hu Hid Hdid Hsel Hrow Hcf Hans Hupd first.
  exists (refreshed (clock_now o) j d).
  rewrite (PATCH_provider_answer e o req w tok user did d
             Htok Hu Hid Hdid Hsel Hrow j Hcf Hans Hupd).
  cbn [fst snd domains]. split; [reflexivity|]. split; [reflexivity|].
  split.
  { apply in_map_iff. exists d.
    assert (Hin : In d (filter (domain_matches did user) (domains w)))
      by (rewrite Hrow; now left).
    apply filter_In in Hin as [Hin Hm]. now rewrite Hm. }
  split; [reflexivity|]. split; [apply status_of_truthy|].
  split; [reflexivity|].
  unfold refreshed. cbn [dom_verification_method dom_verification_value].
  fold first. split.
  - intros m Hm. rewrite Hm. split; [reflexivity|].
    pose proof (descriptor_of_some first m Hm) as Ht.
    destruct (snd (descriptor_of first)); [reflexivity | discriminate].
  - intros Hn. rewrite Hn, (descriptor_of_none first Hn). split; reflexivity.
Qed.

Lemma PATCH_overwrites_from_provider_witness :
  exists d',
    fst (PATCH configured_env (oracle_with (Responds true (Value active_answer)))
               refresh_request (mkWorld [] [stored_cname] [] []))
    = json_ok (DomainJson d' [] (Some "edge.simplhost.com"))
    /\ dom_status d' = Some "active"
    /\ dom_updated_at d' = Some "2024-02-02T00:00:00Z"
    /\ dom_verification_method d' = Some "cname".
Proof.
  destruct (PATCH_overwrites_from_provider configured_env
              (oracle_with (Responds true (Value active_answer)))
              refresh_request (mkWorld [] [stored_cname] [] [])
              "tok-alice" "alice" "d1" stored_cname active_answer)
    as [d' [Hr [_ [_ [Hs [_ [Ht [_ Hk]]]]]]]];
    try reflexivity; try discriminate; try (split; reflexivity).
  exists d'. split; [exact Hr|]. split; [exact Hs|]. split; [exact Ht|].
  apply Hk. reflexivity.
Defined.

Lemma PATCH_without_provider_id_witness :
  let o := oracle_with (Responds true (Value active_answer)) in
  let w := mkWorld [] [stored_unmapped] [] [] in
  fst (PATCH configured_env o refresh_request w)
  = json_error "Missing Cloudflare mapping for this domain" 400
  /\ cf_calls (snd (PATCH configured_env o refresh_request w)) = cf_calls w
  /\ domains (snd (PATCH configured_env o refresh_request w)) = domains w.
Proof.
  cbv zeta.
  apply (PATCH_without_provider_id configured_env _ refresh_request
           (mkWorld [] [stored_unmapped] [] [])
           "tok-alice" "alice" "d1" stored_unmapped);
    try reflexivity; discriminate.
Defined.

Lemma PATCH_provider_failure_keeps_record_witness :
  let o := oracle_with unknown_identifier in
  let w := mkWorld [] [stored_cname] [] [] in
  (exists msg, fst (PATCH configured_env o refresh_request w) = json_error msg 500)
  /\ domains (snd (PATCH configured_env o refresh_request w)) = domains w
  /\ In stored_cname (domains (snd (PATCH configured_env o refresh_request w))).
Proof.
  cbv zeta.
  apply (PATCH_provider_failure_keeps_record configured_env _ refresh_request
           (mkWorld [] [stored_cname] [] [])
           "tok-alice" "alice" "d1" stored_cname);
    try reflexivity; try discriminate.
  eapply provider_refuses. reflexivity.
Defined.

(* ================================================================= *)
(** ** Delete: DELETE on a stored record *)

Section StoredRecordDelete.

Variables (e : process_env) (o : oracle) (req : request) (w : world).
Variables (tok user did : string) (d : domain_row).

Hypothesis Htoken : getTokenFromRequest (authorization req) = Some tok.
Hypothesis Huser : auth_getUser o tok = Some user.
Hypothesis Hid : trimmed req id = Some did.
Hypothesis Hdid : did <> "".
Hypothesis Hselect : domains_select_error o = None.
Hypothesis Hrow : filter (domain_matches did user) (domains w) = [d].

Lemma DELETE_loaded :
  DELETE e o req w
  = catch_500 (remove_loaded e o did user d) "Failed to delete domain"
              (log_auth tok w).
Proof.
  unfold DELETE, catch_500, bind.
  rewrite (ensureUser_with_token o req w tok Htoken), Huser.
  rewrite Hid, (truthy_some _ Hdid), str_or_empty. cbn [negb].
  unfold select_domain. cbn [domains]. rewrite Hselect, Hrow.
  cbn [maybeSingle query_error data]. reflexivity.
Qed.

(** The whole effect of [DELETE] on a loaded record. *)
Lemma DELETE_result :
  DELETE e o req w
  = (match domains_delete_error o with
     | None => json_ok SuccessJson
     | Some _ => json_error "Failed to delete domain" 500
     end,
     mkWorld (sites w)
             (match domains_delete_error o with
              | None => filter (fun r => negb (domain_matches did user r)) (domains w)
              | Some _ => domains w
              end)
             (if deregisters e d
              then CfDelete (Js.str_or (dom_cf_custom_hostname_id d) "") :: cf_calls w
              else cf_calls w)
             (tok :: auth_calls w)).
Proof.
  rewrite DELETE_loaded.
  unfold catch_500, remove_loaded, bind, deregisters.
  destruct (Js.truthy (dom_cf_custom_hostname_id d)
            && Js.truthy (CLOUDFLARE_API_TOKEN e)
            && Js.truthy (CLOUDFLARE_ZONE_ID e)).
  - unfold swallow, fetch_only, delete_domain.
    destruct (cf_fetch o); cbn [snd];
      destruct (domains_delete_error o); reflexivity.
  - unfold ret, delete_domain.
    destruct (domains_delete_error o); reflexivity.
Qed.

End StoredRecordDelete.

Lemma filter_negb_empty {A} (f : A -> bool) (l : list A) :
  filter f (filter (fun x => negb (f x)) l) = [].
Proof.
  induction l as [|x l IH]; [reflexivity|]. simpl.
  destruct (f x) eqn:E; simpl; [exact IH | now rewrite E].
Qed.

(** A record that the store does not hold is reported as not found by
    both handlers, whether the lookup errs or comes back empty. *)
Lemma not_found_after e o req w tok user did :
  getTokenFromRequest (authorization req) = Some tok ->
  auth_getUser o tok = Some user ->
  trimmed req id = Some did ->
  did <> "" ->
  filter (domain_matches did user) (domains w) = [] ->
  fst (PATCH e o req w) = json_error "Domain not found" 404
  /\ fst (DELETE e o req w) = json_error "Domain not found" 404.
Proof.
  intros Htok Hu Hid Hdid Hrow.
  unfold PATCH, DELETE, catch_500, bind.
  rewrite (ensureUser_with_token o req w tok Htok), Hu.
  rewrite Hid, (truthy_some _ Hdid), str_or_empty. cbn [negb].
  unfold select_domain. cbn [domains]. rewrite Hrow.
  destruct (domains_select_error o); split; reflexivity.
Qed.

(** C6: for a stored record of the requesting user, Delete answers the same
    and leaves the same table whatever the provider does, and succeeds as
    soon as the store accepts the deletion: a failing deregistration alone
    never makes it fail.  After a successful Delete no row with that id and
    owner is left, and a later request on the same id by the same user is
    answered 404 (not found). *)
Theorem DELETE_terminal_and_provider_nonfatal
  (e : process_env) (o : oracle) (req : request) (w : world)
  (tok user did : string) (d : domain_row) :
  getTokenFromRequest (authorization req) = Some tok ->
  auth_getUser o tok = Some user ->
  trimmed req id = Some did ->
  did <> "" ->
  domains_select_error o = None ->
  filter (domain_matches did user) (domains w) = [d] ->
  (forall f,
      fst (DELETE e (with_fetch o f) req w) = fst (DELETE e o req w)
      /\ domains (snd (DELETE e (with_fetch o f) req w))
         = domains (snd (DELETE e o req w))
      /\ (domains_delete_error o = None ->
          fst (DELETE e (with_fetch o f) req w) = json_ok SuccessJson))
  /\ (fst (DELETE e o req w) = json_ok SuccessJson ->
      let w' := snd (DELETE e o req w) in
      filter (domain_matches did user) (domains w') = []
      /\ ~ In d (domains w')
      /\ forall e2 o2 req2 tok2,
           getTokenFromRequest (authorization req2) = Some tok2 ->
           auth_getUser o2 tok2 = Some user ->
           trimmed req2 id = Some did ->
           fst (PATCH e2 o2 req2 w') = json_error "Domain not found" 404
           /\ fst (DELETE e2 o2 req2 w') = json_error "Domain not found" 404).
Proof.
  intros Htok Hu Hid Hdid Hsel Hrow.
  pose proof (DELETE_result e o req w tok user did d Htok Hu Hid Hdid Hsel Hrow) as HD.
  split.
  - intros f.
    pose proof (DELETE_result e (with_fetch o f) req w tok user did d
                  Htok Hu Hid Hdid Hsel Hrow) as HF.
    rewrite HD, HF. cbn [fst snd domains with_fetch domains_delete_error].
    split; [reflexivity|]. split; [reflexivity|]. now intros ->.
  - rewrite HD. cbn [fst snd domains]. intros Hok.
    destruct (domains_delete_error o); [discriminate|].
    split; [apply filter_negb_empty|]. split.
    + intros Hin. apply filter_In in Hin as [Hin Hneg].
      assert (Hm : In d (filter (domain_matches did user) (domains w)))
        by (rewrite Hrow; now left).
      apply filter_In in Hm as [_ Hm]. rewrite Hm in Hneg. discriminate.
    + intros e2 o2 req2 tok2 Htok2 Hu2 Hid2.
      apply (not_found_after e2 o2 req2 _ tok2 user did Htok2 Hu2 Hid2 Hdid).
      cbn [domains]. apply filter_negb_empty.
Qed.

Lemma DELETE_terminal_and_provider_nonfatal_witness :
  let o := oracle_with (Rejects "network down") in
  let w := mkWorld [] [stored_cname] [] [] in
  fst (DELETE configured_env o delete_request w) = json_ok SuccessJson
  /\ domains (snd (DELETE configured_env o delete_request w)) = []
  /\ fst (PATCH configured_env o refresh_request
                (snd (DELETE configured_env o delete_request w)))
     = json_error "Domain not found" 404.
Proof.
  cbv zeta.
  destruct (DELETE_terminal_and_provider_nonfatal configured_env
              (oracle_with (Rejects "network down")) delete_request
              (mkWorld [] [stored_cname] [] [])
              "tok-alice" "alice" "d1" stored_cname)
    as [_ Hafter]; try reflexivity; try discriminate.
  split; [reflexivity|]. split; [reflexivity|].
  destruct (Hafter eq_refl) as [_ [_ Hlater]].
  apply (Hlater configured_env (oracle_with (Rejects "network down"))
           refresh_request "tok-alice"); reflexivity.
Defined.

(** C10: when the stored record has no provider identifier, or the provider
    token or zone is missing from the configuration, Delete makes no
    provider call and raises no configuration error; the store accepting
    the deletion, the record is removed and the answer is success. *)
Theorem DELETE_skips_provider
  (e : process_env) (o : oracle) (req : request) (w : world)
  (tok user did : string) (d : domain_row) :
  getTokenFromRequest (authorization req) = Some tok ->
  auth_getUser o tok = Some user ->
  trimmed req id = Some did ->
  did <> "" ->
  domains_select_error o = None ->
  filter (domain_matches did user) (domains w) = [d] ->
  Js.truthy (dom_cf_custom_hostname_id d) = false
  \/ Js.truthy (CLOUDFLARE_API_TOKEN e) = false
  \/ Js.truthy (CLOUDFLARE_ZONE_ID e) = false ->
  cf_calls (snd (DELETE e o req w)) = cf_calls w
  /\ fst (DELETE e o req w)
     <> json_error "Cloudflare environment variables are not configured" 500
  /\ (domains_delete_error o = None ->
      fst (DELETE e o req w) = json_ok SuccessJson
      /\ domains (snd (DELETE e o req w))
         = filter (fun r => negb (domain_matches did user r)) (domains w)
      /\ ~ In d (domains (snd (DELETE e o req w)))).
Proof.
  intros Htok Hu Hid Hdid Hsel Hrow Hskip.
  rewrite (DELETE_result e o req w tok user did d Htok Hu Hid Hdid Hsel Hrow).
  cbn [fst snd domains cf_calls].
  assert (Hno : deregisters e d = false).
  { unfold deregisters. destruct Hskip as [H|[H|H]]; rewrite H;
      rewrite ?andb_false_r; reflexivity. }
  rewrite Hno. split; [reflexivity|]. split.
  - destruct (domains_delete_error o); discriminate.
  - intros ->. split; [reflexivity|]. split; [reflexivity|].
    intros Hin. apply filter_In in Hin as [_ Hneg].
    assert (Hm : In d (filter (domain_matches did user) (domains w)))
      by (rewrite Hrow; now left).
    apply filter_In in Hm as [_ Hm]. rewrite Hm in Hneg. discriminate.
Qed.

Lemma DELETE_skips_provider_witness :
  let o := oracle_with (Rejects "network down") in
  let w := mkWorld [] [stored_cname] [] [] in
  cf_calls (snd (DELETE unconfigured_env o delete_request w)) = []
  /\ fst (DELETE unconfigured_env o delete_request w) = json_ok SuccessJson
  /\ domains (snd (DELETE unconfigured_env o delete_request w)) = [].
Proof.
  cbv zeta.
  destruct (DELETE_skips_provider unconfigured_env
              (oracle_with (Rejects "network down")) delete_request
              (mkWorld [] [stored_cname] [] [])
              "tok-alice" "alice" "d1" stored_cname)
    as [Hcalls [_ Hok]]; try reflexivity; try discriminate.
  - right; left; reflexivity.
  - split; [exact Hcalls|]. destruct (Hok eq_refl) as [Hr [Hd _]].
    split; [exact Hr | exact Hd].
Defined.

(* ================================================================= *)
(** ** Create: POST for a site of the user *)

Section ResolvedSite.

Variables (e : process_env) (o : oracle) (req : request) (w : world).
Variables (tok user sid raw : string) (site : site_row).

Hypothesis Htoken : getTokenFromRequest (authorization req) = Some tok.
Hypothesis Huser : auth_getUser o tok = Some user.
Hypothesis Hsid : trimmed req siteId = Some sid.
Hypothesis Hsid_ne : sid <> "".
Hypothesis Hraw : trimmed req hostname = Some raw.
Hypothesis Hraw_ne : raw <> "".
Hypothesis Hsites : sites_select_error o = None.
Hypothesis Hsite : filter (site_matches sid user) (sites w) = [site].

Lemma POST_resolved :
  POST e o req w
  = catch_500 (create_on_site e o user site (normalizeHostname raw))
              "Failed to create domain" (log_auth tok w).
Proof.
  unfold POST, catch_500, bind.
  rewrite (ensureUser_with_token o req w tok Htoken), Huser.
  rewrite Hsid, Hraw, (truthy_some _ Hsid_ne), (truthy_some _ Hraw_ne).
  rewrite !str_or_empty. cbn [negb orb].
  unfold select_site. cbn [sites]. rewrite Hsites, Hsite.
  cbn [maybeSingle query_error data]. reflexivity.
Qed.

Lemma POST_hostname_taken x :
  domains_select_error o = None ->
  filter (hostname_matches (normalizeHostname raw)) (domains w) = [x] ->
  POST e o req w = (json_error "Hostname already in use" 409, log_auth tok w).
Proof.
  intros Hsel Hx. rewrite POST_resolved.
  unfold catch_500, create_on_site, bind, select_domain_by_hostname.
  cbn [domains log_auth]. rewrite Hsel, Hx. reflexivity.
Qed.

Lemma POST_lookup_error m :
  domains_select_error o = Some m ->
  POST e o req w = (json_error "Failed to validate domain" 500, log_auth tok w).
Proof.
  intros Hsel. rewrite POST_resolved.
  unfold catch_500, create_on_site, bind, select_domain_by_hostname.
  rewrite Hsel. reflexivity.
Qed.

Lemma POST_provider_fails :
  domains_select_error o = None ->
  filter (hostname_matches (normalizeHostname raw)) (domains w) = [] ->
  provider_fails e o ->
  (exists msg, fst (POST e o req w) = json_error msg 500)
  /\ domains (snd (POST e o req w)) = domains w.
Proof.
  intros Hsel Hnone Hp. rewrite POST_resolved.
  destruct (createCustomHostname_fails e o (normalizeHostname raw)
              (log_auth tok w) Hp) as [m [Hm Hd]].
  assert (Ht : fst (create_on_site e o user site (normalizeHostname raw)
                      (log_auth tok w)) = Throw m
               /\ snd (create_on_site e o user site (normalizeHostname raw)
                         (log_auth tok w))
                  = snd (createCustomHostname e o (normalizeHostname raw)
                           (log_auth tok w))).
  { unfold create_on_site, bind, select_domain_by_hostname.
    cbn [domains log_auth]. rewrite Hsel, Hnone.
    cbn [maybeSingle query_error data].
    fold (log_auth tok w).
    destruct (createCustomHostname e o (normalizeHostname raw) (log_auth tok w))
      as [[c|x] w']; simpl in Hm; [discriminate|].
    injection Hm as ->. split; reflexivity. }
  destruct Ht as [Ht1 Ht2].
  destruct (catch_500_status _ "Failed to create domain" _ _ Ht1) as [Hr Hw].
  rewrite Hr, Hw, Ht2, Hd. split; [eexists; reflexivity | reflexivity].
Qed.

Lemma POST_provider_answers j :
  domains_select_error o = None ->
  filter (hostname_matches (normalizeHostname raw)) (domains w) = [] ->
  provider_answers e o j ->
  POST e o req w
  = match domains_insert_error o with
    | Some _ =>
        (json_error "Created in Cloudflare but failed to save to database" 500,
         log_cf (CfCreate (normalizeHostname raw)) (log_auth tok w))
    | None =>
        (json_ok (DomainJson (created_row o user site (normalizeHostname raw) j)
                    (validation_records_of j) (CLOUDFLARE_CNAME_TARGET e)),
         set_domains (log_cf (CfCreate (normalizeHostname raw)) (log_auth tok w))
           (domains w ++ [created_row o user site (normalizeHostname raw) j]))
    end.
Proof.
  intros Hsel Hnone [Hc Hf]. rewrite POST_resolved.
  unfold catch_500, create_on_site, bind, select_domain_by_hostname.
  cbn [domains log_auth]. rewrite Hsel, Hnone.
  cbn [maybeSingle query_error data]. fold (log_auth tok w).
  rewrite (createCustomHostname_ok e o _ _ j Hc Hf).
  cbn [cf_id cf_status cf_verification_method cf_verification_value
       cf_validation_records].
  assert (Hst : Js.or_else (status_of j) (Some "pending") = status_of j).
  { unfold Js.or_else. now rewrite status_of_truthy. }
  rewrite Hst. unfold insert_domain.
  destruct (domains_insert_error o); reflexivity.
Qed.

End ResolvedSite.

(** Whatever else happens, [POST] neither calls the provider nor writes to
    the table when a record already holds the normalized hostname. *)
Lemma POST_taken_is_inert e o req w raw x :
  trimmed req hostname = Some raw ->
  In x (domains w) ->
  dom_hostname x = normalizeHostname raw ->
  cf_calls (snd (POST e o req w)) = cf_calls w
  /\ domains (snd (POST e o req w)) = domains w
  /\ status_code (fst (POST e o req w)) <> 200.
Proof.
  intros Hraw Hin Hx.
  assert (Hf : In x (filter (hostname_matches (normalizeHostname raw)) (domains w))).
  { apply filter_In. split; [exact Hin|].
    unfold hostname_matches. rewrite Hx. apply String.eqb_refl. }
  unfold POST, catch_500, bind, ensureUser, auth_lookup, ret, bind.
  destruct (getTokenFromRequest (authorization req)) as [t|];
    [destruct (auth_getUser o t) as [u|]|];
    try (cbn; repeat split; discriminate).
  rewrite Hraw, str_or_empty.
  destruct (negb (Js.truthy (trimmed req siteId)) || negb (Js.truthy (Some raw)));
    [cbn; repeat split; discriminate|].
  unfold select_site. cbn [sites].
  destruct (maybeSingle (sites_select_error o) _) as [[s|] [err|]];
    cbn [query_error data]; try (cbn; repeat split; discriminate).
  unfold select_domain_by_hostname. cbn [domains].
  destruct (domains_select_error o) as [m|];
    [cbn; repeat split; discriminate|].
  destruct (filter (hostname_matches (normalizeHostname raw)) (domains w))
    as [|a [|b l]]; [destruct Hf| |]; cbn; repeat split; discriminate.
Qed.

(** C8: the uniqueness check comes before the provider call.  For an
    authenticated request on a site of the user whose normalized hostname
    is already held by a record, Create answers 409 (conflict), the
    provider receives no call and the table is unchanged; and for any
    request at all whose normalized hostname is held by some record, no
    provider call is made, nothing is written and the answer is not a
    success. *)
Theorem POST_conflict_before_provider
  (e : process_env) (o : oracle) (req : request) (w : world)
  (tok user sid raw : string) (site : site_row) (x : domain_row) :
  trimmed req hostname = Some raw ->
  filter (hostname_matches (normalizeHostname raw)) (domains w) = [x] ->
  (cf_calls (snd (POST e o req w)) = cf_calls w
   /\ domains (snd (POST e o req w)) = domains w
   /\ status_code (fst (POST e o req w)) <> 200)
  /\ (getTokenFromRequest (authorization req) = Some tok ->
      auth_getUser o tok = Some user ->
      trimmed req siteId = Some sid ->
      sid <> "" ->
      raw <> "" ->
      sites_select_error o = None ->
      filter (site_matches sid user) (sites w) = [site] ->
      domains_select_error o = None ->
      fst (POST e o req w) = json_error "Hostname already in use" 409).
Proof.
  intros Hraw Hx.
  assert (Hin : In x (filter (hostname_matches (normalizeHostname raw)) (domains w)))
    by (rewrite Hx; now left).
  apply filter_In in Hin as [Hin Hm].
  split.
  - apply (POST_taken_is_inert e o req w raw x Hraw Hin).
    now apply String.eqb_eq in Hm.
  - intros Htok Hu Hsid Hsne Hrne Hsites Hsite Hsel.
    now rewrite (POST_hostname_taken e o req w tok user sid raw site
                   Htok Hu Hsid Hsne Hraw Hrne Hsites Hsite x Hsel Hx).
Qed.

Lemma POST_conflict_before_provider_witness :
  let o := oracle_with (Responds true (Value (answer []))) in
  let w := mkWorld [alice_site] [stored_cname] [] [] in
  cf_calls (snd (POST configured_env o create_request w)) = []
  /\ domains (snd (POST configured_env o create_request w)) = [stored_cname]
  /\ fst (POST configured_env o create_request w)
     = json_error "Hostname already in use" 409.
Proof.
  cbv zeta.
  destruct (POST_conflict_before_provider configured_env
              (oracle_with (Responds true (Value (answer [])))) create_request
              (mkWorld [alice_site] [stored_cname] [] [])
              "tok-alice" "alice" "s1" "Example.com" alice_site stored_cname)
    as [[Hc [Hd _]] H409]; try reflexivity.
  split; [exact Hc|]. split; [exact Hd|].
  apply H409; try reflexivity; discriminate.
Defined.

(** C1, as stated, fails: the provider answers [ok] with an empty object, and
    Create reports success with a persisted record whose provider
    identifier is null. *)
Lemma POST_persists_without_provider_id :
  let o := oracle_with (Responds true (Value (mkJson [] None))) in
  let w := mkWorld [alice_site] [] [] [] in
  exists row,
    fst (POST configured_env o create_request w)
    = json_ok (DomainJson row [] (Some "edge.simplhost.com"))
    /\ domains (snd (POST configured_env o create_request w)) = [row]
    /\ dom_hostname row = "example.com"
    /\ dom_status row = Some "pending"
    /\ dom_cf_custom_hostname_id row = None.
Proof. cbv zeta. eexists. repeat split; vm_compute; reflexivity. Qed.

(** C1, amended: for a valid site and a hostname that no record holds yet,
    Create either answers success with one record appended to the table,
    carrying the normalized hostname, the identifier of the provider's
    answer (null when the answer carries none) and the provider's status
    (pending by default), or answers 500 with the table unchanged, so that
    no record exists for the hostname.  When the provider call fails
    nothing is inserted; when the store refuses the insert after the
    provider succeeded, the answer is an error of status 500 and no record
    is stored. *)
Theorem POST_atomic
  (e : process_env) (o : oracle) (req : request) (w : world)
  (tok user sid raw : string) (site : site_row) :
  getTokenFromRequest (authorization req) = Some tok ->
  auth_getUser o tok = Some user ->
  trimmed req siteId = Some sid ->
  sid <> "" ->
  trimmed req hostname = Some raw ->
  raw <> "" ->
  sites_select_error o = None ->
  filter (site_matches sid user) (sites w) = [site] ->
  filter (hostname_matches (normalizeHostname raw)) (domains w) = [] ->
  let h := normalizeHostname raw in
  let r := POST e o req w in
  ((exists j row,
       provider_answers e o j
       /\ fst r = json_ok (DomainJson row (validation_records_of j)
                             (CLOUDFLARE_CNAME_TARGET e))
       /\ domains (snd r) = domains w ++ [row]
       /\ dom_hostname row = h
       /\ dom_user_id row = user
       /\ dom_site_id row = site_id site
       /\ dom_cf_custom_hostname_id row = provider_id j
       /\ dom_status row = status_of j
       /\ Js.truthy (dom_status row) = true)
   \/ (exists msg,
         fst r = json_error msg 500
         /\ domains (snd r) = domains w
         /\ filter (hostname_matches h) (domains (snd r)) = []))
  /\ (provider_fails e o ->
      (exists msg, fst r = json_error msg 500) /\ domains (snd r) = domains w)
  /\ (forall j m,
        domains_select_error o = None ->
        provider_answers e o j ->
        domains_insert_error o = Some m ->
        fst r = json_error "Created in Cloudflare but failed to save to database" 500
        /\ domains (snd r) = domains w).
Proof.
  intros Htok Hu Hsid Hsne Hraw Hrne Hsites Hsite Hnone h r.
  pose proof (POST_lookup_error e o req w tok user sid raw site
                Htok Hu Hsid Hsne Hraw Hrne Hsites Hsite) as Herr.
  pose proof (POST_provider_fails e o req w tok user sid raw site
                Htok Hu Hsid Hsne Hraw Hrne Hsites Hsite) as Hfail.
  pose proof (POST_provider_answers e o req w tok user sid raw site
                Htok Hu Hsid Hsne Hraw Hrne Hsites Hsite) as Hans.
  subst r h. split; [|split].
  - destruct (domains_select_error o) as [m|] eqn:Hsel.
    { right. rewrite (Herr m eq_refl). cbn [fst snd domains log_auth].
      eexists. split; [reflexivity|]. split; [reflexivity | exact Hnone]. }
    destruct (provider_fails_or_answers e o) as [Hp|[j Hj]].
    { right. destruct (Hfail eq_refl Hnone Hp) as [[msg Hm] Hd].
      exists msg. rewrite Hd. split; [exact Hm|]. split; [reflexivity | exact Hnone]. }
    rewrite (Hans j eq_refl Hnone Hj).
    destruct (domains_insert_error o) as [m|].
    { right. cbn [fst snd domains log_auth log_cf].
      eexists. split; [reflexivity|]. split; [reflexivity | exact Hnone]. }
    left. exists j, (created_row o user site (normalizeHostname raw) j).
    cbn [fst snd domains set_domains created_row dom_hostname dom_user_id
         dom_site_id dom_cf_custom_hostname_id dom_status].
    repeat split; try reflexivity; try apply Hj. apply status_of_truthy.
  - intros Hp. destruct (domains_select_error o) as [m|] eqn:Hsel.
    + rewrite (Herr m eq_refl). cbn [fst snd domains log_auth].
      split; [eexists; reflexivity | reflexivity].
    + exact (Hfail eq_refl Hnone Hp).
  - intros j m Hsel Hj Hins. rewrite (Hans j Hsel Hnone Hj), Hins.
    cbn [fst snd domains log_auth log_cf]. split; reflexivity.
Qed.

Lemma POST_atomic_witness :
  let o := oracle_with (Responds true (Value (answer txt_then_cname))) in
  let w := mkWorld [alice_site] [] [] [] in
  exists row,
    fst (POST configured_env o create_request w)
    = json_ok (DomainJson row txt_then_cname (Some "edge.simplhost.com"))
    /\ domains (snd (POST configured_env o create_request w)) = [row]
    /\ dom_hostname row = "example.com"
    /\ dom_cf_custom_hostname_id row = Some "cf1"
    /\ dom_status row = Some "pending".
Proof.
  cbv zeta.
  destruct (POST_atomic configured_env
              (oracle_with (Responds true (Value (answer txt_then_cname))))
              create_request (mkWorld [alice_site] [] [] [])
              "tok-alice" "alice" "s1" "Example.com" alice_site)
    as [[[j [row [[_ Hj] [Hr [Hd [Hh [_ [_ [Hi [Hs _]]]]]]]]]]|[msg [Hm _]]] _];
    try reflexivity; try discriminate.
  injection Hj as <-.
  exists row. split; [exact Hr|]. split; [exact Hd|]. split; [exact Hh|].
  split; [exact Hi | exact Hs].
Defined.

Lemma token_extraction_ignores_scheme_witness :
  let o := oracle_with (Rejects "network down") in
  (getTokenFromRequest (Some "Basic xyz") = Some "xyz"
   /\ getTokenFromRequest (Some "Bearer a b") = Some "a"
   /\ auth_calls (snd (ensureUser o (mkRequest (Some "Bearer a b") None) empty_world))
      = ["a"])
  /\ GET o (mkRequest (Some "Bearer") None) empty_world
     = (mkListResponse 401 (ListError "Unauthorized"), empty_world)
  /\ PATCH configured_env o (mkRequest (Some "Bearer  xyz") None) empty_world
     = (json_error "Unauthorized" 401, empty_world)
  /\ DELETE configured_env o (mkRequest None None) empty_world
     = (json_error "Unauthorized" 401, empty_world).
Proof.
  cbv zeta. split; [|split; [|split]].
  - destruct (token_extraction_ignores_scheme configured_env
                (oracle_with (Rejects "network down"))
                (mkRequest (Some "Bearer a b") None) empty_world)
      as [Hbasic [Hsecond [_ [_ [_ [_ [Hpass _]]]]]]].
    split; [exact Hbasic|].
    assert (Ha : getTokenFromRequest (Some "Bearer a b") = Some "a").
    { apply (Hsecond "Bearer" "a" " b"); [reflexivity | reflexivity|].
      right. exists "b". reflexivity. }
    split; [exact Ha|].
    destruct (Hpass "a" Ha) as [Hcalls _]. exact Hcalls.
  - apply (token_extraction_ignores_scheme configured_env
             (oracle_with (Rejects "network down"))
             (mkRequest (Some "Bearer") None) empty_world).
    apply no_space_in_header. reflexivity.
  - apply (token_extraction_ignores_scheme configured_env
             (oracle_with (Rejects "network down"))
             (mkRequest (Some "Bearer  xyz") None) empty_world).
    apply (space_after_space "Bearer" "xyz"). reflexivity.
  - apply (token_extraction_ignores_scheme configured_env
             (oracle_with (Rejects "network down"))
             (mkRequest None None) empty_world).
    apply no_header.
Defined.

(** The end-to-end example of the specification: a CNAME challenge comes
    back for ["Example.com"] and the stored record shows it. *)
Example create_example_com :
  let o := oracle_with
             (Responds true
                (Value (answer [ mkValidation (Some "dv.provider.net") None None ]))) in
  domains (snd (POST configured_env o create_request (mkWorld [alice_site] [] [] [])))
  = [ mkDomain "d-new" "s1" "alice" "example.com" (Some "cf1") (Some "pending")
               (Some "cname") (Some "dv.provider.net")
               "2024-01-01T00:00:00Z" None ].
Proof. reflexivity. Qed.

(* ================================================================= *)
(** ** Further properties of the handlers *)

Lemma trimStart_blank (s : string) :
  all_space s = true -> Js.trimStart s = "".
Proof.
  induction s as [|c r IH]; simpl; [reflexivity|].
  intros H. apply andb_true_iff in H as [Hc Hr]. rewrite Hc. now apply IH.
Qed.


Lemma GET_unauthorized o req w tok :
  getTokenFromRequest (authorization req) = Some tok ->
  auth_getUser o tok = None ->
  GET o req w = (mkListResponse 401 (ListError "Unauthorized"), log_auth tok w).
Proof.
  intros Ht Hu. unfold GET, catch_list_500, bind.
  now rewrite (ensureUser_with_token o req w tok Ht), Hu.
Qed.





(* ================================================================= *)
(** ** Listing *)

Lemma insert_desc_perm (d : domain_row) (l : list domain_row) :
  Permutation (insert_desc d l) (d :: l).
Proof.
  induction l as [|x r IH]; simpl; [apply Permutation_refl|].
  destruct (String.leb (dom_created_at x) (dom_created_at d)).
  - apply Permutation_refl.
  - eapply perm_trans; [apply perm_skip, IH | apply perm_swap].
Qed.

Lemma order_desc_perm (l : list domain_row) : Permutation (order_desc l) l.
Proof.
  induction l as [|d l IH]; simpl; [apply perm_nil|].
  eapply perm_trans; [apply insert_desc_perm | now apply perm_skip].
Qed.

Lemma insert_desc_hd (d a : domain_row) (l : list domain_row) :
  created_not_before a d -> HdRel created_not_before a l ->
  HdRel created_not_before a (insert_desc d l).
Proof.
  intros Had Hl. destruct l as [|x r]; simpl; [now constructor|].
  destruct (String.leb (dom_created_at x) (dom_created_at d));
    constructor; [exact Had | now inversion Hl].
Qed.

Lemma insert_desc_sorted (d : domain_row) (l : list domain_row) :
  Sorted created_not_before l -> Sorted created_not_before (insert_desc d l).
Proof.
  induction l as [|x r IH]; simpl; intros Hs.
  - constructor; constructor.
  - destruct (String.leb (dom_created_at x) (dom_created_at d)) eqn:E.
    + constructor; [exact Hs | constructor; exact E].
    + inversion Hs as [|? ? Hr Hh]; subst.
      constructor; [now apply IH|].
      apply insert_desc_hd; [|exact Hh].
      unfold created_not_before.
      destruct (String.leb_total (dom_created_at x) (dom_created_at d)) as [H|H];
        [congruence | exact H].
Qed.

Lemma order_desc_sorted (l : list domain_row) :
  Sorted created_not_before (order_desc l).
Proof.
  induction l as [|d l IH]; simpl; [constructor | now apply insert_desc_sorted].
Qed.

(** X3: for an authenticated user GET answers 200 with exactly the rows of
    the table owned by that user (each once: the answer is a permutation of
    them), later creation times first, and leaves both tables and the
    provider alone; a store error is answered 500 with the store's
    message. *)
Theorem GET_lists_own_rows
  (o : oracle) (req : request) (w : world) (tok user : string) :
  getTokenFromRequest (authorization req) = Some tok ->
  auth_getUser o tok = Some user ->
  (domains_select_error o = None ->
   exists rows,
     GET o req w = (mkListResponse 200 (ListRows rows), log_auth tok w)
     /\ Permutation rows (filter (owned_by user) (domains w))
     /\ (forall r, In r rows <-> In r (domains w) /\ dom_user_id r = user)
     /\ Sorted created_not_before rows)
  /\ (forall m, domains_select_error o = Some m ->
      GET o req w = (mkListResponse 500 (ListError m), log_auth tok w)).
Proof.
  intros Ht Hu. split.
  - intros Hsel. exists (order_desc (filter (owned_by user) (domains w))).
    split.
    { unfold GET, catch_list_500, bind.
      rewrite (ensureUser_with_token o req w tok Ht), Hu.
      unfold select_domains_of_user. now rewrite Hsel. }
    split; [apply order_desc_perm|]. split; [|apply order_desc_sorted].
    intros r. split.
    + intros Hin.
      apply (Permutation_in _ (order_desc_perm _)) in Hin.
      apply filter_In in Hin as [Hin Ho]. split; [exact Hin|].
      now apply String.eqb_eq in Ho.
    + intros [Hin Ho].
      apply (Permutation_in _ (Permutation_sym (order_desc_perm _))).
      apply filter_In. split; [exact Hin|].
      unfold owned_by. rewrite Ho. apply String.eqb_refl.
  - intros m Hsel. unfold GET, catch_list_500, bind.
    rewrite (ensureUser_with_token o req w tok Ht), Hu.
    unfold select_domains_of_user. now rewrite Hsel.
Qed.

Lemma GET_lists_own_rows_witness :
  GET (oracle_with (Rejects "down")) (mkRequest (Some "Bearer tok-alice") None)
      (mkWorld [] [stored_cname; stored_bob; stored_later] [] [])
  = (mkListResponse 200 (ListRows [stored_later; stored_cname]),
     log_auth "tok-alice" (mkWorld [] [stored_cname; stored_bob; stored_later] [] [])).
Proof.
  destruct (GET_lists_own_rows (oracle_with (Rejects "down"))
              (mkRequest (Some "Bearer tok-alice") None)
              (mkWorld [] [stored_cname; stored_bob; stored_later] [] [])
              "tok-alice" "alice" eq_refl eq_refl) as [Hok _].
  destruct (Hok eq_refl) as [rows [Hg _]].
  rewrite Hg. f_equal. f_equal. f_equal.
  vm_compute in Hg. now injection Hg.
Defined.

(* ================================================================= *)
(** ** What the handlers never do *)

Ltac break_match :=
  match goal with
  | |- context [match ?x with _ => _ end] =>
      lazymatch x with
      | context [match _ with _ => _ end] => fail
      | _ => destruct x eqn:?
      end
  end.

Ltac reduce_step :=
  cbv beta iota;
  cbn [fst snd query_error data sites domains cf_calls auth_calls negb].

Ltac all_cases := reduce_step; repeat (break_match; reduce_step).

Ltac unfold_handler :=
  unfold POST, PATCH, DELETE, GET, catch_500, catch_list_500, bind, ensureUser,
    auth_lookup, ret, throw, select_site, select_domain, select_domain_by_hostname,
    select_domains_of_user, createCustomHostname, fetchCustomHostnameStatus,
    fetch_json, fetch_only, swallow, insert_domain, update_domain, delete_domain,
    set_domains, maybeSingle, auth_lookup, bind, ret, throw.

(** X4: no handler ever writes the sites table, and GET writes no table at
    all. *)
Theorem sites_are_never_written
  (e : process_env) (o : oracle) (req : request) (w : world) :
  sites (snd (GET o req w)) = sites w
  /\ domains (snd (GET o req w)) = domains w
  /\ cf_calls (snd (GET o req w)) = cf_calls w
  /\ sites (snd (POST e o req w)) = sites w
  /\ sites (snd (PATCH e o req w)) = sites w
  /\ sites (snd (DELETE e o req w)) = sites w.
Proof.
  repeat split; unfold_handler; all_cases; reflexivity.
Qed.

Lemma createCustomHostname_cases e o h w :
  (exists m w', createCustomHostname e o h w = (Throw m, w')
                /\ sites w' = sites w /\ domains w' = domains w
                /\ (cf_calls w' = cf_calls w \/ cf_calls w' = CfCreate h :: cf_calls w)
                /\ provider_fails e o)
  \/ (exists j, provider_answers e o j
                /\ createCustomHostname e o h w
                   = (Value (mkCf (provider_id j) (status_of j)
                               (fst (descriptor_of (hd empty_record (validation_records_of j))))
                               (snd (descriptor_of (hd empty_record (validation_records_of j))))
                               (validation_records_of j)),
                      log_cf (CfCreate h) w)).
Proof.
  destruct (provider_fails_or_answers e o) as [Hp|[j Hj]].
  - left. unfold createCustomHostname, bind, fetch_json, throw.
    destruct (not_configured e) eqn:Hc.
    { do 2 eexists. repeat split; try reflexivity; auto. }
    destruct Hp as [H|m H|ok m H|j H]; [congruence| | |]; rewrite H;
      do 2 eexists; (split; [reflexivity|]); cbn; repeat split; auto;
      solve [ eapply request_rejected; eassumption
            | eapply body_unreadable; eassumption
            | eapply provider_refuses; eassumption ].
  - right. exists j. split; [exact Hj|]. destruct Hj as [Hc Hf].
    now rewrite (createCustomHostname_ok e o h w j Hc Hf).
Qed.

Lemma fetchCustomHostnameStatus_cases e o i w :
  (exists m w', fetchCustomHostnameStatus e o i w = (Throw m, w')
                /\ sites w' = sites w /\ domains w' = domains w
                /\ (cf_calls w' = cf_calls w \/ cf_calls w' = CfStatus i :: cf_calls w)
                /\ provider_fails e o)
  \/ (exists j, provider_answers e o j
                /\ fetchCustomHostnameStatus e o i w
                   = (Value (mkCf None (status_of j)
                               (fst (descriptor_of (hd empty_record (validation_records_of j))))
                               (snd (descriptor_of (hd empty_record (validation_records_of j))))
                               (validation_records_of j)),
                      log_cf (CfStatus i) w)).
Proof.
  destruct (provider_fails_or_answers e o) as [Hp|[j Hj]].
  - left. unfold fetchCustomHostnameStatus, bind, fetch_json, throw.
    destruct (not_configured e) eqn:Hc.
    { do 2 eexists. repeat split; try reflexivity; auto. }
    destruct Hp as [H|m H|ok m H|j H]; [congruence| | |]; rewrite H;
      do 2 eexists; (split; [reflexivity|]); cbn; repeat split; auto;
      solve [ eapply request_rejected; eassumption
            | eapply body_unreadable; eassumption
            | eapply provider_refuses; eassumption ].
  - right. exists j. split; [exact Hj|]. destruct Hj as [Hc Hf].
    now rewrite (fetchCustomHostnameStatus_ok e o i w j Hc Hf).
Qed.

Ltac unfold_route :=
  unfold POST, PATCH, DELETE, catch_500, bind, ensureUser,
    auth_lookup, ret, throw, select_site, select_domain, select_domain_by_hostname,
    fetch_only, swallow, insert_domain, update_domain, delete_domain,
    set_domains, maybeSingle, auth_lookup, bind, ret, throw.

Ltac break_provider :=
  match goal with
  | |- context [createCustomHostname ?e ?o ?h ?w] =>
      let H := fresh "Hcall" in
      let Hp := fresh "Hprov" in
      destruct (createCustomHostname_cases e o h w)
        as [[?m [?w' [H [?Hs [?Hd [?Hc Hp]]]]]] | [?j [Hp H]]];
      rewrite H; cbn [sites domains cf_calls] in *
  | |- context [fetchCustomHostnameStatus ?e ?o ?i ?w] =>
      let H := fresh "Hcall" in
      let Hp := fresh "Hprov" in
      destruct (fetchCustomHostnameStatus_cases e o i w)
        as [[?m [?w' [H [?Hs [?Hd [?Hc Hp]]]]]] | [?j [Hp H]]];
      rewrite H; cbn [sites domains cf_calls] in *
  end.

Ltac reduce_route :=
  cbv beta iota;
  cbn [fst snd query_error data sites domains cf_calls auth_calls negb
       cf_id cf_status cf_verification_method cf_verification_value
       cf_validation_records log_cf log_auth map].

Ltac use_equations :=
  repeat match goal with
         | H : ?x = _ |- _ =>
             lazymatch x with
             | filter _ _ => progress rewrite H
             | _ ?o => is_var o; progress rewrite H
             end
         end.

Ltac case_loop :=
  rewrite ?str_or_empty; reduce_route;
  repeat (first [break_provider | break_match]; reduce_route; use_equations;
          reduce_route).

Ltac route_cases := unfold_route; case_loop.

Ltac calls_leaf :=
  first [ left; first [reflexivity | assumption]
        | right; eexists; first [reflexivity | eassumption]
        | match goal with
          | H : _ \/ _ |- _ => destruct H as [H|H]; [left | right; eexists]; exact H
          end ].

Ltac failed_leaf :=
  left; cbn [fst snd status_code json_error json_ok domains cf_calls];
  split; [discriminate|];
  split; [first [reflexivity | assumption] | calls_leaf].

Lemma truthy_inv (v : option string) :
  Js.truthy v = true -> exists s, v = Some s /\ s <> "".
Proof.
  destruct v as [s|]; [|discriminate]. intros H. exists s. split; [reflexivity|].
  unfold Js.truthy in H. apply negb_true_iff in H. now apply String.eqb_neq.
Qed.

Lemma negb_truthy_some (s : string) :
  negb (Js.truthy (Some s)) = false -> s <> "".
Proof.
  intros H. apply negb_false_iff in H.
  destruct (truthy_inv _ H) as [s' [Hs Hne]]. now injection Hs as <-.
Qed.

Lemma apply_update_refreshed (now : string) (j : cf_json) (d : domain_row) :
  apply_update
    (mkUpdate (Js.or_else (status_of j) (dom_status d))
       (Js.nullish (fst (descriptor_of (hd empty_record (validation_records_of j))))
                   (dom_verification_method d))
       (Js.nullish (snd (descriptor_of (hd empty_record (validation_records_of j))))
                   (dom_verification_value d))
       now) d
  = refreshed now j d.
Proof.
  unfold apply_update, refreshed, Js.nullish, Js.or_else.
  rewrite status_of_truthy. cbn.
  destruct (descriptor_of _) as [[m|] [v|]]; reflexivity.
Qed.

(** Every run of [PATCH] either fails and leaves the table alone, or is the
    refresh of one loaded row from a provider answer. *)
Lemma PATCH_shape e o req w :
  (status_code (fst (PATCH e o req w)) <> 200
   /\ domains (snd (PATCH e o req w)) = domains w
   /\ (cf_calls (snd (PATCH e o req w)) = cf_calls w
       \/ exists i, cf_calls (snd (PATCH e o req w)) = CfStatus i :: cf_calls w))
  \/ exists tok user did d j,
       getTokenFromRequest (authorization req) = Some tok
       /\ auth_getUser o tok = Some user
       /\ trimmed req id = Some did /\ did <> ""
       /\ filter (domain_matches did user) (domains w) = [d]
       /\ Js.truthy (dom_cf_custom_hostname_id d) = true
       /\ provider_answers e o j
       /\ PATCH e o req w
          = (json_ok (DomainJson (refreshed (clock_now o) j d)
                        (validation_records_of j) (CLOUDFLARE_CNAME_TARGET e)),
             mkWorld (sites w)
               (map (fun r => if domain_matches did user r
                              then refreshed (clock_now o) j d else r)
                    (domains w))
               (CfStatus (Js.str_or (dom_cf_custom_hostname_id d) "") :: cf_calls w)
               (tok :: auth_calls w)).
Proof.
  set (r := PATCH e o req w).
  assert (Hr : PATCH e o req w = r) by reflexivity. clearbody r. revert Hr.
  destruct (trimmed req id) as [did|] eqn:Hid;
    unfold_route; rewrite ?Hid; case_loop; intros <-;
    try solve [failed_leaf];
    try solve [exfalso; cbn in *; congruence].
  right. exists s, s0, did, d, j. rewrite apply_update_refreshed.
  repeat (split; [first [reflexivity | assumption
                        | now apply negb_truthy_some
                        | now apply negb_false_iff]|]).
  f_equal. f_equal. apply map_ext_in. intros r Hin.
  destruct (domain_matches did s0 r) eqn:Hm; [|reflexivity].
  rewrite (filter_single_eq _ _ _ _ Heql Hin Hm). apply apply_update_refreshed.
Qed.

(** Every run of [DELETE] either fails and leaves the table alone, or
    removes the rows of one id and owner. *)
Lemma DELETE_shape e o req w :
  (status_code (fst (DELETE e o req w)) <> 200
   /\ domains (snd (DELETE e o req w)) = domains w
   /\ (cf_calls (snd (DELETE e o req w)) = cf_calls w
       \/ exists i, cf_calls (snd (DELETE e o req w)) = CfDelete i :: cf_calls w))
  \/ exists tok user did d,
       getTokenFromRequest (authorization req) = Some tok
       /\ auth_getUser o tok = Some user
       /\ trimmed req id = Some did /\ did <> ""
       /\ filter (domain_matches did user) (domains w) = [d]
       /\ domains_delete_error o = None
       /\ DELETE e o req w
          = (json_ok SuccessJson,
             mkWorld (sites w)
               (filter (fun r => negb (domain_matches did user r)) (domains w))
               (if deregisters e d
                then CfDelete (Js.str_or (dom_cf_custom_hostname_id d) "") :: cf_calls w
                else cf_calls w)
               (tok :: auth_calls w)).
Proof.
  set (r := DELETE e o req w).
  assert (Hr : DELETE e o req w = r) by reflexivity. clearbody r. revert Hr.
  unfold deregisters.
  destruct (trimmed req id) as [did|] eqn:Hid;
    unfold_route; rewrite ?Hid; case_loop; intros <-;
    try solve [failed_leaf];
    try solve [exfalso; cbn in *; congruence].
  all: right; exists s, s0, did, d;
    repeat (split; [first [reflexivity | assumption
                          | now apply negb_truthy_some]|]);
    try match goal with H : _ && _ = _ |- _ => rewrite H end;
    reflexivity.
Qed.

Lemma or_else_pending (j : cf_json) :
  Js.or_else (status_of j) (Some "pending") = status_of j.
Proof. unfold Js.or_else. now rewrite status_of_truthy. Qed.

(** Every run of [POST] either fails and leaves the table alone, or appends
    the row built from one provider answer. *)
Lemma POST_shape e o req w :
  (status_code (fst (POST e o req w)) <> 200
   /\ domains (snd (POST e o req w)) = domains w
   /\ (cf_calls (snd (POST e o req w)) = cf_calls w
       \/ exists h, cf_calls (snd (POST e o req w)) = CfCreate h :: cf_calls w))
  \/ exists tok user sid raw site j,
       getTokenFromRequest (authorization req) = Some tok
       /\ auth_getUser o tok = Some user
       /\ trimmed req siteId = Some sid /\ sid <> ""
       /\ trimmed req hostname = Some raw /\ raw <> ""
       /\ filter (site_matches sid user) (sites w) = [site]
       /\ filter (hostname_matches (normalizeHostname raw)) (domains w) = []
       /\ provider_answers e o j
       /\ POST e o req w
          = (json_ok (DomainJson (created_row o user site (normalizeHostname raw) j)
                        (validation_records_of j) (CLOUDFLARE_CNAME_TARGET e)),
             mkWorld (sites w)
               (domains w ++ [created_row o user site (normalizeHostname raw) j])
               (CfCreate (normalizeHostname raw) :: cf_calls w)
               (tok :: auth_calls w)).
Proof.
  set (r := POST e o req w).
  assert (Hr : POST e o req w = r) by reflexivity. clearbody r. revert Hr.
  destruct (trimmed req siteId) as [sid|] eqn:Hsid;
    destruct (trimmed req hostname) as [raw|] eqn:Hraw;
    unfold_route; rewrite ?Hsid, ?Hraw; case_loop; intros <-;
    try solve [failed_leaf];
    try solve [exfalso; cbn in *; congruence];
    try solve [exfalso;
               match goal with
               | H : _ || _ = false |- _ =>
                   apply orb_false_iff in H as [? ?]; discriminate
               end].
  all: right; exists s, s0, sid, raw, s1, j; rewrite or_else_pending;
    apply orb_false_iff in Heqb as [Hb1 Hb2];
    repeat (split; [first [reflexivity | assumption
                          | now apply negb_truthy_some]|]);
    reflexivity.
Qed.

(** X5: whatever the request, POST either answers with an error and leaves
    the table as it was, or answers 200 and appends exactly one row.  That
    row belongs to the authenticated user, refers to a site of the sites
    table owned by the same user, and its hostname is in lower case,
    without trailing slash, held by no earlier row, and is the hostname the
    provider was asked to create. *)
Theorem POST_appends_one_owned_row
  (e : process_env) (o : oracle) (req : request) (w : world) :
  (status_code (fst (POST e o req w)) <> 200
   /\ domains (snd (POST e o req w)) = domains w)
  \/ exists row,
       status_code (fst (POST e o req w)) = 200
       /\ domains (snd (POST e o req w)) = domains w ++ [row]
       /\ (exists tok, getTokenFromRequest (authorization req) = Some tok
                       /\ auth_getUser o tok = Some (dom_user_id row))
       /\ (exists site, In site (sites w)
                        /\ site_id site = dom_site_id row
                        /\ site_user_id site = dom_user_id row)
       /\ lowered (dom_hostname row)
       /\ Js.replace_trailing_slashes (dom_hostname row) = dom_hostname row
       /\ (forall x, In x (domains w) -> dom_hostname x <> dom_hostname row)
       /\ cf_calls (snd (POST e o req w)) = CfCreate (dom_hostname row) :: cf_calls w.
Proof.
  destruct (POST_shape e o req w)
    as [[Hs [Hd _]] | [tok [user [sid [raw [site [j
         [Ht [Hu [Hsid [Hsne [Hraw [Hrne [Hsite [Hnone [Hj Hp]]]]]]]]]]]]]]]].
  - left. now split.
  - right. exists (created_row o user site (normalizeHostname raw) j).
    rewrite Hp. cbn [fst snd status_code json_ok domains cf_calls created_row
                     dom_user_id dom_site_id dom_hostname].
    split; [reflexivity|]. split; [reflexivity|].
    split; [exists tok; now split|]. split.
    { exists site.
      assert (Hin : In site (filter (site_matches sid user) (sites w)))
        by (rewrite Hsite; now left).
      apply filter_In in Hin as [Hin Hm]. unfold site_matches in Hm.
      apply andb_true_iff in Hm as [_ Hm]. apply String.eqb_eq in Hm.
      repeat split; assumption. }
    split; [apply normalizeHostname_lowered|].
    split; [unfold normalizeHostname; apply replace_trailing_slashes_idem|].
    split; [|reflexivity].
    intros x Hx Heq.
    assert (Hin : In x (filter (hostname_matches (normalizeHostname raw)) (domains w))).
    { apply filter_In. split; [exact Hx|].
      unfold hostname_matches. rewrite Heq. apply String.eqb_refl. }
    rewrite Hnone in Hin. destruct Hin.
Qed.

Lemma refreshed_identity (now : string) (j : cf_json) (d : domain_row) :
  identity_columns (refreshed now j d) = identity_columns d.
Proof. reflexivity. Qed.

(** X6: whatever the request, PATCH keeps the number and order of the rows
    and never changes the id, site, owner, hostname, provider identifier or
    creation time of any row. *)
Theorem PATCH_keeps_identity_columns
  (e : process_env) (o : oracle) (req : request) (w : world) :
  map identity_columns (domains (snd (PATCH e o req w)))
  = map identity_columns (domains w).
Proof.
  destruct (PATCH_shape e o req w)
    as [[_ [Hd _]] | [tok [user [did [d [j [_ [_ [_ [_ [Hrow [_ [_ Hp]]]]]]]]]]]]].
  - now rewrite Hd.
  - rewrite Hp. cbn [snd domains]. rewrite map_map. apply map_ext_in.
    intros r Hin. destruct (domain_matches did user r) eqn:Hm; [|reflexivity].
    now rewrite (filter_single_eq _ _ _ _ Hrow Hin Hm).
Qed.

(** X7: a row leaves the table through DELETE, or is altered by PATCH, only
    when the requester is authenticated as the owner of that row and asks
    for its id; rows of anybody else stay exactly as they are. *)
Theorem rows_change_only_for_their_owner
  (e : process_env) (o : oracle) (req : request) (w : world) (r : domain_row) :
  In r (domains w) ->
  ~ In r (domains (snd (DELETE e o req w)))
  \/ ~ In r (domains (snd (PATCH e o req w))) ->
  exists tok,
    getTokenFromRequest (authorization req) = Some tok
    /\ auth_getUser o tok = Some (dom_user_id r)
    /\ trimmed req id = Some (dom_id r).
Proof.
  intros Hin [Hgone|Hgone].
  - destruct (DELETE_shape e o req w)
      as [[_ [Hd _]] | [tok [user [did [d [Ht [Hu [Hid [_ [_ [_ Hp]]]]]]]]]]].
    { rewrite Hd in Hgone. contradiction. }
    rewrite Hp in Hgone. cbn [snd domains] in Hgone.
    destruct (domain_matches did user r) eqn:Hm.
    + unfold domain_matches in Hm. apply andb_true_iff in Hm as [Hi Ho].
      apply String.eqb_eq in Hi, Ho. subst. exists tok. auto.
    + exfalso. apply Hgone. apply filter_In. split; [exact Hin|]. now rewrite Hm.
  - destruct (PATCH_shape e o req w)
      as [[_ [Hd _]] | [tok [user [did [d [j [Ht [Hu [Hid [_ [_ [_ [_ Hp]]]]]]]]]]]]].
    { rewrite Hd in Hgone. contradiction. }
    rewrite Hp in Hgone. cbn [snd domains] in Hgone.
    destruct (domain_matches did user r) eqn:Hm.
    + unfold domain_matches in Hm. apply andb_true_iff in Hm as [Hi Ho].
      apply String.eqb_eq in Hi, Ho. subst. exists tok. auto.
    + exfalso. apply Hgone. apply in_map_iff. exists r. now rewrite Hm.
Qed.

Lemma rows_change_only_for_their_owner_witness :
  exists tok,
    getTokenFromRequest (authorization delete_request) = Some tok
    /\ auth_getUser (oracle_with (Rejects "down")) tok = Some "alice"
    /\ trimmed delete_request id = Some "d1".
Proof.
  apply (rows_change_only_for_their_owner configured_env
           (oracle_with (Rejects "down")) delete_request
           (mkWorld [] [stored_cname; stored_bob] [] []) stored_cname).
  - left. reflexivity.
  - left. vm_compute. intros [H|[]]. discriminate H.
Defined.

Lemma descriptor_of_value_none (r : validation_record) :
  snd (descriptor_of r) = None -> fst (descriptor_of r) = None.
Proof.
  unfold descriptor_of.
  destruct (Js.truthy (cname_target r)) eqn:Ec;
    [cbn; intros H; rewrite H in Ec; discriminate|].
  destruct (Js.truthy (txt_value r)) eqn:Et;
    [cbn; intros H; rewrite H in Et; discriminate|].
  destruct (Js.truthy (http_url r)) eqn:Eh;
    [cbn; intros H; rewrite H in Eh; discriminate | reflexivity].
Qed.

Lemma descriptor_of_method (r : validation_record) :
  fst (descriptor_of r) = None
  \/ fst (descriptor_of r) = Some "cname"
  \/ fst (descriptor_of r) = Some "txt"
  \/ fst (descriptor_of r) = Some "http".
Proof.
  unfold descriptor_of.
  destruct (Js.truthy (cname_target r)); [auto|].
  destruct (Js.truthy (txt_value r)); [auto|].
  destruct (Js.truthy (http_url r)); auto.
Qed.

Lemma created_row_well_formed o user site h j :
  cache_well_formed (created_row o user site h j).
Proof.
  unfold cache_well_formed, created_row.
  cbn [dom_status dom_verification_method dom_verification_value].
  split; [apply status_of_truthy|]. split; [|apply descriptor_of_method].
  split; [apply descriptor_of_none | apply descriptor_of_value_none].
Qed.

Lemma refreshed_well_formed now j d :
  cache_well_formed d -> cache_well_formed (refreshed now j d).
Proof.
  intros [_ [Hiff Hset]]. unfold cache_well_formed, refreshed.
  cbn [dom_status dom_verification_method dom_verification_value].
  split; [apply status_of_truthy|].
  pose proof (descriptor_of_none (hd empty_record (validation_records_of j))) as H1.
  pose proof (descriptor_of_value_none (hd empty_record (validation_records_of j))) as H2.
  pose proof (descriptor_of_method (hd empty_record (validation_records_of j))) as H3.
  destruct (descriptor_of (hd empty_record (validation_records_of j))) as [[m|] [v|]];
    cbn [fst snd] in *.
  - split; [split; discriminate | exact H3].
  - specialize (H2 eq_refl). discriminate.
  - specialize (H1 eq_refl). discriminate.
  - split; assumption.
Qed.

(** X8: the handlers keep the cached provider state of every row well
    formed: if each row has a status that is not empty, a method among
    cname, txt, http or none, and a value exactly when it has a method, then
    the same holds of each row after POST, after PATCH and after DELETE,
    whatever the request and the provider answer. *)
Theorem cached_state_stays_well_formed
  (e : process_env) (o : oracle) (req : request) (w : world) :
  Forall cache_well_formed (domains w) ->
  Forall cache_well_formed (domains (snd (POST e o req w)))
  /\ Forall cache_well_formed (domains (snd (PATCH e o req w)))
  /\ Forall cache_well_formed (domains (snd (DELETE e o req w))).
Proof.
  intros Hwf. split; [|split].
  - destruct (POST_shape e o req w)
      as [[_ [Hd _]] | [tok [user [sid [raw [site [j
           [_ [_ [_ [_ [_ [_ [_ [_ [_ Hp]]]]]]]]]]]]]]]].
    + now rewrite Hd.
    + rewrite Hp. cbn [snd domains]. apply Forall_app. split; [exact Hwf|].
      constructor; [apply created_row_well_formed | constructor].
  - destruct (PATCH_shape e o req w)
      as [[_ [Hd _]] | [tok [user [did [d [j [_ [_ [_ [_ [Hrow [_ [_ Hp]]]]]]]]]]]]].
    + now rewrite Hd.
    + rewrite Hp. cbn [snd domains]. apply Forall_forall. intros x Hx.
      apply in_map_iff in Hx as [r [Hr Hin]].
      rewrite Forall_forall in Hwf.
      destruct (domain_matches did user r) eqn:Hm.
      * subst x. apply refreshed_well_formed. apply Hwf.
        now rewrite <- (filter_single_eq _ _ _ _ Hrow Hin Hm).
      * subst x. now apply Hwf.
  - destruct (DELETE_shape e o req w)
      as [[_ [Hd _]] | [tok [user [did [d [_ [_ [_ [_ [_ [_ Hp]]]]]]]]]]].
    + now rewrite Hd.
    + rewrite Hp. cbn [snd domains]. apply Forall_forall. intros x Hx.
      apply filter_In in Hx as [Hx _]. rewrite Forall_forall in Hwf. now apply Hwf.
Qed.

Lemma cached_state_stays_well_formed_witness :
  Forall cache_well_formed
    (domains (snd (PATCH configured_env
                     (oracle_with (Responds true (Value active_answer)))
                     refresh_request (mkWorld [] [stored_cname] [] [])))).
Proof.
  apply (cached_state_stays_well_formed configured_env
           (oracle_with (Responds true (Value active_answer)))
           refresh_request (mkWorld [] [stored_cname] [] [])).
  constructor; [|constructor].
  unfold cache_well_formed, stored_cname. cbn.
  split; [reflexivity|]. split; [split; discriminate|]. right; left; reflexivity.
Defined.

(** X9: a handler makes at most one provider call per request, and only of
    its own kind: POST a create, PATCH a status fetch, DELETE a
    deregistration. *)
Theorem one_provider_call_of_own_kind
  (e : process_env) (o : oracle) (req : request) (w : world) :
  (cf_calls (snd (POST e o req w)) = cf_calls w
   \/ exists h, cf_calls (snd (POST e o req w)) = CfCreate h :: cf_calls w)
  /\ (cf_calls (snd (PATCH e o req w)) = cf_calls w
      \/ exists i, cf_calls (snd (PATCH e o req w)) = CfStatus i :: cf_calls w)
  /\ (cf_calls (snd (DELETE e o req w)) = cf_calls w
      \/ exists i, cf_calls (snd (DELETE e o req w)) = CfDelete i :: cf_calls w).
Proof.
  split; [|split].
  - destruct (POST_shape e o req w)
      as [[_ [_ Hc]] | [tok [user [sid [raw [site [j
           [_ [_ [_ [_ [_ [_ [_ [_ [_ Hp]]]]]]]]]]]]]]]]; [exact Hc|].
    right. rewrite Hp. eexists. reflexivity.
  - destruct (PATCH_shape e o req w)
      as [[_ [_ Hc]] | [tok [user [did [d [j [_ [_ [_ [_ [_ [_ [_ Hp]]]]]]]]]]]]];
      [exact Hc|].
    right. rewrite Hp. eexists. reflexivity.
  - destruct (DELETE_shape e o req w)
      as [[_ [_ Hc]] | [tok [user [did [d [_ [_ [_ [_ [_ [_ Hp]]]]]]]]]]];
      [exact Hc|].
    rewrite Hp. cbn [snd cf_calls].
    destruct (deregisters e d); [right; eexists; reflexivity | left; reflexivity].
Qed.

(* ================================================================= *)
(** ** How the handlers compose *)

Lemma refreshed_refreshed now1 now2 j d :
  refreshed now2 j (refreshed now1 j d) = refreshed now2 j d.
Proof.
  unfold refreshed. cbn.
  destruct (descriptor_of (hd empty_record (validation_records_of j)))
    as [[m|] [v|]]; reflexivity.
Qed.

Lemma filter_map_replace {A} (f : A -> bool) (g : A) (l : list A) :
  f g = true ->
  filter f (map (fun r => if f r then g else r) l) = map (fun _ => g) (filter f l).
Proof.
  intros Hg. induction l as [|x l IH]; [reflexivity|]. simpl.
  destruct (f x) eqn:Hx; simpl.
  - now rewrite Hg, IH.
  - now rewrite Hx.
Qed.

Lemma map_replace_twice {A} (f : A -> bool) (g1 g2 : A) (l : list A) :
  f g1 = true ->
  map (fun r => if f r then g2 else r) (map (fun r => if f r then g1 else r) l)
  = map (fun r => if f r then g2 else r) l.
Proof.
  intros Hg. rewrite map_map. apply map_ext. intros r.
  destruct (f r) eqn:Hr; [now rewrite Hg | now rewrite Hr].
Qed.

Lemma loaded_row_matches did user w d :
  filter (domain_matches did user) (domains w) = [d] ->
  In d (domains w) /\ domain_matches did user d = true.
Proof.
  intros Hrow.
  assert (Hin : In d (filter (domain_matches did user) (domains w)))
    by (rewrite Hrow; now left).
  now apply filter_In in Hin.
Qed.

(** X10: refreshing a record twice against the same provider answer gives
    the table a single refresh would give: the second refresh finds the
    record again and changes nothing but the updated-timestamp. *)
Theorem refresh_twice_is_refresh_once
  (e : process_env) (o1 o2 : oracle) (req : request) (w : world)
  (tok user did : string) (d : domain_row) (j : cf_json) :
  getTokenFromRequest (authorization req) = Some tok ->
  auth_getUser o1 tok = Some user ->
  auth_getUser o2 tok = Some user ->
  trimmed req id = Some did ->
  did <> "" ->
  filter (domain_matches did user) (domains w) = [d] ->
  Js.truthy (dom_cf_custom_hostname_id d) = true ->
  domains_select_error o1 = None /\ domains_update_error o1 = None ->
  domains_select_error o2 = None /\ domains_update_error o2 = None ->
  provider_answers e o1 j ->
  provider_answers e o2 j ->
  let w1 := snd (PATCH e o1 req w) in
  domains (snd (PATCH e o2 req w1)) = domains (snd (PATCH e o2 req w))
  /\ fst (PATCH e o1 req w)
     = json_ok (DomainJson (refreshed (clock_now o1) j d)
                  (validation_records_of j) (CLOUDFLARE_CNAME_TARGET e))
  /\ fst (PATCH e o2 req w1)
     = json_ok (DomainJson (refreshed (clock_now o2) j d)
                  (validation_records_of j) (CLOUDFLARE_CNAME_TARGET e)).
Proof.
  intros Ht Hu1 Hu2 Hid Hne Hrow Hcf [Hs1 Hup1] [Hs2 Hup2] Hj1 Hj2 w1.
  pose proof (loaded_row_matches _ _ _ _ Hrow) as [_ Hm].
  assert (Hm1 : domain_matches did user (refreshed (clock_now o1) j d) = true)
    by exact Hm.
  assert (H1 : PATCH e o1 req w = _)
    by exact (PATCH_provider_answer e o1 req w tok user did d
                Ht Hu1 Hid Hne Hs1 Hrow j Hcf Hj1 Hup1).
  assert (Hrow1 : filter (domain_matches did user) (domains w1)
                  = [refreshed (clock_now o1) j d]).
  { subst w1. rewrite H1. cbn [snd domains].
    rewrite (filter_map_replace _ _ _ Hm1), Hrow. reflexivity. }
  assert (H2 : PATCH e o2 req w1 = _)
    by exact (PATCH_provider_answer e o2 req w1 tok user did
                (refreshed (clock_now o1) j d)
                Ht Hu2 Hid Hne Hs2 Hrow1 j Hcf Hj2 Hup2).
  assert (H3 : PATCH e o2 req w = _)
    by exact (PATCH_provider_answer e o2 req w tok user did d
                Ht Hu2 Hid Hne Hs2 Hrow j Hcf Hj2 Hup2).
  rewrite H2, H3. cbn [fst snd domains]. rewrite refreshed_refreshed.
  split; [|split; [now rewrite H1 | reflexivity]].
  subst w1. rewrite H1. cbn [snd domains].
  apply (map_replace_twice _ _ _ _ Hm1).
Qed.

Lemma refresh_twice_is_refresh_once_witness :
  let o := oracle_with (Responds true (Value active_answer)) in
  let w := mkWorld [] [stored_cname; stored_bob] [] [] in
  domains (snd (PATCH configured_env o refresh_request
                  (snd (PATCH configured_env o refresh_request w))))
  = domains (snd (PATCH configured_env o refresh_request w)).
Proof.
  cbv zeta.
  apply (refresh_twice_is_refresh_once configured_env
           (oracle_with (Responds true (Value active_answer)))
           (oracle_with (Responds true (Value active_answer)))
           refresh_request (mkWorld [] [stored_cname; stored_bob] [] [])
           "tok-alice" "alice" "d1" stored_cname active_answer);
    try reflexivity; try discriminate; split; reflexivity.
Defined.

Lemma filter_negb_all {A} (f : A -> bool) (l : list A) :
  filter f l = [] -> filter (fun x => negb (f x)) l = l.
Proof.
  induction l as [|x l IH]; [reflexivity|]. simpl.
  destruct (f x) eqn:Hx; [discriminate|]. intros H. simpl. now rewrite (IH H).
Qed.

Lemma GET_ok o req w tok user :
  getTokenFromRequest (authorization req) = Some tok ->
  auth_getUser o tok = Some user ->
  domains_select_error o = None ->
  GET o req w
  = (mkListResponse 200
       (ListRows (order_desc (filter (owned_by user) (domains w)))),
     log_auth tok w).
Proof.
  intros Ht Hu Hsel. unfold GET, catch_list_500, bind.
  rewrite (ensureUser_with_token o req w tok Ht), Hu.
  unfold select_domains_of_user. now rewrite Hsel.
Qed.

(** X11: a record that Create has just stored can be found and removed
    again: when the new id is fresh for the user, a later GET of that user
    lists the record, and a Delete of that id by the same user succeeds and
    gives back the table as it was before the Create. *)
Theorem create_then_list_then_delete
  (e : process_env) (o o2 o3 : oracle) (req req2 req3 : request) (w : world)
  (tok tok2 tok3 user sid raw : string) (site : site_row) (j : cf_json) :
  getTokenFromRequest (authorization req) = Some tok ->
  auth_getUser o tok = Some user ->
  trimmed req siteId = Some sid /\ sid <> "" ->
  trimmed req hostname = Some raw /\ raw <> "" ->
  sites_select_error o = None ->
  filter (site_matches sid user) (sites w) = [site] ->
  domains_select_error o = None ->
  filter (hostname_matches (normalizeHostname raw)) (domains w) = [] ->
  provider_answers e o j ->
  domains_insert_error o = None ->
  filter (domain_matches (db_new_id o) user) (domains w) = [] ->
  getTokenFromRequest (authorization req2) = Some tok2 ->
  auth_getUser o2 tok2 = Some user ->
  domains_select_error o2 = None ->
  getTokenFromRequest (authorization req3) = Some tok3 ->
  auth_getUser o3 tok3 = Some user ->
  trimmed req3 id = Some (db_new_id o) /\ db_new_id o <> "" ->
  domains_select_error o3 = None /\ domains_delete_error o3 = None ->
  let w1 := snd (POST e o req w) in
  let row := created_row o user site (normalizeHostname raw) j in
  (exists rows, fst (GET o2 req2 w1) = mkListResponse 200 (ListRows rows)
                /\ In row rows)
  /\ fst (DELETE e o3 req3 w1) = json_ok SuccessJson
  /\ domains (snd (DELETE e o3 req3 w1)) = domains w.
Proof.
  intros Ht Hu [Hsid Hsne] [Hraw Hrne] Hsites Hsite Hsel Hnone Hj Hins Hfresh
         Ht2 Hu2 Hsel2 Ht3 Hu3 [Hid3 Hne3] [Hsel3 Hdel3] w1 row.
  assert (Hw1 : domains w1 = domains w ++ [row]).
  { subst w1 row.
    rewrite (POST_provider_answers e o req w tok user sid raw site
               Ht Hu Hsid Hsne Hraw Hrne Hsites Hsite j Hsel Hnone Hj), Hins.
    reflexivity. }
  assert (Hmatch : domain_matches (db_new_id o) user row = true).
  { unfold domain_matches, row, created_row. cbn [dom_id dom_user_id].
    now rewrite !String.eqb_refl. }
  split.
  - rewrite (GET_ok o2 req2 w1 tok2 user Ht2 Hu2 Hsel2). cbn [fst].
    eexists. split; [reflexivity|].
    apply (Permutation_in _ (Permutation_sym (order_desc_perm _))).
    apply filter_In. split.
    + rewrite Hw1. apply in_or_app. right. now left.
    + unfold owned_by, row, created_row. cbn [dom_user_id]. apply String.eqb_refl.
  - assert (Hrow : filter (domain_matches (db_new_id o) user) (domains w1) = [row]).
    { rewrite Hw1, filter_app, Hfresh. simpl. now rewrite Hmatch. }
    rewrite (DELETE_result e o3 req3 w1 tok3 user (db_new_id o) row
               Ht3 Hu3 Hid3 Hne3 Hsel3 Hrow), Hdel3.
    cbn [fst snd domains]. split; [reflexivity|].
    rewrite Hw1, filter_app, (filter_negb_all _ _ Hfresh). simpl.
    rewrite Hmatch. simpl. apply app_nil_r.
Qed.

Lemma create_then_list_then_delete_witness :
  let o := oracle_with (Responds true (Value (answer txt_then_cname))) in
  let w := mkWorld [alice_site] [stored_bob] [] [] in
  let w1 := snd (POST configured_env o create_request w) in
  let row := created_row o "alice" alice_site (normalizeHostname "Example.com")
               (answer txt_then_cname) in
  (exists rows,
      fst (GET o (mkRequest (Some "Bearer tok-alice") None) w1)
      = mkListResponse 200 (ListRows rows)
      /\ In row rows)
  /\ fst (DELETE configured_env o delete_new_request w1) = json_ok SuccessJson
  /\ domains (snd (DELETE configured_env o delete_new_request w1)) = domains w.
Proof.
  cbv zeta.
  apply (create_then_list_then_delete configured_env
           (oracle_with (Responds true (Value (answer txt_then_cname))))
           (oracle_with (Responds true (Value (answer txt_then_cname))))
           (oracle_with (Responds true (Value (answer txt_then_cname))))
           create_request (mkRequest (Some "Bearer tok-alice") None)
           delete_new_request (mkWorld [alice_site] [stored_bob] [] [])
           "tok-alice" "tok-alice" "tok-alice" "alice" "s1" "Example.com"
           alice_site (answer txt_then_cname));
    try reflexivity; try (split; [reflexivity | discriminate]);
    split; reflexivity.
Defined.

(* ================================================================= *)
(** ** Failures after the provider step, and what the caller is told *)

(** X12: when the store refuses the deletion of a record that is mapped at
    the provider (configuration present), Delete answers 500 and the row
    stays in the table, although the deregistration call has already been
    sent to the provider. *)
Theorem DELETE_store_failure_after_deregistration
  (e : process_env) (o : oracle) (req : request) (w : world)
  (tok user did m : string) (d : domain_row) :
  getTokenFromRequest (authorization req) = Some tok ->
  auth_getUser o tok = Some user ->
  trimmed req id = Some did ->
  did <> "" ->
  domains_select_error o = None ->
  filter (domain_matches did user) (domains w) = [d] ->
  deregisters e d = true ->
  domains_delete_error o = Some m ->
  fst (DELETE e o req w) = json_error "Failed to delete domain" 500
  /\ domains (snd (DELETE e o req w)) = domains w
  /\ In d (domains (snd (DELETE e o req w)))
  /\ cf_calls (snd (DELETE e o req w))
     = CfDelete (Js.str_or (dom_cf_custom_hostname_id d) "") :: cf_calls w.
Proof.
  intros Ht Hu Hid Hne Hsel Hrow Hdereg Hdel.
  rewrite (DELETE_result e o req w tok user did d Ht Hu Hid Hne Hsel Hrow).
  rewrite Hdel, Hdereg. cbn [fst snd domains cf_calls].
  repeat split. apply (loaded_row_matches _ _ _ _ Hrow).
Qed.

Lemma DELETE_store_failure_after_deregistration_witness :
  let w := mkWorld [] [stored_cname] [] [] in
  fst (DELETE configured_env oracle_delete_refused delete_request w)
  = json_error "Failed to delete domain" 500
  /\ domains (snd (DELETE configured_env oracle_delete_refused delete_request w))
     = domains w
  /\ In stored_cname
        (domains (snd (DELETE configured_env oracle_delete_refused delete_request w)))
  /\ cf_calls (snd (DELETE configured_env oracle_delete_refused delete_request w))
     = CfDelete (Js.str_or (dom_cf_custom_hostname_id stored_cname) "") :: cf_calls w.
Proof.
  cbv zeta.
  apply (DELETE_store_failure_after_deregistration configured_env
           oracle_delete_refused delete_request (mkWorld [] [stored_cname] [] [])
           "tok-alice" "alice" "d1" "permission denied" stored_cname);
    try reflexivity; discriminate.
Defined.

(** X13: when the store refuses the update after the provider answered,
    Refresh answers 500 ("Failed to update domain status"), the table is
    unchanged, and the status fetch has been made. *)
Theorem PATCH_store_failure_after_fetch
  (e : process_env) (o : oracle) (req : request) (w : world)
  (tok user did m : string) (d : domain_row) (j : cf_json) :
  getTokenFromRequest (authorization req) = Some tok ->
  auth_getUser o tok = Some user ->
  trimmed req id = Some did ->
  did <> "" ->
  domains_select_error o = None ->
  filter (domain_matches did user) (domains w) = [d] ->
  Js.truthy (dom_cf_custom_hostname_id d) = true ->
  provider_answers e o j ->
  domains_update_error o = Some m ->
  fst (PATCH e o req w) = json_error "Failed to update domain status" 500
  /\ domains (snd (PATCH e o req w)) = domains w
  /\ cf_calls (snd (PATCH e o req w))
     = CfStatus (Js.str_or (dom_cf_custom_hostname_id d) "") :: cf_calls w.
Proof.
  intros Ht Hu Hid Hne Hsel Hrow Hcf [Hc Hf] Hupd.
  rewrite (PATCH_loaded e o req w tok user did d Ht Hu Hid Hne Hsel Hrow).
  unfold catch_500, refresh_loaded. rewrite Hcf. cbn [negb]. unfold bind.
  rewrite (fetchCustomHostnameStatus_ok e o _ _ j Hc Hf).
  unfold update_domain. rewrite Hupd. cbn. auto.
Qed.

Lemma PATCH_store_failure_after_fetch_witness :
  let w := mkWorld [] [stored_cname] [] [] in
  fst (PATCH configured_env oracle_update_refused refresh_request w)
  = json_error "Failed to update domain status" 500
  /\ domains (snd (PATCH configured_env oracle_update_refused refresh_request w))
     = domains w
  /\ cf_calls (snd (PATCH configured_env oracle_update_refused refresh_request w))
     = CfStatus (Js.str_or (dom_cf_custom_hostname_id stored_cname) "") :: cf_calls w.
Proof.
  cbv zeta.
  apply (PATCH_store_failure_after_fetch configured_env oracle_update_refused
           refresh_request (mkWorld [] [stored_cname] [] [])
           "tok-alice" "alice" "d1" "permission denied" stored_cname active_answer);
    try reflexivity; try discriminate.
  split; reflexivity.
Defined.

Lemma str_or_str_or (v : option string) (d d' : string) :
  d <> "" -> Js.str_or (Some (Js.str_or v d)) d' = Js.str_or v d.
Proof.
  intros Hd. unfold Js.str_or at 1. unfold Js.or_else at 1.
  assert (Ht : Js.truthy (Some (Js.str_or v d)) = true).
  { apply truthy_some. unfold Js.str_or, Js.or_else.
    destruct (Js.truthy v) eqn:Ev.
    - destruct (truthy_inv v Ev) as [s [-> Hs]]. exact Hs.
    - exact Hd. }
  now rewrite Ht.
Qed.

(** X14: what Create tells the caller when the provider step fails, for a
    valid request on a free hostname.  Without provider configuration the
    answer is 500 with the configuration message and no call is made; when
    the provider refuses, it is 500 with the message of the provider's
    first reported error, or "Cloudflare create failed" when there is none;
    when the request is rejected or the body unreadable, it is 500 with
    the message of the exception, or "Failed to create domain" when that
    is empty.  In each case nothing is stored. *)
Theorem POST_provider_failure_message
  (e : process_env) (o : oracle) (req : request) (w : world)
  (tok user sid raw : string) (site : site_row) :
  getTokenFromRequest (authorization req) = Some tok ->
  auth_getUser o tok = Some user ->
  trimmed req siteId = Some sid /\ sid <> "" ->
  trimmed req hostname = Some raw /\ raw <> "" ->
  sites_select_error o = None ->
  filter (site_matches sid user) (sites w) = [site] ->
  domains_select_error o = None ->
  filter (hostname_matches (normalizeHostname raw)) (domains w) = [] ->
  let h := normalizeHostname raw in
  (not_configured e = true ->
     POST e o req w
     = (json_error "Cloudflare environment variables are not configured" 500,
        log_auth tok w))
  /\ (forall j, not_configured e = false ->
        cf_fetch o = Responds false (Value j) ->
        POST e o req w
        = (json_error (Js.str_or (first_error_message j) "Cloudflare create failed") 500,
           log_cf (CfCreate h) (log_auth tok w)))
  /\ (forall m, not_configured e = false ->
        cf_fetch o = Rejects m \/ (exists ok, cf_fetch o = Responds ok (Throw m)) ->
        POST e o req w
        = (json_error (Js.str_or (Some m) "Failed to create domain") 500,
           log_cf (CfCreate h) (log_auth tok w))).
Proof.
  intros Ht Hu [Hsid Hsne] [Hraw Hrne] Hsites Hsite Hsel Hnone h.
  pose proof (POST_resolved e o req w tok user sid raw site
                Ht Hu Hsid Hsne Hraw Hrne Hsites Hsite) as HP.
  split; [|split].
  - intros Hc. rewrite HP.
    unfold catch_500, create_on_site, bind, select_domain_by_hostname.
    cbn [domains log_auth]. rewrite Hsel, Hnone. cbn [maybeSingle query_error data].
    unfold createCustomHostname. rewrite Hc. reflexivity.
  - intros j Hc Hf. rewrite HP.
    unfold catch_500, create_on_site, bind, select_domain_by_hostname.
    cbn [domains log_auth]. rewrite Hsel, Hnone. cbn [maybeSingle query_error data].
    unfold createCustomHostname, bind, fetch_json. rewrite Hc, Hf.
    cbn [fst snd negb throw].
    rewrite str_or_str_or by discriminate. reflexivity.
  - intros m Hc Hf. rewrite HP.
    unfold catch_500, create_on_site, bind, select_domain_by_hostname.
    cbn [domains log_auth]. rewrite Hsel, Hnone. cbn [maybeSingle query_error data].
    unfold createCustomHostname, bind, fetch_json. rewrite Hc.
    destruct Hf as [Hf|[ok Hf]]; rewrite Hf; reflexivity.
Qed.

Lemma POST_provider_failure_message_witness :
  let o := oracle_with
             (Responds false (Value (mkJson [Some "Duplicate custom hostname found."] None))) in
  let w := mkWorld [alice_site] [] [] [] in
  POST configured_env o create_request w
  = (json_error "Duplicate custom hostname found." 500,
     log_cf (CfCreate "example.com") (log_auth "tok-alice" w)).
Proof.
  cbv zeta.
  destruct (POST_provider_failure_message configured_env
              (oracle_with
                 (Responds false
                    (Value (mkJson [Some "Duplicate custom hostname found."] None))))
              create_request (mkWorld [alice_site] [] [] [])
              "tok-alice" "alice" "s1" "Example.com" alice_site)
    as [_ [Hrefused _]];
    [ try reflexivity; try (split; [reflexivity | discriminate]) ..
    | exact (Hrefused _ eq_refl eq_refl) ].
Defined.

(** X15: what Refresh tells the caller when the status fetch fails for a
    stored, mapped record: the configuration message without any call when
    configuration is missing; the provider's first error message, or
    "Cloudflare fetch failed", when the provider refuses; the exception's
    message, or "Failed to refresh domain", otherwise. *)
Theorem PATCH_provider_failure_message
  (e : process_env) (o : oracle) (req : request) (w : world)
  (tok user did : string) (d : domain_row) :
  getTokenFromRequest (authorization req) = Some tok ->
  auth_getUser o tok = Some user ->
  trimmed req id = Some did ->
  did <> "" ->
  domains_select_error o = None ->
  filter (domain_matches did user) (domains w) = [d] ->
  Js.truthy (dom_cf_custom_hostname_id d) = true ->
  let i := Js.str_or (dom_cf_custom_hostname_id d) "" in
  (not_configured e = true ->
     PATCH e o req w
     = (json_error "Cloudflare environment variables are not configured" 500,
        log_auth tok w))
  /\ (forall j, not_configured e = false ->
        cf_fetch o = Responds false (Value j) ->
        PATCH e o req w
        = (json_error (Js.str_or (first_error_message j) "Cloudflare fetch failed") 500,
           log_cf (CfStatus i) (log_auth tok w)))
  /\ (forall m, not_configured e = false ->
        cf_fetch o = Rejects m \/ (exists ok, cf_fetch o = Responds ok (Throw m)) ->
        PATCH e o req w
        = (json_error (Js.str_or (Some m) "Failed to refresh domain") 500,
           log_cf (CfStatus i) (log_auth tok w))).
Proof.
  intros Ht Hu Hid Hne Hsel Hrow Hcf i.
  pose proof (PATCH_loaded e o req w tok user did d Ht Hu Hid Hne Hsel Hrow) as HP.
  split; [|split].
  - intros Hc. rewrite HP. unfold catch_500, refresh_loaded. rewrite Hcf.
    cbn [negb]. unfold bind, fetchCustomHostnameStatus. rewrite Hc. reflexivity.
  - intros j Hc Hf. rewrite HP. unfold catch_500, refresh_loaded. rewrite Hcf.
    cbn [negb]. unfold bind, fetchCustomHostnameStatus, bind, fetch_json.
    rewrite Hc, Hf. cbn [fst snd negb throw].
    rewrite str_or_str_or by discriminate. reflexivity.
  - intros m Hc Hf. rewrite HP. unfold catch_500, refresh_loaded. rewrite Hcf.
    cbn [negb]. unfold bind, fetchCustomHostnameStatus, bind, fetch_json.
    rewrite Hc. destruct Hf as [Hf|[ok Hf]]; rewrite Hf; reflexivity.
Qed.

Lemma PATCH_provider_failure_message_witness :
  let w := mkWorld [] [stored_cname] [] [] in
  PATCH configured_env (oracle_with (Rejects "")) refresh_request w
  = (json_error "Failed to refresh domain" 500,
     log_cf (CfStatus "cf1") (log_auth "tok-alice" w)).
Proof.
  cbv zeta.
  destruct (PATCH_provider_failure_message configured_env
              (oracle_with (Rejects "")) refresh_request
              (mkWorld [] [stored_cname] [] [])
              "tok-alice" "alice" "d1" stored_cname)
    as [_ [_ Hthrown]];
    [ try reflexivity; try discriminate ..
    | exact (Hthrown "" eq_refl (or_introl eq_refl)) ].
Defined.

(** X16: Create on a site that the user does not own is answered 404: when
    every site with the requested id belongs to somebody else (or there is
    none), nothing is looked up in the domains table, the provider is not
    called and nothing is stored. *)
Theorem POST_site_must_be_owned
  (e : process_env) (o : oracle) (req : request) (w : world)
  (tok user sid raw : string) :
  getTokenFromRequest (authorization req) = Some tok ->
  auth_getUser o tok = Some user ->
  trimmed req siteId = Some sid /\ sid <> "" ->
  trimmed req hostname = Some raw /\ raw <> "" ->
  (forall s, In s (sites w) -> site_id s = sid -> site_user_id s <> user) ->
  POST e o req w = (json_error "Site not found" 404, log_auth tok w).
Proof.
  intros Ht Hu [Hsid Hsne] [Hraw Hrne] Hother.
  assert (Hnone : filter (site_matches sid user) (sites w) = []).
  { destruct (filter (site_matches sid user) (sites w)) as [|s l] eqn:E;
      [reflexivity|].
    assert (Hin : In s (filter (site_matches sid user) (sites w)))
      by (rewrite E; now left).
    apply filter_In in Hin as [Hin Hm]. unfold site_matches in Hm.
    apply andb_true_iff in Hm as [Hi Ho]. apply String.eqb_eq in Hi, Ho.
    destruct (Hother s Hin Hi Ho). }
  unfold POST, catch_500, bind.
  rewrite (ensureUser_with_token o req w tok Ht), Hu.
  rewrite Hsid, Hraw, (truthy_some _ Hsne), (truthy_some _ Hrne).
  rewrite !str_or_empty. cbn [negb orb].
  unfold select_site. cbn [sites]. rewrite Hnone.
  destruct (sites_select_error o); reflexivity.
Qed.

Lemma POST_site_must_be_owned_witness :
  let o := oracle_with (Responds true (Value (answer []))) in
  let w := mkWorld [bob_site] [] [] [] in
  POST configured_env o create_request w
  = (json_error "Site not found" 404, log_auth "tok-alice" w).
Proof.
  cbv zeta.
  apply (POST_site_must_be_owned configured_env
           (oracle_with (Responds true (Value (answer [])))) create_request
           (mkWorld [bob_site] [] [] []) "tok-alice" "alice" "s1" "Example.com");
    try reflexivity; try (split; [reflexivity | discriminate]).
  intros s [<-|[]] _. discriminate.
Defined.

(* ================================================================= *)
(** ** More on hostname normalization *)

Lemma toLowerCase_app (a b : string) :
  Js.toLowerCase (a ++ b) = (Js.toLowerCase a ++ Js.toLowerCase b)%string.
Proof. induction a as [|c a IH]; simpl; [reflexivity | now rewrite IH]. Qed.

Lemma toLowerCase_slashes (t : string) :
  all_slashes t = true -> Js.toLowerCase t = t.
Proof.
  induction t as [|c t IH]; simpl; [reflexivity|]. intros H.
  apply andb_true_iff in H as [Hc Ht]. rewrite (IH Ht). f_equal.
  unfold Js.is_slash in Hc. apply Ascii.eqb_eq in Hc. now subst c.
Qed.

Lemma replace_trailing_slashes_all (t : string) :
  all_slashes t = true -> Js.replace_trailing_slashes t = "".
Proof.
  induction t as [|c t IH]; simpl; [reflexivity|]. intros H.
  apply andb_true_iff in H as [Hc Ht]. now rewrite (IH Ht), Hc.
Qed.

Lemma replace_trailing_slashes_app (h t : string) :
  all_slashes t = true ->
  Js.replace_trailing_slashes (h ++ t) = Js.replace_trailing_slashes h.
Proof.
  intros Ht. induction h as [|c h IH]; simpl.
  - now apply replace_trailing_slashes_all.
  - now rewrite IH.
Qed.

Lemma strip_prefix_app (p r : string) : Js.strip_prefix p (p ++ r) = Some r.
Proof.
  induction p as [|a p IH]; simpl; [now destruct r|].
  now rewrite Ascii.eqb_refl.
Qed.

Lemma replace_scheme_http (r : string) :
  Js.replace_scheme ("http://" ++ r) = r /\ Js.replace_scheme ("https://" ++ r) = r.
Proof.
  split; unfold Js.replace_scheme.
  - change (Js.strip_prefix "https://" ("http://" ++ r)) with (@None string).
    now rewrite strip_prefix_app.
  - now rewrite strip_prefix_app.
Qed.

(** X17: spellings of one hostname normalize to the same string, so they
    collide in the uniqueness check of Create.  For a name whose lower-case
    form has no trailing slash: any capitalisation, an [http://] or
    [https://] scheme in any capitalisation, and any run of trailing
    slashes are removed; without a scheme the same holds as long as the
    lower-case name followed by the slashes does not itself begin with a
    scheme. *)
Theorem normalizeHostname_spellings (scheme x t : string) :
  all_slashes t = true ->
  Js.replace_trailing_slashes (Js.toLowerCase x) = Js.toLowerCase x ->
  (Js.toLowerCase scheme = "http://" \/ Js.toLowerCase scheme = "https://" ->
     normalizeHostname (scheme ++ x ++ t) = Js.toLowerCase x)
  /\ (starts_with_scheme (Js.toLowerCase x ++ t) = false ->
     normalizeHostname (x ++ t) = Js.toLowerCase x).
Proof.
  intros Ht Hx. split.
  - intros Hs. unfold normalizeHostname.
    rewrite !toLowerCase_app, (toLowerCase_slashes t Ht).
    destruct (replace_scheme_http (Js.toLowerCase x ++ t)) as [H1 H2].
    destruct Hs as [-> | ->]; rewrite ?H1, ?H2;
      now rewrite (replace_trailing_slashes_app _ _ Ht).
  - intros Hs. unfold normalizeHostname.
    rewrite toLowerCase_app, (toLowerCase_slashes t Ht).
    rewrite (replace_scheme_without_scheme _ Hs).
    now rewrite (replace_trailing_slashes_app _ _ Ht).
Qed.

Lemma normalizeHostname_spellings_witness :
  normalizeHostname ("HttpS://" ++ "Shop.Example.COM" ++ "//") = "shop.example.com"
  /\ normalizeHostname ("Shop.Example.COM" ++ "//") = "shop.example.com".
Proof.
  destruct (normalizeHostname_spellings "HttpS://" "Shop.Example.COM" "//"
              eq_refl eq_refl) as [Hs Hn].
  split; [apply Hs; right; reflexivity | apply Hn; reflexivity].
Defined.

Lemma normalizeHostname_only_slashes (t : string) :
  all_slashes t = true -> normalizeHostname t = "".
Proof.
  intros Ht. unfold normalizeHostname. rewrite (toLowerCase_slashes t Ht).
  assert (Hs : Js.replace_scheme t = t).
  { apply replace_scheme_without_scheme. unfold starts_with_scheme.
    destruct t as [|c t]; [reflexivity|]. simpl in Ht.
    apply andb_true_iff in Ht as [Hc _]. unfold Js.is_slash in Hc.
    apply Ascii.eqb_eq in Hc. subst c. reflexivity. }
  rewrite Hs. now apply replace_trailing_slashes_all.
Qed.

(** X18: the check for a missing hostname comes before normalization, so a
    hostname that is not blank but normalizes to the empty string is not
    refused: for a bare scheme or a run of slashes, on a valid request with
    the provider configured, Create asks the provider to register the empty
    hostname. *)
Theorem POST_sends_empty_hostname
  (e : process_env) (o : oracle) (req : request) (w : world)
  (tok user sid raw t : string) (site : site_row) :
  getTokenFromRequest (authorization req) = Some tok ->
  auth_getUser o tok = Some user ->
  trimmed req siteId = Some sid /\ sid <> "" ->
  trimmed req hostname = Some raw /\ raw <> "" ->
  all_slashes t = true ->
  raw = t \/ raw = ("http://" ++ t)%string \/ raw = ("https://" ++ t)%string ->
  sites_select_error o = None ->
  filter (site_matches sid user) (sites w) = [site] ->
  domains_select_error o = None ->
  filter (hostname_matches "") (domains w) = [] ->
  not_configured e = false ->
  normalizeHostname raw = ""
  /\ cf_calls (snd (POST e o req w)) = CfCreate "" :: cf_calls w.
Proof.
  intros Ht Hu [Hsid Hsne] [Hraw Hrne] Hall Hshape Hsites Hsite Hsel Hnone Hc.
  assert (Hn : normalizeHostname raw = "").
  { destruct Hshape as [-> | [-> | ->]].
    - now apply normalizeHostname_only_slashes.
    - unfold normalizeHostname. rewrite toLowerCase_app, (toLowerCase_slashes t Hall).
      change (Js.toLowerCase "http://") with "http://".
      rewrite (proj1 (replace_scheme_http t)).
      now apply replace_trailing_slashes_all.
    - unfold normalizeHostname. rewrite toLowerCase_app, (toLowerCase_slashes t Hall).
      change (Js.toLowerCase "https://") with "https://".
      rewrite (proj2 (replace_scheme_http t)).
      now apply replace_trailing_slashes_all. }
  split; [exact Hn|].
  rewrite (POST_resolved e o req w tok user sid raw site
             Ht Hu Hsid Hsne Hraw Hrne Hsites Hsite), Hn.
  unfold catch_500, create_on_site, bind, select_domain_by_hostname.
  cbn [domains log_auth]. rewrite Hsel, Hnone. cbn [maybeSingle query_error data].
  unfold createCustomHostname, bind, fetch_json, insert_domain. rewrite Hc.
  destruct (cf_fetch o) as [m|[|] [j|m]]; cbn [fst snd negb throw ret];
    try reflexivity.
  destruct (domains_insert_error o); reflexivity.
Qed.

Lemma POST_sends_empty_hostname_witness :
  let o := oracle_with (Responds true (Value (answer []))) in
  let req := mkRequest (Some "Bearer tok-alice")
               (Some (mkPayload (Some "s1") (Some " https:// ") None)) in
  let w := mkWorld [alice_site] [] [] [] in
  normalizeHostname "https://" = ""
  /\ cf_calls (snd (POST configured_env o req w)) = CfCreate "" :: cf_calls w.
Proof.
  cbv zeta.
  apply (POST_sends_empty_hostname configured_env
           (oracle_with (Responds true (Value (answer []))))
           (mkRequest (Some "Bearer tok-alice")
              (Some (mkPayload (Some "s1") (Some " https:// ") None)))
           (mkWorld [alice_site] [] [] [])
           "tok-alice" "alice" "s1" "https://" "" alice_site);
    try reflexivity; try (split; [reflexivity | discriminate]).
  right; right; reflexivity.
Defined.

(* ================================================================= *)
(** ** The manage page *)

Lemma cname_target_truthy (e : process_env) :
  Js.truthy (CLOUDFLARE_CNAME_TARGET e) = true.
Proof.
  unfold CLOUDFLARE_CNAME_TARGET, Js.or_else.
  destruct (Js.truthy (env_CLOUDFLARE_CNAME_TARGET e)) eqn:E; [exact E | reflexivity].
Qed.

(** X19: on a successful answer of the domains API, which always carries the
    CNAME target of the configuration (never empty) and the stored row, the
    DNS tip of the page is the CNAME instruction when the first DNS record
    names a CNAME and its target, and otherwise the instruction to point the
    hostname to the CNAME target: for a row with a hostname the TXT
    instruction is never shown and the tip is never missing. *)
Theorem formatDnsTip_on_api_answer
  (e : process_env) (d : domain_row) (records : option (list Page.dns_record)) :
  dom_hostname d <> "" ->
  let body := Some (Page.mkBody None (Some d) records (CLOUDFLARE_CNAME_TARGET e)) in
  (names_cname records = false ->
     Page.formatDnsTip body
     = Some ("Point " ++ dom_hostname d ++ " to "
               ++ Js.str_or (CLOUDFLARE_CNAME_TARGET e) "")%string)
  /\ (forall r rest, records = Some (r :: rest) -> names_cname records = true ->
        Page.formatDnsTip body
        = Some ("Create CNAME " ++ Js.str_or (Page.cname_name r) ""
                  ++ " -> " ++ Js.str_or (Page.cname_target r) "")%string).
Proof.
  intros Hh body. split.
  - intros Hn. unfold Page.formatDnsTip, body.
    cbn [Page.dnsRecords Page.cnameTarget Page.body_domain option_map].
    assert (Hc : Js.truthy
                   (match match records with
                          | Some (r :: _) => Some r
                          | _ => None
                          end with
                    | Some r => Page.cname_name r
                    | None => None
                    end)
                 && Js.truthy
                      (match match records with
                             | Some (r :: _) => Some r
                             | _ => None
                             end with
                       | Some r => Page.cname_target r
                       | None => None
                       end) = false).
    { destruct records as [[|r l]|]; [reflexivity | exact Hn | reflexivity]. }
    rewrite Hc, cname_target_truthy, (truthy_some _ Hh). cbn [andb].
    now rewrite str_or_empty.
  - intros r rest -> Hn. unfold Page.formatDnsTip, body.
    cbn [Page.dnsRecords Page.cnameTarget Page.body_domain option_map].
    cbn [names_cname] in Hn. now rewrite Hn.
Qed.

Lemma formatDnsTip_on_api_answer_witness :
  Page.formatDnsTip
    (Some (Page.mkBody None (Some stored_cname)
             (Some [Page.mkDns None None (Some "_acme.example.com") (Some "tok")])
             (CLOUDFLARE_CNAME_TARGET configured_env)))
  = Some "Point example.com to edge.simplhost.com".
Proof.
  destruct (formatDnsTip_on_api_answer configured_env stored_cname
              (Some [Page.mkDns None None (Some "_acme.example.com") (Some "tok")]))
    as [Hpoint _]; [discriminate|].
  exact (Hpoint eq_refl).
Defined.

(** X20: [refreshDomain] never adds or removes an entry of the list of the
    page and never touches an entry with another id; every entry with the
    refreshed id becomes the row of a successful answer. *)
Theorem refreshDomain_replaces_in_place
  (r : Page.reply Page.api_body) (id : string) (s : Page.state) :
  List.length (Page.domains (Page.refreshDomain r id s))
  = List.length (Page.domains s)
  /\ (forall d, In d (Page.domains s) -> dom_id d <> id ->
        In d (Page.domains (Page.refreshDomain r id s)))
  /\ (forall b d', Js.truthy (Page.accessToken s) = true ->
        r = Page.Response true (Some b) -> Page.body_domain b = Some d' ->
        Page.domains (Page.refreshDomain r id s)
        = map (fun d => if String.eqb (dom_id d) id then d' else d) (Page.domains s)).
Proof.
  unfold Page.refreshDomain.
  split; [|split].
  - destruct (Js.truthy (Page.accessToken s)); [|reflexivity].
    destruct r as [|[|] [b|]]; try reflexivity.
    cbn. destruct (Page.body_domain b); [|reflexivity].
    cbn. apply List.length_map.
  - intros d Hin Hne.
    destruct (Js.truthy (Page.accessToken s)); [|exact Hin].
    destruct r as [|[|] [b|]]; try exact Hin.
    cbn. destruct (Page.body_domain b); [|exact Hin].
    cbn. apply in_map_iff. exists d. split; [|exact Hin].
    apply String.eqb_neq in Hne. now rewrite Hne.
  - intros b d' Ht -> Hb. rewrite Ht. cbn. rewrite Hb. reflexivity.
Qed.

Lemma refreshDomain_replaces_in_place_witness :
  Page.domains
    (Page.refreshDomain
       (Page.Response true (Some (Page.mkBody None (Some stored_unmapped) None None)))
       "d1" page_state)
  = [stored_unmapped; stored_later].
Proof.
  destruct (refreshDomain_replaces_in_place
              (Page.Response true (Some (Page.mkBody None (Some stored_unmapped) None None)))
              "d1" page_state) as [_ [_ Hmap]].
  rewrite (Hmap _ stored_unmapped eq_refl eq_refl eq_refl). reflexivity.
Defined.

Lemma bearer_token (tok : string) :
  has_space tok = false -> tok <> "" ->
  getTokenFromRequest (Some (Page.bearer tok)) = Some tok.
Proof. intros Hs Hne. now apply (token_second_component "Bearer" tok). Qed.

(** X21: page and API together.  When the page loads its domains with the
    token of a session (no space in it), the list it shows is exactly the
    rows of the domains table owned by the user of that session, later
    creation times first; when the token does not resolve or the store
    fails, the list is empty.  The loading flag is off at the end in every
    case. *)
Theorem page_lists_the_rows_of_its_user
  (o : oracle) (w : world) (s : Page.state) (tok : string) :
  has_space tok = false ->
  tok <> "" ->
  let res := fst (GET o (list_request (Page.bearer tok)) w) in
  let s' := Page.loadDomains (Some tok) (reply_of_list res) s in
  (forall user, auth_getUser o tok = Some user -> domains_select_error o = None ->
     Page.domains s' = order_desc (filter (owned_by user) (domains w)))
  /\ (auth_getUser o tok = None \/ domains_select_error o <> None ->
      Page.domains s' = [])
  /\ Page.domainsLoading s' = false
  /\ Page.calls s' = Page.ListDomains (Page.bearer tok) :: Page.calls s.
Proof.
  intros Hs Hne res s'.
  pose proof (bearer_token tok Hs Hne) as Htok.
  assert (Hauth : Js.or_else (Some tok) (Page.accessToken s) = Some tok).
  { unfold Js.or_else. now rewrite (truthy_some _ Hne). }
  assert (Hs' : s' = Page.setDomainsLoading false
                       (match reply_of_list res with
                        | Page.Rejected =>
                            Page.setDomains (fun _ => [])
                              (Page.send (Page.ListDomains (Page.bearer tok))
                                 (Page.setDomainsLoading true s))
                        | Page.Response ok body =>
                            if negb ok
                            then Page.setDomains (fun _ => [])
                                   (Page.send (Page.ListDomains (Page.bearer tok))
                                      (Page.setDomainsLoading true s))
                            else Page.setDomains
                                   (fun _ => match body with
                                             | Some rows => rows
                                             | None => []
                                             end)
                                   (Page.send (Page.ListDomains (Page.bearer tok))
                                      (Page.setDomainsLoading true s))
                        end)).
  { subst s'. unfold Page.loadDomains. rewrite Hauth, (truthy_some _ Hne).
    cbn [negb]. now rewrite str_or_empty. }
  split; [|split; [|split]].
  - intros user Hu Hsel. rewrite Hs'. subst res.
    rewrite (GET_ok o (list_request (Page.bearer tok)) w tok user Htok Hu Hsel).
    reflexivity.
  - intros Hfail. rewrite Hs'. subst res.
    destruct (auth_getUser o tok) as [user|] eqn:Hu.
    + destruct Hfail as [Hfail|Hfail]; [discriminate|].
      destruct (domains_select_error o) as [m|] eqn:Hsel; [|congruence].
      unfold GET, catch_list_500, bind.
      rewrite (ensureUser_with_token o (list_request (Page.bearer tok)) w tok Htok), Hu.
      unfold select_domains_of_user. rewrite Hsel. reflexivity.
    + rewrite (GET_unauthorized o (list_request (Page.bearer tok)) w tok Htok Hu). reflexivity.
  - rewrite Hs'. destruct (reply_of_list res) as [|[|] body]; reflexivity.
  - rewrite Hs'. destruct (reply_of_list res) as [|[|] body]; reflexivity.
Qed.

Lemma page_lists_the_rows_of_its_user_witness :
  Page.domains
    (Page.loadDomains (Some "tok-alice")
       (reply_of_list
          (fst (GET (oracle_with (Rejects "down"))
                    (list_request (Page.bearer "tok-alice"))
                    (mkWorld [] [stored_cname; stored_bob; stored_later] [] []))))
       page_state)
  = [stored_later; stored_cname].
Proof.
  destruct (page_lists_the_rows_of_its_user (oracle_with (Rejects "down"))
              (mkWorld [] [stored_cname; stored_bob; stored_later] [] [])
              page_state "tok-alice") as [Hrows _];
    [reflexivity | discriminate |].
  rewrite (Hrows "alice" eq_refl eq_refl). reflexivity.
Defined.

Lemma trimEnd_idem (s : string) : Js.trimEnd (Js.trimEnd s) = Js.trimEnd s.
Proof.
  induction s as [|c r IH]; simpl; [reflexivity|].
  destruct (Js.trimEnd r) as [|a b] eqn:E.
  - destruct (Js.is_space c) eqn:Ec; simpl; [reflexivity | now rewrite Ec].
  - change (Js.trimEnd (String c (String a b)))
      with (match Js.trimEnd (String a b) with
            | EmptyString => if Js.is_space c then EmptyString else String c EmptyString
            | r' => String c r'
            end).
    now rewrite IH.
Qed.

Lemma trimStart_clean (s : string) :
  match Js.trimStart s with
  | EmptyString => True
  | String c _ => Js.is_space c = false
  end.
Proof.
  induction s as [|c r IH]; simpl; [exact I|].
  destruct (Js.is_space c) eqn:Ec; [exact IH | exact Ec].
Qed.

Lemma trimStart_trimEnd (s : string) :
  match s with EmptyString => True | String c _ => Js.is_space c = false end ->
  Js.trimStart (Js.trimEnd s) = Js.trimEnd s.
Proof.
  destruct s as [|c r]; [reflexivity|]. intros Hc. simpl.
  destruct (Js.trimEnd r); rewrite ?Hc; simpl; rewrite ?Hc; reflexivity.
Qed.

Lemma trim_idem (s : string) : Js.trim (Js.trim s) = Js.trim s.
Proof.
  unfold Js.trim.
  rewrite (trimStart_trimEnd (Js.trimStart s) (trimStart_clean s)).
  apply trimEnd_idem.
Qed.

(** X22: page and API agree on what a missing hostname is.  A hostname
    field that is blank after trimming is refused by the page with an alert
    and no request is sent.  Otherwise the page sends the trimmed hostname
    for the open site with the session token; the API extracts that token
    and reads back the same hostname, and, the site id not being blank,
    never answers that request with "Missing siteId or hostname". *)
Theorem page_and_api_agree_on_blank_hostnames
  (r : Page.reply Page.api_body) (s : Page.state) (site : Page.Site) (tok : string) :
  Page.domainModalSite s = Some site ->
  Page.accessToken s = Some tok ->
  tok <> "" ->
  has_space tok = false ->
  let s' := Page.addCustomDomain r s in
  let h := Js.trim (Page.newDomain s) in
  let req := mkRequest (Some (Page.bearer tok))
               (Some (mkPayload (Some (Page.id site)) (Some h) None)) in
  (h = "" ->
     Page.calls s' = Page.calls s
     /\ Page.domains s' = Page.domains s
     /\ Page.alerts s' = "Enter a hostname (e.g. example.com)" :: Page.alerts s)
  /\ (h <> "" ->
      Page.calls s' = Page.PostDomain (Page.bearer tok) (Page.id site) h :: Page.calls s
      /\ getTokenFromRequest (authorization req) = Some tok
      /\ trimmed req hostname = Some h
      /\ forall e o w,
           Js.trim (Page.id site) <> "" ->
           fst (POST e o req w) <> json_error "Missing siteId or hostname" 400).
Proof.
  intros Hsite Htok Hne Hsp s' h req. split.
  - intros Hh. subst s'. unfold Page.addCustomDomain. rewrite Hsite.
    fold h. rewrite Hh. cbn. auto.
  - intros Hh.
    assert (Hreq : trimmed req hostname = Some h).
    { unfold trimmed, req. cbn. unfold h. now rewrite trim_idem. }
    split.
    { subst s'. unfold Page.addCustomDomain. rewrite Hsite. fold h.
      rewrite (truthy_some _ Hh), Htok, (truthy_some _ Hne), str_or_empty.
      cbn [negb]. destruct r as [|[|] [b|]]; try reflexivity.
      cbn. destruct (Page.body_domain b); reflexivity. }
    split; [now apply bearer_token|]. split; [exact Hreq|].
    intros e o w Hid.
    assert (Hsid : trimmed req siteId = Some (Js.trim (Page.id site))) by reflexivity.
    assert (Hreqtok : getTokenFromRequest (authorization req) = Some tok)
      by now apply bearer_token.
    unfold_route. rewrite Hreqtok, Hsid, Hreq.
    rewrite (truthy_some _ Hid), (truthy_some _ Hh). case_loop;
      cbn [fst json_error json_ok]; try discriminate;
      try (destruct (Js.str_or _ _); discriminate).
Qed.

Lemma page_and_api_agree_on_blank_hostnames_witness :
  Page.calls (Page.addCustomDomain Page.Rejected add_state)
  = [Page.PostDomain "Bearer tok-alice" "s1" "Example.com"].
Proof.
  destruct (page_and_api_agree_on_blank_hostnames Page.Rejected add_state
              (Page.mkSite "s1" "alice-site" "https://alice-site.simplhost.com" "2024")
              "tok-alice") as [_ Hsent];
    [reflexivity | reflexivity | discriminate | reflexivity |].
  destruct Hsent as [Hcalls _]; [discriminate|].
  exact Hcalls.
Defined.

(* ================================================================= *)
(** ** The deploy page *)

Lemma cons_not_self {A} (x : A) (l : list A) : x :: l <> l.
Proof.
  intros H. apply (f_equal (@List.length A)) in H. simpl in H. lia.
Qed.

Lemma trim_blank (s : string) : all_space s = true -> Js.trim s = "".
Proof. intros H. unfold Js.trim. now rewrite (trimStart_blank s H). Qed.

(** X24: [deploySite] uploads nothing, and shows the alert asking for a
    subdomain and content, when the subdomain is empty, when no file is
    chosen in file mode, or when the pasted HTML or text is blank.  Whatever
    it does upload goes under the subdomain as typed, and is the chosen file
    in file mode, and otherwise the pasted content, unchanged, as
    [index.html] (text/html) or [content.txt] (text/plain). *)
Theorem deploySite_needs_content
  (r : Page.reply Dashboard.deploy_body) (s : Dashboard.state) :
  (Dashboard.subdomain s = ""
   \/ (Dashboard.sourceType s = Dashboard.FromFile /\ Dashboard.chosen s = None)
   \/ (Dashboard.sourceType s = Dashboard.FromHtml
       /\ all_space (Dashboard.htmlContent s) = true)
   \/ (Dashboard.sourceType s = Dashboard.FromText
       /\ all_space (Dashboard.textContent s) = true) ->
   Dashboard.uploads (Dashboard.deploySite r s) = Dashboard.uploads s
   /\ Dashboard.alerts (Dashboard.deploySite r s)
      = "Enter subdomain and add content (file, HTML, or text)" :: Dashboard.alerts s)
  /\ (forall a sub f,
        Dashboard.uploads (Dashboard.deploySite r s) = (a, sub, f) :: Dashboard.uploads s ->
        sub = Dashboard.subdomain s
        /\ sub <> ""
        /\ match Dashboard.sourceType s with
           | Dashboard.FromFile => Dashboard.chosen s = Some f
           | Dashboard.FromHtml =>
               f = Dashboard.mkFile "index.html" "text/html" (Dashboard.htmlContent s)
               /\ Js.trim (Dashboard.htmlContent s) <> ""
           | Dashboard.FromText =>
               f = Dashboard.mkFile "content.txt" "text/plain" (Dashboard.textContent s)
               /\ Js.trim (Dashboard.textContent s) <> ""
           end).
Proof.
  split.
  - intros H. unfold Dashboard.deploySite.
    destruct H as [H|[[Hm H]|[[Hm H]|[Hm H]]]].
    + rewrite H. destruct (Dashboard.buildUploadFile s); cbn; auto.
    + unfold Dashboard.buildUploadFile. rewrite Hm, H. cbn. auto.
    + unfold Dashboard.buildUploadFile. rewrite Hm, (trim_blank _ H). cbn. auto.
    + unfold Dashboard.buildUploadFile. rewrite Hm, (trim_blank _ H). cbn. auto.
  - intros a sub f. unfold Dashboard.deploySite.
    destruct (Dashboard.buildUploadFile s) as [u|] eqn:Hb;
      [|cbn; intros H; symmetry in H; destruct (cons_not_self _ _ H)].
    destruct (Js.truthy (Some (Dashboard.subdomain s))) eqn:Hsub;
      [|cbn; intros H; symmetry in H; destruct (cons_not_self _ _ H)].
    destruct (Js.truthy (Dashboard.accessToken s)) eqn:Htok;
      [|cbn; intros H; symmetry in H; destruct (cons_not_self _ _ H)].
    cbn [negb].
    intros H.
    assert (Hu : sub = Dashboard.subdomain s /\ u = f).
    { destruct r as [|ok [data|]];
        [|destruct (Dashboard.success data) eqn:Hd; rewrite ?Hd in H|];
        cbn in H; injection H as _ <- <-; auto. }
    destruct Hu as [-> <-].
    destruct (truthy_inv _ Hsub) as [x [Hx Hne]]. injection Hx as <-.
    split; [reflexivity|]. split; [exact Hne|].
    unfold Dashboard.buildUploadFile in Hb.
    destruct (Dashboard.sourceType s).
    + exact Hb.
    + destruct (Js.truthy (Some (Js.trim (Dashboard.htmlContent s)))) eqn:Hc;
        cbn in Hb; [|discriminate].
      injection Hb as <-. split; [reflexivity|].
      destruct (truthy_inv _ Hc) as [y [Hy Hny]]. now injection Hy as <-.
    + destruct (Js.truthy (Some (Js.trim (Dashboard.textContent s)))) eqn:Hc;
        cbn in Hb; [|discriminate].
      injection Hb as <-. split; [reflexivity|].
      destruct (truthy_inv _ Hc) as [y [Hy Hny]]. now injection Hy as <-.
Qed.

Lemma deploySite_needs_content_witness :
  Dashboard.uploads (Dashboard.deploySite Page.Rejected html_state) = []
  /\ Dashboard.alerts (Dashboard.deploySite Page.Rejected html_state)
     = ["Enter subdomain and add content (file, HTML, or text)"].
Proof.
  destruct (deploySite_needs_content Page.Rejected html_state) as [Hblank _].
  apply Hblank. right; right; left. split; reflexivity.
Defined.

(* ================================================================= *)
(** ** The list of the page against the table of the API *)

Lemma ok_flag_200 : (200 <=? 200) && (200 <=? 299) = true.
Proof. reflexivity. Qed.

Lemma reply_not_ok records (r : http_response) :
  status_code r = 400 \/ status_code r = 401 \/ status_code r = 404
  \/ status_code r = 409 \/ status_code r = 500 ->
  exists b, reply_of_response records r = Page.Response false (Some b).
Proof.
  intros H. unfold reply_of_response. eexists.
  destruct H as [->|[->|[->|[->| ->]]]]; reflexivity.
Qed.

(** The statuses the three handlers answer with. *)
Lemma handler_statuses e o req w :
  let known (r : http_response) :=
    status_code r = 200 \/ status_code r = 400 \/ status_code r = 401
    \/ status_code r = 404 \/ status_code r = 409 \/ status_code r = 500 in
  known (fst (POST e o req w)) /\ known (fst (PATCH e o req w))
  /\ known (fst (DELETE e o req w)).
Proof.
  cbv zeta. repeat split; route_cases; cbn; auto 10.
Qed.

Lemma failed_reply records (r : http_response) :
  status_code r <> 200 ->
  status_code r = 200 \/ status_code r = 400 \/ status_code r = 401
  \/ status_code r = 404 \/ status_code r = 409 \/ status_code r = 500 ->
  exists b, reply_of_response records r = Page.Response false (Some b).
Proof.
  intros Hne [H|H]; [contradiction|]. now apply reply_not_ok.
Qed.

(** X23: page and API together keep the list of the page inside the table
    of the API.  If every row the page shows is in the domains table, then
    this still holds after the page deletes a domain, refreshes a domain or
    adds a domain and the API handles the request the page sends (ids
    without surrounding white space, a session token without space). *)
Theorem page_list_stays_inside_table
  (e : process_env) (o : oracle) (w : world) (s : Page.state) (tok : string)
  (records : option (list Page.dns_record)) :
  Page.accessToken s = Some tok ->
  tok <> "" ->
  has_space tok = false ->
  incl (Page.domains s) (domains w) ->
  (forall id, Js.trim id = id ->
     let r := DELETE e o (page_request (Page.bearer tok) (mkPayload None None (Some id))) w in
     incl (Page.domains (Page.deleteDomain true (reply_of_response records (fst r)) id s))
          (domains (snd r)))
  /\ (forall id, Js.trim id = id ->
     let r := PATCH e o (page_request (Page.bearer tok) (mkPayload None None (Some id))) w in
     incl (Page.domains (Page.refreshDomain (reply_of_response records (fst r)) id s))
          (domains (snd r)))
  /\ (forall site, Page.domainModalSite s = Some site ->
     let r := POST e o (page_request (Page.bearer tok)
                          (mkPayload (Some (Page.id site))
                                     (Some (Js.trim (Page.newDomain s))) None)) w in
     incl (Page.domains (Page.addCustomDomain (reply_of_response records (fst r)) s))
          (domains (snd r))).
Proof.
  intros Htok Hne Hsp Hsync.
  assert (Htruthy : Js.truthy (Page.accessToken s) = true)
    by (rewrite Htok; now apply truthy_some).
  split; [|split].
  - intros id Hid r. subst r.
    set (req := page_request (Page.bearer tok) (mkPayload None None (Some id))).
    unfold Page.deleteDomain. rewrite Htruthy. cbn [negb].
    destruct (DELETE_shape e o req w)
      as [[Hs [Hd _]] | [tok' [user [did [d [_ [_ [Hdid [_ [_ [_ Hp]]]]]]]]]]].
    + destruct (failed_reply records _ Hs (proj2 (proj2 (handler_statuses e o req w))))
        as [b ->].
      cbn. now rewrite Hd.
    + rewrite Hp. cbn [fst snd domains reply_of_response status_code json_ok].
      rewrite ok_flag_200. cbn [negb Page.domains Page.setDomains Page.send].
      assert (Hsame : did = id).
      { unfold trimmed, req, page_request in Hdid. cbn in Hdid.
        injection Hdid as <-. exact Hid. }
      subst did. intros x Hx. apply filter_In in Hx as [Hx Hnid].
      apply filter_In. split; [now apply Hsync|].
      unfold domain_matches. apply negb_true_iff in Hnid. now rewrite Hnid.
  - intros id Hid r. subst r.
    set (req := page_request (Page.bearer tok) (mkPayload None None (Some id))).
    unfold Page.refreshDomain. rewrite Htruthy. cbn [negb].
    destruct (PATCH_shape e o req w)
      as [[Hs [Hd _]] | [tok' [user [did [d [j [_ [_ [Hdid [_ [Hrow [_ [_ Hp]]]]]]]]]]]]].
    + destruct (failed_reply records _ Hs (proj1 (proj2 (handler_statuses e o req w))))
        as [b ->].
      cbn. now rewrite Hd.
    + rewrite Hp. cbn [fst snd domains reply_of_response status_code json_ok body].
      rewrite ok_flag_200.
      cbn [negb Page.body_domain Page.domains Page.setDomains Page.setDnsTip Page.send].
      assert (Hsame : did = id).
      { unfold trimmed, req, page_request in Hdid. cbn in Hdid.
        injection Hdid as <-. exact Hid. }
      subst did. destruct (loaded_row_matches _ _ _ _ Hrow) as [Hin Hm].
      intros x Hx. apply in_map_iff in Hx as [y [Hy Hyin]].
      destruct (String.eqb (dom_id y) id) eqn:Hyid.
      * subst x. apply in_map_iff. exists d. now rewrite Hm.
      * subst x. apply in_map_iff. exists y. split; [|now apply Hsync].
        unfold domain_matches. now rewrite Hyid.
  - intros site Hsite r. subst r.
    set (req := page_request (Page.bearer tok)
                  (mkPayload (Some (Page.id site))
                             (Some (Js.trim (Page.newDomain s))) None)).
    unfold Page.addCustomDomain. rewrite Hsite.
    destruct (Js.truthy (Some (Js.trim (Page.newDomain s)))) eqn:Hh; cbn [negb].
    2: { cbn [Page.alert Page.domains].
         destruct (POST_shape e o req w)
           as [[_ [Hd _]] | [t' [u [sid [raw [st [j [_ [_ [_ [_ [_ [_ [_ [_ [_ Hp]]]]]]]]]]]]]]]].
         - now rewrite Hd.
         - rewrite Hp. cbn [snd domains]. intros x Hx. apply in_or_app. left.
           now apply Hsync. }
    rewrite Htruthy. cbn [negb].
    destruct (POST_shape e o req w)
      as [[Hs [Hd _]] | [t' [u [sid [raw [st [j [_ [_ [_ [_ [_ [_ [_ [_ [_ Hp]]]]]]]]]]]]]]]].
    + destruct (failed_reply records _ Hs (proj1 (handler_statuses e o req w)))
        as [b ->].
      cbn. now rewrite Hd.
    + rewrite Hp. cbn [fst snd domains reply_of_response status_code json_ok body].
      rewrite ok_flag_200.
      cbn [negb Page.body_domain Page.domains Page.setDomains Page.setDnsTip
           Page.setNewDomain Page.setAddingDomain Page.send].
      intros x [<-|Hx]; apply in_or_app; [right; now left | left; now apply Hsync].
Qed.

Lemma page_list_stays_inside_table_witness :
  let w := mkWorld [] [stored_cname; stored_bob; stored_later] [] [] in
  let r := DELETE configured_env (oracle_with (Rejects "down"))
             (page_request (Page.bearer "tok-alice") (mkPayload None None (Some "d1"))) w in
  incl (Page.domains (Page.deleteDomain true (reply_of_response None (fst r)) "d1" page_state))
       (domains (snd r)).
Proof.
  cbv zeta.
  destruct (page_list_stays_inside_table configured_env (oracle_with (Rejects "down"))
              (mkWorld [] [stored_cname; stored_bob; stored_later] [] [])
              page_state "tok-alice" None) as [Hdel _];
    [reflexivity | discriminate | reflexivity | |].
  - intros x [<-|[<-|[]]]; cbn; auto.
  - exact (Hdel "d1" eq_refl).
Defined.

Lemma str_or_nonempty (v : option string) (d : string) :
  d <> "" -> Js.str_or v d <> "".
Proof.
  intros Hd. unfold Js.str_or, Js.or_else.
  destruct (Js.truthy v) eqn:Ev; [|exact Hd].
  destruct (truthy_inv v Ev) as [s [-> Hs]]. exact Hs.
Qed.

Ltac error_leaf :=
  right; split;
  [ cbn; auto 10
  | eexists; split;
    [ reflexivity
    | first [ discriminate | apply str_or_nonempty; discriminate ] ] ].

(** Every answer is a success answer or an error answer. *)
Lemma answer_is_ok_or_error
  (e : process_env) (o : oracle) (req : request) (w : world) :
  ((exists d records,
       fst (POST e o req w)
       = json_ok (DomainJson d records (CLOUDFLARE_CNAME_TARGET e)))
   \/ error_answer [400; 401; 404; 409; 500] (fst (POST e o req w)))
  /\ ((exists d records,
         fst (PATCH e o req w)
         = json_ok (DomainJson d records (CLOUDFLARE_CNAME_TARGET e)))
      \/ error_answer [400; 401; 404; 500] (fst (PATCH e o req w)))
  /\ (fst (DELETE e o req w) = json_ok SuccessJson
      \/ error_answer [400; 401; 404; 500] (fst (DELETE e o req w))).
Proof.
  unfold error_answer. split; [|split]; route_cases;
    cbn [fst json_error json_ok status_code body];
    first [ left; first [reflexivity | do 2 eexists; reflexivity]
          | error_leaf ].
Qed.

Lemma ok_answer_status (r : http_response) (b : response_body) :
  r = json_ok b -> status_code r = 200.
Proof. now intros ->. Qed.

(** X25: what the callers of the API can rely on.  Whatever the request,
    the store and the provider do, POST and PATCH answer either 200 with
    the configured CNAME target, the validation records of the provider
    answer and a row that is in the domains table once the handler is done
    (the row POST appended, the row PATCH refreshed), or an error; DELETE
    answers either 200 with the success body, the table then holding no
    row of the requested id and requester, or an error.  An error has
    status 400, 401, 404 or 500 (POST also 409), always carries a message
    that is not empty, and leaves the table as it was. *)
Theorem answers_are_success_or_error
  (e : process_env) (o : oracle) (req : request) (w : world) :
  ((exists d j,
       fst (POST e o req w)
       = json_ok (DomainJson d (validation_records_of j) (CLOUDFLARE_CNAME_TARGET e))
       /\ provider_answers e o j
       /\ domains (snd (POST e o req w)) = domains w ++ [d])
   \/ (error_answer [400; 401; 404; 409; 500] (fst (POST e o req w))
       /\ domains (snd (POST e o req w)) = domains w))
  /\ ((exists d j,
         fst (PATCH e o req w)
         = json_ok (DomainJson d (validation_records_of j) (CLOUDFLARE_CNAME_TARGET e))
         /\ provider_answers e o j
         /\ In d (domains (snd (PATCH e o req w)))
         /\ Some (dom_id d) = trimmed req id)
      \/ (error_answer [400; 401; 404; 500] (fst (PATCH e o req w))
          /\ domains (snd (PATCH e o req w)) = domains w))
  /\ ((fst (DELETE e o req w) = json_ok SuccessJson
       /\ forall d,
            In d (domains (snd (DELETE e o req w)))
            <-> In d (domains w)
                /\ ~ (Some (dom_id d) = trimmed req id
                      /\ exists tok,
                           getTokenFromRequest (authorization req) = Some tok
                           /\ auth_getUser o tok = Some (dom_user_id d)))
      \/ (error_answer [400; 401; 404; 500] (fst (DELETE e o req w))
          /\ domains (snd (DELETE e o req w)) = domains w)).
Proof.
  destruct (answer_is_ok_or_error e o req w) as [HP [HU HD]].
  split; [|split].
  - destruct (POST_shape e o req w)
      as [[Hs [Hd _]] | [tok [user [sid [raw [site [j
           [_ [_ [_ [_ [_ [_ [_ [_ [Hj Hp]]]]]]]]]]]]]]]].
    + right. split; [|exact Hd].
      destruct HP as [[d [records Hok]]|Herr]; [|exact Herr].
      destruct (Hs (ok_answer_status _ _ Hok)).
    + left. exists (created_row o user site (normalizeHostname raw) j), j.
      rewrite Hp. auto.
  - destruct (PATCH_shape e o req w)
      as [[Hs [Hd _]] | [tok [user [did [d [j
           [_ [_ [Hid [_ [Hrow [_ [Hj Hp]]]]]]]]]]]]].
    + right. split; [|exact Hd].
      destruct HU as [[d [records Hok]]|Herr]; [|exact Herr].
      destruct (Hs (ok_answer_status _ _ Hok)).
    + left. exists (refreshed (clock_now o) j d), j. rewrite Hp.
      cbn [fst snd domains].
      destruct (loaded_row_matches _ _ _ _ Hrow) as [Hin Hm].
      split; [reflexivity|]. split; [exact Hj|]. split.
      * apply in_map_iff. exists d. now rewrite Hm.
      * rewrite Hid. cbn [refreshed dom_id]. f_equal.
        unfold domain_matches in Hm. apply andb_true_iff in Hm as [Hm _].
        now apply String.eqb_eq in Hm.
  - destruct (DELETE_shape e o req w)
      as [[Hs [Hd _]] | [tok [user [did [d [Ht [Hu [Hid [_ [Hrow [_ Hp]]]]]]]]]]].
    + right. split; [|exact Hd].
      destruct HD as [Hok|Herr]; [|exact Herr].
      destruct (Hs (ok_answer_status _ _ Hok)).
    + left. rewrite Hp. cbn [fst snd domains]. split; [reflexivity|].
      intros x. rewrite filter_In, Hid. split.
      * intros [Hx Hn]. split; [exact Hx|].
        intros [Heq [tok' [Ht' Hu']]].
        injection Heq as Heq. rewrite Ht in Ht'. injection Ht' as <-.
        rewrite Hu in Hu'. injection Hu' as Hu'.
        apply negb_true_iff in Hn. unfold domain_matches in Hn.
        now rewrite Heq, <- Hu', !String.eqb_refl in Hn.
      * intros [Hx Hnot]. split; [exact Hx|].
        apply negb_true_iff.
        destruct (domain_matches did user x) eqn:Hm; [|reflexivity].
        exfalso. apply Hnot. unfold domain_matches in Hm.
        apply andb_true_iff in Hm as [Hi Ho]. apply String.eqb_eq in Hi, Ho.
        split; [now rewrite Hi|]. exists tok. split; [exact Ht|]. now rewrite Ho.
Qed.

Lemma answers_are_success_or_error_witness :
  let o := oracle_with (Responds true (Value (answer txt_then_cname))) in
  let w := mkWorld [alice_site] [stored_bob] [] [] in
  exists d j,
    fst (POST configured_env o create_request w)
    = json_ok (DomainJson d (validation_records_of j)
                 (CLOUDFLARE_CNAME_TARGET configured_env))
    /\ provider_answers configured_env o j
    /\ domains (snd (POST configured_env o create_request w)) = domains w ++ [d].
Proof.
  cbv zeta.
  destruct (answers_are_success_or_error configured_env
              (oracle_with (Responds true (Value (answer txt_then_cname))))
              create_request (mkWorld [alice_site] [stored_bob] [] []))
    as [[Hok | [[_ [m [Hm _]]] _]] _].
  - exact Hok.
  - vm_compute in Hm. discriminate Hm.
Defined.
